(** * KPI formula evaluator ([src/KPIs/formulas.py]): embedding and properties

    [FormulaParser] is a small interpreter over formula strings.  It is
    embedded here as pure functions that return either a number or the
    [ValueError] the Python code raises.

    - A Python [str] is a list of code points.  The data is read as Latin-1
      ([ingestion.py]), so a code point is an [ascii] (0..255); the character
      classes are Python's on that range.
    - The two regular expressions and the [re.sub] call are embedded as the
      string functions they denote.
    - A pandas column is a list of optional cells, numeric or object; the
      columns of a frame have one length and distinct labels.
    - Numbers are exact rationals: the rounding, overflow and underflow of
      binary64 and the wrap-around of int64 are outside the model.  NaN, the
      result of reducing a column without values, is kept.  A statement about
      the value of a product, a sum or a mean of cells assumes cells for
      which the arithmetic of the code is exact ([exact_sum],
      [exact_products]).
    - Text is Latin-1: under [re.IGNORECASE] the patterns of the code also
      match a few letters above code point 255 (the long s, the dotless i),
      which a [pystr] cannot hold.
    - What Python and pandas do beyond that (the built-in [float] on a
      string, numeric reductions over object columns) is a parameter, the
      class [Runtime]; [Reference.runtime] is an instance to compute with. *)

From Stdlib Require Import List Bool Arith Lia Ascii String ZArith QArith Qabs.
Import ListNotations.

(** ** Python strings *)

Module PyStr.

Definition pystr := list ascii.

Definition str (s : string) : pystr := list_ascii_of_string s.

Definition code (c : ascii) : nat := nat_of_ascii c.

Definition between (lo hi n : nat) : bool := (lo <=? n) && (n <=? hi).

(** [str.isspace] / the regex class [\s] on code points below 256. *)
Definition is_space (c : ascii) : bool :=
  let n := code c in
  between 9 13 n || between 28 32 n || (n =? 133) || (n =? 160).

(** The regex class [\w]: alphanumeric code points and the underscore. *)
Definition is_word (c : ascii) : bool :=
  let n := code c in
  between 48 57 n || between 65 90 n || between 97 122 n || (n =? 95)
  || (n =? 170) || between 178 179 n || (n =? 181) || between 185 186 n
  || between 188 190 n || between 192 214 n || between 216 246 n
  || between 248 255 n.

(** [str.lower] on one code point. *)
Definition lower_char (c : ascii) : ascii :=
  let n := code c in
  if between 65 90 n || (between 192 222 n && negb (n =? 215))
  then ascii_of_nat (n + 32) else c.

Definition lower (s : pystr) : pystr := map lower_char s.

Fixpoint eqb (a b : pystr) : bool :=
  match a, b with
  | [], [] => true
  | x :: a', y :: b' => Ascii.eqb x y && eqb a' b'
  | _, _ => false
  end.

Fixpoint lstrip (s : pystr) : pystr :=
  match s with
  | [] => []
  | c :: t => if is_space c then lstrip t else s
  end.

Definition rstrip (s : pystr) : pystr := rev (lstrip (rev s)).

(** [s.strip()] *)
Definition strip (s : pystr) : pystr := rstrip (lstrip s).

Fixpoint prefix (p s : pystr) : bool :=
  match p, s with
  | [], _ => true
  | a :: p', c :: s' => Ascii.eqb a c && prefix p' s'
  | _ :: _, [] => false
  end.

(** [sub in s] *)
Fixpoint contains (sub s : pystr) : bool :=
  prefix sub s ||
  match s with
  | [] => false
  | _ :: t => contains sub t
  end.

(** [s.split(sep)] for a one-character separator. *)
Fixpoint split (sep : ascii) (s : pystr) : list pystr :=
  match s with
  | [] => [[]]
  | c :: t =>
      if Ascii.eqb c sep then [] :: split sep t
      else match split sep t with
           | p :: ps => (c :: p) :: ps
           | [] => [[c]]
           end
  end.

(** The literal [p] matches at the start of [s] under [re.IGNORECASE]. *)
Fixpoint prefix_ci (p s : pystr) : bool :=
  match p, s with
  | [], _ => true
  | a :: p', c :: s' =>
      Ascii.eqb (lower_char a) (lower_char c) && prefix_ci p' s'
  | _ :: _, [] => false
  end.

(** The longest prefix of characters satisfying [f], and the rest. *)
Fixpoint span (f : ascii -> bool) (s : pystr) : pystr * pystr :=
  match s with
  | [] => ([], [])
  | c :: t =>
      if f c then let (a, b) := span f t in (c :: a, b) else ([], s)
  end.

Definition newline : ascii := ascii_of_nat 10.

(** What the greedy wildcard can cover: everything up to the first newline. *)
Fixpoint line (s : pystr) : pystr :=
  match s with
  | [] => []
  | c :: t => if Ascii.eqb c newline then [] else c :: line t
  end.

(** The part of [s] before the last occurrence of [c], if [c] occurs. *)
Fixpoint before_last (c : ascii) (s : pystr) : option pystr :=
  match s with
  | [] => None
  | x :: t =>
      match before_last c t with
      | Some p => Some (x :: p)
      | None => if Ascii.eqb x c then Some [] else None
      end
  end.

(** The call pattern of [_execute_aggregate] (a word, an opening
    parenthesis, any text, a closing parenthesis) applied with [re.match]:
    groups 1 and 2.  The greedy word group takes the whole leading run of
    word characters, which must be followed by an opening parenthesis; the
    greedy wildcard group then runs to the end of the line and backtracks
    to the last closing parenthesis on it. *)
Definition match_call (s : pystr) : option (pystr * pystr) :=
  match span is_word s with
  | ((_ :: _) as w, c :: body) =>
      if Ascii.eqb c "("%char
      then match before_last ")"%char (line body) with
           | Some args => Some (w, args)
           | None => None
           end
      else None
  | _ => None
  end.

(** One match of the word distinct followed by whitespace (ignoring case)
    at the start of [s]: the text after the match. *)
Definition eat_distinct (s : pystr) : option pystr :=
  if prefix_ci (str "distinct") s
  then match skipn 8 s with
       | c :: r => if is_space c then Some (lstrip r) else None
       | [] => None
       end
  else None.

Fixpoint sub_distinct_fuel (n : nat) (s : pystr) : pystr :=
  match n with
  | O => []
  | S n' =>
      match s with
      | [] => []
      | c :: t =>
          match eat_distinct s with
          | Some r => sub_distinct_fuel n' r
          | None => c :: sub_distinct_fuel n' t
          end
      end
  end.

(** The [re.sub] call of [_execute_distinct_count]: every match of the
    word distinct followed by whitespace is deleted, left to right.  Every
    step consumes at least one character, so [length s] steps suffice. *)
Definition sub_distinct (s : pystr) : pystr :=
  sub_distinct_fuel (List.length s) s.

(** [f(c)] as formula text. *)
Definition call (f c : pystr) : pystr := f ++ str "(" ++ c ++ str ")".

(** Properties of a column name [c] under which the formula text names it:
    - [trimmed]: not empty, no white space at either end ([strip] keeps it);
    - [one_line]: no newline (the wildcard of the call pattern covers it);
    - [star_free]: no asterisk (it is not split as a product);
    - [mentions_distinct]: the test of [_execute_aggregate] on the argument;
    - [keeps_distinct]: the [re.sub] of the distinct count deletes nothing,
      that is, the text holds no distinct followed by white space
      ([keeps_distinct_spec]).
    A [plain] name is trimmed and on one line; an [operand] is a plain name
    that the distinct count keeps.  Every [identifier] (a word, such as the
    column names of the retail data) is an operand without asterisk. *)
Definition first_ok (s : pystr) : bool :=
  match s with
  | [] => false
  | c :: _ => negb (is_space c)
  end.

Definition trimmed (s : pystr) : bool := first_ok s && first_ok (rev s).

Definition one_line (s : pystr) : bool := forallb (fun c => negb (Ascii.eqb c newline)) s.

Definition star_free (s : pystr) : bool := forallb (fun c => negb (Ascii.eqb c "*"%char)) s.

Definition mentions_distinct (s : pystr) : bool := contains (str "distinct") (lower s).

Definition keeps_distinct (s : pystr) : bool := eqb (sub_distinct s) s.

Definition plain (c : pystr) : bool := trimmed c && one_line c.

Definition operand (c : pystr) : bool := plain c && keeps_distinct c.

Definition identifier (c : pystr) : bool :=
  match c with
  | [] => false
  | _ :: _ => forallb is_word c
  end.

End PyStr.

Import PyStr.

(** ** pandas columns and their reductions *)

Module Pandas.

(** A Python [float] as far as the evaluator can tell values apart: a finite
    number, NaN, or an infinity (which only [float()] of a literal yields). *)
Inductive fval : Type :=
| Num (q : Q)
| NaN
| Inf (negative : bool).

(** A column is numeric or holds objects (strings); [None] is a missing
    cell (NaN, None, NaT). *)
Inductive Series : Type :=
| NumCol (cells : list (option Q))
| ObjCol (cells : list (option pystr)).

(** A frame: column labels with their columns, all of one length; a label
    is looked up left to right. *)
Definition DataFrame := list (pystr * Series).

Definition columns (df : DataFrame) : list pystr := map fst df.

(** [col in df.columns] *)
Definition has_column (df : DataFrame) (col : pystr) : bool :=
  existsb (PyStr.eqb col) (columns df).

(** [df[col]] *)
Fixpoint getitem (df : DataFrame) (col : pystr) : option Series :=
  match df with
  | [] => None
  | (name, s) :: rest => if PyStr.eqb col name then Some s else getitem rest col
  end.

(** The cells that are not missing. *)
Fixpoint present {A : Type} (cells : list (option A)) : list A :=
  match cells with
  | [] => []
  | Some x :: t => x :: present t
  | None :: t => present t
  end.

Definition qsum (l : list Q) : Q := fold_left Qplus l 0%Q.

Definition qmin (a b : Q) : Q := if Qle_bool a b then a else b.
Definition qmax (a b : Q) : Q := if Qle_bool a b then b else a.

Definition of_nat (n : nat) : Q := inject_Z (Z.of_nat n).

(** The values of [l] without repetitions, first occurrences kept. *)
Fixpoint dedup {A : Type} (same : A -> A -> bool) (l : list A) : list A :=
  match l with
  | [] => []
  | x :: t => x :: filter (fun y => negb (same x y)) (dedup same t)
  end.

(** [Series.count()]: the number of cells that are not missing. *)
Definition count (s : Series) : nat :=
  match s with
  | NumCol l => List.length (present l)
  | ObjCol l => List.length (present l)
  end.

(** [Series.nunique()]: the number of distinct values, missing cells
    dropped. *)
Definition nunique (s : Series) : nat :=
  match s with
  | NumCol l => List.length (dedup Qeq_bool (present l))
  | ObjCol l => List.length (dedup PyStr.eqb (present l))
  end.

(** [sum()], [mean()], [min()], [max()] of a numeric column skip the missing
    cells; the sum of none is 0, the other three are NaN.  Sum and quotient
    are the exact ones; the code rounds both to binary64, the sum not at all
    on the cells of [exact_sum]. *)
Definition num_sum (l : list (option Q)) : fval := Num (qsum (present l)).

Definition num_mean (l : list (option Q)) : fval :=
  match present l with
  | [] => NaN
  | x :: t => Num (qsum (x :: t) / of_nat (List.length (x :: t)))
  end.

Definition num_min (l : list (option Q)) : fval :=
  match present l with
  | [] => NaN
  | x :: t => Num (fold_left qmin t x)
  end.

Definition num_max (l : list (option Q)) : fval :=
  match present l with
  | [] => NaN
  | x :: t => Num (fold_left qmax t x)
  end.

(** Row by row product of two numeric columns of one frame: missing where
    either cell is.  The product of two cells is the exact one; the code
    multiplies int64 cells with wrap-around and binary64 cells with rounding,
    which agrees with it on the cells of [exact_products]. *)
Fixpoint num_mul (a b : list (option Q)) : list (option Q) :=
  match a, b with
  | x :: a', y :: b' =>
      match x, y with
      | Some p, Some q => Some (p * q)%Q
      | _, _ => None
      end :: num_mul a' b'
  | _, _ => []
  end.

(** The column has a cell that is not missing. *)
Definition has_value {A : Type} (cells : list (option A)) : bool :=
  match present cells with
  | [] => false
  | _ :: _ => true
  end.

(** The products of the rows in which both cells are present. *)
Fixpoint products (a b : list (option Q)) : list Q :=
  match a, b with
  | Some p :: a', Some q :: b' => (p * q)%Q :: products a' b'
  | _ :: a', _ :: b' => products a' b'
  | _, _ => []
  end.

(** [len(s)] *)
Definition series_length (s : Series) : nat :=
  match s with
  | NumCol l => List.length l
  | ObjCol l => List.length l
  end.

(** [len(df)]: the number of rows. *)
Definition nrows (df : DataFrame) : nat :=
  match df with
  | [] => O
  | (_, s) :: _ => series_length s
  end.

(** The invariant of a frame: every column has [nrows] cells. *)
Definition well_formed (df : DataFrame) : bool :=
  forallb (fun cs => series_length (snd cs) =? nrows df)%nat df.

(** *** Cells on which the arithmetic of the code is exact

    An int64 product or sum wraps around beyond 63 bits, a binary64 one is
    rounded beyond 53 bits.  Neither happens on whole numbers whose absolute
    values sum to at most 2^53, in whatever order the sum is taken. *)

(** The number is whole. *)
Definition whole (q : Q) : bool := (Qnum q mod Zpos (Qden q) =? 0)%Z.

Definition exact_limit : Q := inject_Z (2 ^ 53).

(** The sum of the absolute values. *)
Definition magnitude (l : list Q) : Q := qsum (map Qabs l).

(** The values are whole and their absolute values sum to at most 2^53. *)
Definition exact_sum (l : list Q) : bool :=
  forallb whole l && Qle_bool (magnitude l) exact_limit.

(** The cells of the two columns are whole, and the absolute values of the
    products of the rows sum to at most 2^53. *)
Definition exact_products (a b : list (option Q)) : bool :=
  forallb whole (present a) && forallb whole (present b)
  && Qle_bool (magnitude (products a b)) exact_limit.

(** [x <= y] on two floats: false when either is NaN. *)
Definition fle (x y : fval) : bool :=
  match x, y with
  | NaN, _ | _, NaN => false
  | Num a, Num b => Qle_bool a b
  | Inf negative, Num _ => negative
  | Num _, Inf negative => negb negative
  | Inf a, Inf b => a || negb b
  end.

(** No cell of the column is missing. *)
Definition complete {A : Type} (cells : list (option A)) : bool :=
  forallb (fun c => match c with Some _ => true | None => false end) cells.

Inductive reducer : Type := RSum | RMean | RMin | RMax.

(** What [formulas.py] asks of Python and pandas beyond the above:
    - [py_float]: the built-in [float] applied to a string, [None] when it
      raises [ValueError];
    - [object_reduce]: the float of a numeric reduction over an object
      column, or over a product with an object column, [None] when pandas
      or [float] raises. *)
Class Runtime : Type := {
  py_float : pystr -> option fval;
  object_reduce : reducer -> Series -> option Series -> option fval
}.

End Pandas.

Import Pandas.

(** ** The evaluator *)

Module FormulaParser.

(** The [ValueError]s of [formulas.py], one constructor per message, with
    the values the message interpolates: [ColumnNotFound [c]] is the message
    for one column, [ColumnNotFound [c1; c2]] the message of a product,
    which names both columns.  [LibraryError] is an exception raised inside
    a call of the runtime (pandas, or [float] on its result). *)
Inductive error : Type :=
| UnsupportedPattern (formula : pystr)
| InvalidAggregate (formula : pystr)
| FunctionNotAllowed (func_name : pystr) (allowed : list pystr)
| UnsupportedFunction (func_name : pystr)
| ComplexNotSupported (expression : pystr)
| ColumnNotFound (cols : list pystr)
| InvalidRatio (formula : pystr)
| CannotEvaluate (expr : pystr)
| LibraryError.

(** What a call returns: a float, or the exception it raises. *)
Inductive result : Type :=
| Ok (v : fval)
| Raise (e : error).

Definition bind (r : result) (k : fval -> result) : result :=
  match r with
  | Ok v => k v
  | Raise e => Raise e
  end.

Notation "x <- r ;; k" := (bind r (fun x => k))
  (at level 61, r at next level, right associativity).

(** A library call that may raise. *)
Definition lift (o : option fval) : result :=
  match o with
  | Some v => Ok v
  | None => Raise LibraryError
  end.

Definition ALLOWED_FUNCTIONS : list pystr :=
  map str ["sum"; "count"; "avg"; "mean"; "min"; "max"; "distinct"; "nunique"]%string.

(** The alternatives of the pattern of [_is_aggregate_function]. *)
Definition aggregate_names : list pystr :=
  map str ["sum"; "count"; "avg"; "mean"; "min"; "max"; "nunique"]%string.

Definition is_in (x : pystr) (l : list pystr) : bool := existsb (PyStr.eqb x) l.

(** [den_value == 0] *)
Definition is_zero (v : fval) : bool :=
  match v with
  | Num q => Qeq_bool q 0
  | _ => false
  end.

(** [num_value / den_value] for a denominator that is not zero. *)
Definition fdiv (a b : fval) : fval :=
  match a, b with
  | NaN, _ | _, NaN => NaN
  | Num x, Num y => Num (x / y)
  | Num _, Inf _ => Num 0
  | Inf s, Num y => Inf (xorb s (negb (Qle_bool 0 y)))
  | Inf _, Inf _ => NaN
  end.

Section Evaluator.

Context {rt : Runtime}.

(** [self.df].  Below, the test [col not in self.df.columns] and the lookup
    [self.df[col]] that follows it are one match on [getitem df col]. *)
Variable df : DataFrame.

(** [float(s.sum())] and its siblings. *)
Definition reduce (r : reducer) (s : Series) : result :=
  match s with
  | NumCol l =>
      Ok match r with
         | RSum => num_sum l
         | RMean => num_mean l
         | RMin => num_min l
         | RMax => num_max l
         end
  | ObjCol _ => lift (object_reduce r s None)
  end.

(** [float((a * b).sum())] and [float((a * b).mean())]. *)
Definition reduce_product (r : reducer) (a b : Series) : result :=
  match a, b with
  | NumCol x, NumCol y => reduce r (NumCol (num_mul x y))
  | _, _ => lift (object_reduce r a (Some b))
  end.

(** The pattern of [_is_aggregate_function] under [re.match] and
    [re.IGNORECASE], on Latin-1 text. *)
Definition _is_aggregate_function (formula : pystr) : bool :=
  existsb (fun name => prefix_ci (name ++ str "(") formula) aggregate_names.

Definition _is_ratio_formula (formula : pystr) : bool :=
  contains (str "/") formula.

Definition _execute_sum (expression : pystr) : result :=
  if contains (str "*") expression then
    match map strip (split "*"%char expression) with
    | [col1; col2] =>
        match getitem df col1, getitem df col2 with
        | Some a, Some b => reduce_product RSum a b
        | _, _ => Raise (ColumnNotFound [col1; col2])
        end
    | _ => Raise (ComplexNotSupported expression)
    end
  else
    let col := strip expression in
    match getitem df col with
    | Some s => reduce RSum s
    | None => Raise (ColumnNotFound [col])
    end.

Definition _execute_avg (expression : pystr) : result :=
  if contains (str "*") expression then
    match map strip (split "*"%char expression) with
    | [col1; col2] =>
        match getitem df col1, getitem df col2 with
        | Some a, Some b => reduce_product RMean a b
        | _, _ => Raise (ColumnNotFound [col1; col2])
        end
    | _ => Raise (ComplexNotSupported expression)
    end
  else
    let col := strip expression in
    match getitem df col with
    | Some s => reduce RMean s
    | None => Raise (ColumnNotFound [col])
    end.

Definition _execute_distinct_count (expression : pystr) : result :=
  let col := strip (sub_distinct expression) in
  match getitem df col with
  | Some s => Ok (Num (of_nat (nunique s)))
  | None => Raise (ColumnNotFound [col])
  end.

Definition _execute_count (expression : pystr) : result :=
  if mentions_distinct expression
  then _execute_distinct_count expression
  else
    let col := strip expression in
    match getitem df col with
    | Some s => Ok (Num (of_nat (count s)))
    | None => Raise (ColumnNotFound [col])
    end.

Definition _execute_min (expression : pystr) : result :=
  let col := strip expression in
  match getitem df col with
  | Some s => reduce RMin s
  | None => Raise (ColumnNotFound [col])
  end.

Definition _execute_max (expression : pystr) : result :=
  let col := strip expression in
  match getitem df col with
  | Some s => reduce RMax s
  | None => Raise (ColumnNotFound [col])
  end.

Definition _execute_aggregate (formula : pystr) : result :=
  match match_call formula with
  | None => Raise (InvalidAggregate formula)
  | Some (name, inner) =>
      let func_name := lower name in
      let args := strip inner in
      if negb (is_in func_name ALLOWED_FUNCTIONS)
      then Raise (FunctionNotAllowed func_name ALLOWED_FUNCTIONS)
      else if mentions_distinct args
      then _execute_distinct_count args
      else if PyStr.eqb func_name (str "sum") then _execute_sum args
      else if is_in func_name [str "count"; str "nunique"]
      then _execute_count args
      else if is_in func_name [str "avg"; str "mean"] then _execute_avg args
      else if PyStr.eqb func_name (str "min") then _execute_min args
      else if PyStr.eqb func_name (str "max") then _execute_max args
      else Raise (UnsupportedFunction func_name)
  end.

Definition _evaluate_simple_expression (expr : pystr) : result :=
  if _is_aggregate_function expr then _execute_aggregate expr
  else
    match getitem df expr with
    | Some s => reduce RSum s
    | None =>
        match py_float expr with
        | Some v => Ok v
        | None => Raise (CannotEvaluate expr)
        end
    end.

Definition _execute_ratio (formula : pystr) : result :=
  match split "/"%char formula with
  | [numerator; denominator] =>
      num_value <- _evaluate_simple_expression (strip numerator) ;;
      den_value <- _evaluate_simple_expression (strip denominator) ;;
      if is_zero den_value then Ok (Num 0) else Ok (fdiv num_value den_value)
  | _ => Raise (InvalidRatio formula)
  end.

Definition parse_and_execute (formula : pystr) : result :=
  let formula := strip formula in
  if _is_aggregate_function formula then _execute_aggregate formula
  else if _is_ratio_formula formula then _execute_ratio formula
  else Raise (UnsupportedPattern formula).

End Evaluator.

End FormulaParser.

Import FormulaParser.

(** ** A reference runtime and the sample data *)

Module Reference.

Definition is_digit (c : ascii) : bool := between 48 57 (code c).

(** The leading decimal digits of [s], single underscores between digits
    skipped: their value after [acc], how many there are, and the rest of
    [s]. *)
Fixpoint digits (acc : Z) (s : pystr) : Z * nat * pystr :=
  match s with
  | [] => (acc, O, [])
  | c :: t =>
      if is_digit c
      then let next :=
             match t with
             | u :: ((d :: _) as r) =>
                 if Ascii.eqb u "_"%char && is_digit d then r else t
             | _ => t
             end in
           let '(v, k, r) := digits (10 * acc + Z.of_nat (code c - 48)) next in
           (v, S k, r)
      else (acc, O, s)
  end.

Definition sign (s : pystr) : bool * pystr :=
  match s with
  | c :: t =>
      if Ascii.eqb c "-"%char then (true, t)
      else if Ascii.eqb c "+"%char then (false, t)
      else (false, s)
  | [] => (false, [])
  end.

Definition signed (negative : bool) (q : Q) : Q :=
  if negative then (- q)%Q else q.

(** [float] on a string: decimal numbers with an optional fraction and
    exponent, [inf], [infinity] and [nan], with an optional sign and white
    space around.  The value of a number is exact: no rounding, overflow or
    underflow. *)
Definition float_literal (text : pystr) : option fval :=
  let (negative, body) := sign (strip text) in
  if PyStr.eqb (lower body) (str "inf") || PyStr.eqb (lower body) (str "infinity")
  then Some (Inf negative)
  else if PyStr.eqb (lower body) (str "nan") then Some NaN
  else
    let '(ip, n1, r1) := digits 0 body in
    let '(fp, n2, r2) :=
      match r1 with
      | c :: r => if Ascii.eqb c "."%char then digits 0 r else (0%Z, O, r1)
      | [] => (0%Z, O, r1)
      end in
    let mantissa :=
      (inject_Z ip + inject_Z fp / inject_Z (10 ^ Z.of_nat n2))%Q in
    if (n1 + n2 =? 0)%nat then None
    else
      match r2 with
      | [] => Some (Num (signed negative mantissa))
      | e :: r3 =>
          if Ascii.eqb (lower_char e) "e"%char
          then let (eneg, r4) := sign r3 in
               let '(ev, n3, r5) := digits 0 r4 in
               match n3, r5 with
               | S _, [] =>
                   Some (Num (signed negative mantissa
                              * Qpower 10 (if eneg then - ev else ev)))
               | _, _ => None
               end
          else None
      end.

(** A runtime in which numeric reductions over object columns raise. *)
Definition runtime : Runtime := {|
  py_float := float_literal;
  object_reduce := fun _ _ _ => None
|}.

Definition ints (l : list Z) : Series := NumCol (map (fun z => Some (inject_Z z)) l).

Definition strs (l : list string) : Series := ObjCol (map (fun s => Some (str s)) l).

(** The sample frame of the module's self-test, without its customer
    column. *)
Definition sample_data : DataFrame :=
  [ (str "InvoiceNo", strs ["001"; "001"; "002"; "003"]%string);
    (str "Quantity", ints [2; 3; 1; 5]%Z);
    (str "UnitPrice", ints [10; 15; 20; 5]%Z) ].

(** Two columns, one of them with the word distinct in its name. *)
Definition distinct_frame : DataFrame :=
  [ (str "DistinctQty", ints [2; 3; 3]%Z);
    (str "UnitPrice", ints [10; 15; 20]%Z) ].

(** Two rows, the quantity of the second one missing. *)
Definition gappy_frame : DataFrame :=
  [ (str "Quantity", NumCol [Some 2%Q; None]);
    (str "UnitPrice", ints [3; 4]%Z) ].

(** One column, its label a name that starts with the word distinct. *)
Definition labelled_frame : DataFrame :=
  [ (str "Distinct Customers", strs ["ann"; "bob"; "bob"]%string) ].

(** One column, labelled with the second word of that name. *)
Definition customers_frame : DataFrame :=
  [ (str "Customers", strs ["ann"; "bob"; "bob"]%string) ].

(** Three columns of one row, the label of the third the product of the
    other two as a formula writes it. *)
Definition star_frame : DataFrame :=
  [ (str "a", ints [100]%Z); (str "b", ints [1]%Z); (str "a*b", ints [3]%Z) ].

Definition run (df : DataFrame) (formula : string) : result :=
  parse_and_execute (rt := runtime) df (str formula).

End Reference.

(** ** The convenience entry point and text measures *)

Module Kpi.

(** [calculate_kpi_value(df, formula)]: a parser for the frame, run once. *)
Definition calculate_kpi_value {rt : Runtime} (df : DataFrame) (formula : pystr)
  : result :=
  parse_and_execute df formula.

(** [s.count(x)] for a character [x]. *)
Fixpoint count_char (x : ascii) (s : pystr) : nat :=
  match s with
  | [] => O
  | c :: t => if Ascii.eqb c x then S (count_char x t) else count_char x t
  end.

(** Every character of [s] is white space. *)
Definition blank (s : pystr) : bool := forallb is_space s.

(** The character does not occur in [s]. *)
Definition lacks (x : ascii) (s : pystr) : bool :=
  forallb (fun c => negb (Ascii.eqb c x)) s.

(** A column name that can stand alone as a side of a ratio: plain, and
    without opening parenthesis or slash. *)
Definition ratio_side (c : pystr) : bool :=
  plain c && lacks "("%char c && lacks "/"%char c.

(** One column of two missing cells. *)
Definition hollow_frame : DataFrame :=
  [ (str "Quantity", NumCol [None; None]) ].

End Kpi.

Import Kpi.

(** ** Data validation ([src/data/validation.py]) *)

Module DataValidator.

Local Open Scope nat_scope.

(** What a check returns: a value, or the exception it raises. *)
Inductive exn : Type :=
| KeyError (key : pystr)
| ZeroDivisionError
| PandasError.

Inductive checked (A : Type) : Type :=
| Done (a : A)
| Fail (e : exn).

Arguments Done {A} a.
Arguments Fail {A} e.

Definition andthen {A B : Type} (r : checked A) (k : A -> checked B) : checked B :=
  match r with
  | Done a => k a
  | Fail e => Fail e
  end.

Notation "x <~ r ;; k" := (andthen r (fun x => k))
  (at level 61, r at next level, right associativity).

(** The contracts file as [DataValidator] reads it.  Of a column of
    [raw_data.schema], the [type] and the keys [min_value] and [max_value] of
    its [validation] ([None]: no such key; [Some None]: the key with a null
    value); of [data_quality.completeness], the [missing_threshold] of each
    column; of [data_quality.consistency.rules], name and description; and
    [validation_thresholds.overall_quality_score.minimum].  The keys of a
    mapping are distinct. *)
Record ColumnRule : Type := {
  expected_type : pystr;
  min_value : option (option Q);
  max_value : option (option Q)
}.

Record Contracts : Type := {
  schema : list (pystr * ColumnRule);
  completeness : list (pystr * Q);
  consistency : list (pystr * pystr);
  minimum_score : Q
}.

(** The comparisons of the checks: [s < v], [s > v] and [s.abs() > v]. *)
Inductive bound : Type := Below | Above | AbsAbove.

(** What the checks ask of pandas beyond the model of columns:
    - [dtype_name s]: [str(s.dtype)];
    - [object_count b cells v]: the number of cells of an object column that
      the comparison [b] with [v] selects, [None] when pandas raises;
    - [object_times a b]: the product [a * b] when one of the two is an
      object column, [None] when pandas raises. *)
Class FrameOps : Type := {
  dtype_name : Series -> pystr;
  object_count : bound -> list (option pystr) -> Q -> option nat;
  object_times : Series -> Series -> option Series
}.

Definition lt_bool (a b : Q) : bool := negb (Qle_bool b a).

Definition selects (b : bound) (v x : Q) : bool :=
  match b with
  | Below => lt_bool x v
  | Above => lt_bool v x
  | AbsAbove => lt_bool v (Qabs x)
  end.

(** [k / rows] for two counts, as numpy divides: by zero, NaN for 0 and
    infinity otherwise. *)
Definition ratio (k rows : nat) : fval :=
  match rows with
  | O => match k with O => NaN | S _ => Inf false end
  | S _ => Num (of_nat k / of_nat rows)
  end.

(** [v <= q] and [v > q] for a float [v]; both are false on NaN. *)
Definition le_float (v : fval) (q : Q) : bool :=
  match v with
  | Num x => Qle_bool x q
  | NaN => false
  | Inf negative => negative
  end.

Definition gt_float (v : fval) (q : Q) : bool :=
  match v with
  | Num x => lt_bool q x
  | NaN => false
  | Inf negative => negb negative
  end.

Definition is_missing {A : Type} (cell : option A) : bool :=
  match cell with
  | Some _ => false
  | None => true
  end.

(** [s.isnull().sum()] *)
Definition isnull_sum (s : Series) : nat :=
  match s with
  | NumCol l => List.length (filter is_missing l)
  | ObjCol l => List.length (filter is_missing l)
  end.

(** [df[name]], which raises [KeyError] for an absent column. *)
Definition column (df : DataFrame) (name : pystr) : checked Series :=
  match getitem df name with
  | Some s => Done s
  | None => Fail (KeyError name)
  end.

(** [df[name] = s]: the column is replaced in place, or added last. *)
Fixpoint setitem (df : DataFrame) (name : pystr) (s : Series) : DataFrame :=
  match df with
  | [] => [(name, s)]
  | (n, old) :: rest =>
      if PyStr.eqb name n then (n, s) :: rest else (n, old) :: setitem rest name s
  end.

(** [d[key] = value] on a dictionary in insertion order. *)
Fixpoint assign {A : Type} (d : list (pystr * A)) (key : pystr) (value : A)
  : list (pystr * A) :=
  match d with
  | [] => [(key, value)]
  | (k, old) :: rest =>
      if PyStr.eqb key k then (k, value) :: rest else (k, old) :: assign rest key value
  end.

Definition b2n (b : bool) : nat := if b then 1 else 0.

Section Checks.

Context {ops : FrameOps}.

(** [self.contracts] *)
Variable contracts : Contracts.

Definition _check_dtype (actual_dtype expected_type : pystr) : bool :=
  let dtype_str := lower actual_dtype in
  if PyStr.eqb expected_type (str "string") then PyStr.eqb dtype_str (str "object")
  else if PyStr.eqb expected_type (str "integer") then contains (str "int") dtype_str
  else if PyStr.eqb expected_type (str "float") then contains (str "float") dtype_str
  else if PyStr.eqb expected_type (str "datetime")
  then contains (str "datetime") dtype_str
  else true.

(** The errors of [validate_schema], one constructor per message.  The
    sets of the source are lists in the order of the schema. *)
Inductive schema_error : Type :=
| MissingColumns (cols : list pystr)
| WrongType (col expected actual : pystr).

Definition validate_schema (df : DataFrame) : bool * list schema_error :=
  let expected_cols := map fst (schema contracts) in
  let missing_cols := filter (fun col => negb (has_column df col)) expected_cols in
  let errors :=
    match missing_cols with
    | [] => []
    | _ :: _ => [MissingColumns missing_cols]
    end in
  let errors :=
    errors ++
    flat_map (fun entry : pystr * ColumnRule =>
                let (col, rule) := entry in
                match getitem df col with
                | None => []
                | Some s =>
                    if _check_dtype (dtype_name s) (expected_type rule) then []
                    else [WrongType col (expected_type rule) (dtype_name s)]
                end)
             (schema contracts) in
  (match errors with [] => true | _ :: _ => false end, errors).

Record Completeness : Type := {
  missing_count : nat;
  missing_percentage : fval;
  threshold : Q;
  passes : bool;
  severity : pystr
}.

Definition check_completeness (df : DataFrame) : list (pystr * Completeness) :=
  flat_map (fun entry : pystr * Q =>
              let (col, missing_threshold) := entry in
              match getitem df col with
              | None => []
              | Some s =>
                  let missing_pct := ratio (isnull_sum s) (nrows df) in
                  [(col, {| missing_count := isnull_sum s;
                            missing_percentage := missing_pct;
                            threshold := missing_threshold;
                            passes := le_float missing_pct missing_threshold;
                            severity := if gt_float missing_pct missing_threshold
                                        then str "FAIL" else str "PASS" |})]
              end)
           (completeness contracts).

(** [(s < v).sum()] and its siblings. *)
Definition count_selected (b : bound) (s : Series) (v : Q) : checked nat :=
  match s with
  | NumCol l => Done (List.length (filter (selects b v) (present l)))
  | ObjCol l =>
      match object_count b l v with
      | Some n => Done n
      | None => Fail PandasError
      end
  end.

Definition flatten (o : option (option Q)) : option Q :=
  match o with
  | Some v => v
  | None => None
  end.

Record RangeResult : Type := {
  violations : nat;
  violation_percentage : fval;
  range_min : option Q;
  range_max : option Q;
  actual_min : option fval;
  actual_max : option fval;
  range_passes : bool
}.

(** The body of the loop of [check_value_ranges] for a column of the frame
    with a range.  Without rows the division raises when both bounds are
    null (the count is then a Python integer) and is NaN otherwise. *)
Definition range_entry (df : DataFrame) (s : Series) (rule : ColumnRule)
  : checked RangeResult :=
  let min_val := flatten (min_value rule) in
  let max_val := flatten (max_value rule) in
  below <~ match min_val with
           | Some v => count_selected Below s v
           | None => Done O
           end ;;
  above <~ match max_val with
           | Some v => count_selected Above s v
           | None => Done O
           end ;;
  let violations := below + above in
  pct <~ match nrows df, min_val, max_val with
         | O, None, None => Fail ZeroDivisionError
         | rows, _, _ => Done (ratio violations rows)
         end ;;
  Done {| violations := violations;
          violation_percentage := pct;
          range_min := min_val;
          range_max := max_val;
          actual_min := match s with
                        | NumCol l => Some (num_min l)
                        | ObjCol _ => None
                        end;
          actual_max := match s with
                        | NumCol l => Some (num_max l)
                        | ObjCol _ => None
                        end;
          range_passes := (violations =? 0)%nat |}.

Definition has_range (rule : ColumnRule) : bool :=
  match min_value rule, max_value rule with
  | None, None => false
  | _, _ => true
  end.

Fixpoint ranges_of (df : DataFrame) (items : list (pystr * ColumnRule))
  : checked (list (pystr * RangeResult)) :=
  match items with
  | [] => Done []
  | (col, rule) :: rest =>
      match getitem df col with
      | None => ranges_of df rest
      | Some s =>
          if has_range rule
          then entry <~ range_entry df s rule ;;
               results <~ ranges_of df rest ;;
               Done ((col, entry) :: results)
          else ranges_of df rest
      end
  end.

Definition check_value_ranges (df : DataFrame)
  : checked (list (pystr * RangeResult)) :=
  ranges_of df (schema contracts).

Record ConsistencyResult : Type := {
  description : pystr;
  rule_violations : nat;
  total_checked : nat;
  rule_passes : bool
}.

(** [cell.startswith("C")], false on a missing cell ([na=False]). *)
Definition starts_with_C (cell : option pystr) : bool :=
  match cell with
  | Some (c :: _) => Ascii.eqb c "C"%char
  | _ => false
  end.

(** [s[mask]]: the cells of the rows that the mask selects. *)
Fixpoint select {A : Type} (mask : list bool) (cells : list A) : list A :=
  match mask, cells with
  | true :: m, x :: t => x :: select m t
  | false :: m, _ :: t => select m t
  | _, _ => []
  end.

Definition select_series (mask : list bool) (s : Series) : Series :=
  match s with
  | NumCol l => NumCol (select mask l)
  | ObjCol l => ObjCol (select mask l)
  end.

(** [a * b] for two columns of the frame. *)
Definition times (a b : Series) : checked Series :=
  match a, b with
  | NumCol x, NumCol y => Done (NumCol (num_mul x y))
  | _, _ =>
      match object_times a b with
      | Some s => Done s
      | None => Fail PandasError
      end
  end.

Definition outcome (text : pystr) (found checked_rows : nat) : ConsistencyResult :=
  {| description := text;
     rule_violations := found;
     total_checked := checked_rows;
     rule_passes := (found =? 0)%nat |}.

(** One turn of the loop of [check_consistency]: the frame and the results
    after the rule [name].  The [.str] accessor raises on a numeric
    column. *)
Definition consistency_step (df : DataFrame)
    (results : list (pystr * ConsistencyResult)) (name text : pystr)
  : checked (DataFrame * list (pystr * ConsistencyResult)) :=
  if PyStr.eqb name (str "cancellation_quantity_match") then
    invoice <~ column df (str "InvoiceNo") ;;
    match invoice with
    | NumCol _ => Fail PandasError
    | ObjCol cells =>
        let mask := map starts_with_C cells in
        quantity <~ column df (str "Quantity") ;;
        found <~ count_selected Above (select_series mask quantity) 0 ;;
        Done (df, assign results name
                    (outcome text found (List.length (filter id mask))))
    end
  else if PyStr.eqb name (str "positive_price") then
    price <~ column df (str "UnitPrice") ;;
    found <~ count_selected Below price 0 ;;
    Done (df, assign results name (outcome text found (nrows df)))
  else if PyStr.eqb name (str "valid_transaction_value") then
    quantity <~ column df (str "Quantity") ;;
    price <~ column df (str "UnitPrice") ;;
    value <~ times quantity price ;;
    let df := setitem df (str "TransactionValue") value in
    found <~ count_selected AbsAbove value 100000 ;;
    Done (df, assign results name (outcome text found (nrows df)))
  else Done (df, results).

Fixpoint consistency_loop (rules : list (pystr * pystr)) (df : DataFrame)
    (results : list (pystr * ConsistencyResult))
  : checked (DataFrame * list (pystr * ConsistencyResult)) :=
  match rules with
  | [] => Done (df, results)
  | (name, text) :: rest =>
      state <~ consistency_step df results name text ;;
      consistency_loop rest (fst state) (snd state)
  end.

(** [check_consistency(df)]: the results, and the frame as the call leaves
    it. *)
Definition check_consistency (df : DataFrame)
  : checked (DataFrame * list (pystr * ConsistencyResult)) :=
  consistency_loop (consistency contracts) df [].

(** The messages of [_get_recommendation], with the values the failure
    message interpolates. *)
Inductive recommendation : Type :=
| PassMessage
| FailMessage (score minimum : Q).

Definition _get_recommendation (score : Q) : recommendation :=
  let threshold := minimum_score contracts in
  if Qle_bool threshold score then PassMessage
  else FailMessage score threshold.

(** One of the three counting loops of [generate_quality_report]. *)
Definition tally (flags : list bool) (counts : nat * nat) : nat * nat :=
  fold_left (fun (c : nat * nat) (flag : bool) => (fst c + 1, snd c + b2n flag))
            flags counts.

Record Report : Type := {
  overall_quality_score : Q;
  total_checks : nat;
  passed_checks : nat;
  failed_checks : nat;
  schema_validation : bool * list schema_error;
  report_completeness : list (pystr * Completeness);
  value_ranges : list (pystr * RangeResult);
  report_consistency : list (pystr * ConsistencyResult);
  report_recommendation : recommendation
}.

(** [generate_quality_report(df)]: the report, and the frame as the call
    leaves it. *)
Definition generate_quality_report (df : DataFrame) : checked (DataFrame * Report) :=
  let schema_result := validate_schema df in
  let completeness_result := check_completeness df in
  ranges <~ check_value_ranges df ;;
  state <~ check_consistency df ;;
  let counts := (0 + 1, 0 + b2n (fst schema_result)) in
  let counts := tally (map (fun r => passes (snd r)) completeness_result) counts in
  let counts := tally (map (fun r => range_passes (snd r)) ranges) counts in
  let counts := tally (map (fun r => rule_passes (snd r)) (snd state)) counts in
  let total := fst counts in
  let passed := snd counts in
  let score := match total with
               | O => 0%Q
               | S _ => (of_nat passed / of_nat total)%Q
               end in
  Done (fst state,
        {| overall_quality_score := score;
           total_checks := total;
           passed_checks := passed;
           failed_checks := total - passed;
           schema_validation := schema_result;
           report_completeness := completeness_result;
           value_ranges := ranges;
           report_consistency := snd state;
           report_recommendation := _get_recommendation score |}).

End Checks.

(** A frame with dtypes to compute with: integers for numeric columns. *)
Definition reference_ops : FrameOps := {|
  dtype_name := fun s => match s with
                         | NumCol _ => str "int64"
                         | ObjCol _ => str "object"
                         end;
  object_count := fun _ _ _ => None;
  object_times := fun _ _ => None
|}.

(** Contracts for the sample frame. *)
Definition sample_contracts : Contracts := {|
  schema :=
    [ (str "InvoiceNo",
       {| expected_type := str "string"; min_value := None; max_value := None |});
      (str "Quantity",
       {| expected_type := str "integer";
          min_value := Some (Some (-10)%Q); max_value := Some (Some 4%Q) |});
      (str "UnitPrice",
       {| expected_type := str "float";
          min_value := Some (Some 0%Q); max_value := None |});
      (str "Country",
       {| expected_type := str "string"; min_value := None; max_value := None |}) ];
  completeness := [ (str "InvoiceNo", 0%Q); (str "CustomerID", (1 # 4)%Q) ];
  consistency :=
    [ (str "cancellation_quantity_match", str "cancellations are negative");
      (str "positive_price", str "prices are not negative");
      (str "valid_transaction_value", str "values are plausible");
      (str "unknown_rule", str "not implemented") ];
  minimum_score := (4 # 5)%Q
|}.

(** The value is within the bounds that the rule gives. *)
Definition within (rule : ColumnRule) (x : Q) : bool :=
  match flatten (min_value rule) with
  | Some m => Qle_bool m x
  | None => true
  end
  && match flatten (max_value rule) with
     | Some M => Qle_bool x M
     | None => true
     end.

(** The lower bound of the rule is not above its upper bound. *)
Definition bounds_ordered (rule : ColumnRule) : bool :=
  match flatten (min_value rule), flatten (max_value rule) with
  | Some m, Some M => Qle_bool m M
  | _, _ => true
  end.

(** Contracts on the quantity alone: at most half of it missing. *)
Definition quantity_contracts : Contracts := {|
  schema :=
    [ (str "Quantity",
       {| expected_type := str "integer";
          min_value := Some (Some 0%Q); max_value := Some (Some 100%Q) |}) ];
  completeness := [ (str "Quantity", (1 # 2)%Q) ];
  consistency := [ (str "positive_price", str "prices are not negative") ];
  minimum_score := 1%Q
|}.

(** A frame of one column and no row. *)
Definition empty_frame : DataFrame := [ (str "Quantity", NumCol []) ].

(** Three invoices, the first and the last of them cancellations; the last
    one with a positive quantity and a negative price. *)
Definition returns_frame : DataFrame :=
  [ (str "InvoiceNo", Reference.strs ["C001"; "002"; "C003"]%string);
    (str "Quantity", Reference.ints [-1; 2; 4]%Z);
    (str "UnitPrice", Reference.ints [3; 4; -5]%Z) ].

End DataValidator.

(** * Properties *)

Open Scope nat_scope.

(** The four formulas of the module's self-test on the sample frame. *)
Example sample_formulas :
  Reference.run Reference.sample_data "sum(Quantity * UnitPrice)" = Ok (Num 110)
  /\ Reference.run Reference.sample_data "count(distinct InvoiceNo)" = Ok (Num 3)
  /\ Reference.run Reference.sample_data "avg(UnitPrice)" = Ok (Num (50 / 4))
  /\ Reference.run Reference.sample_data "sum(Quantity)" = Ok (Num 11).
Proof. repeat split. Qed.

(** ** Characters *)

Ltac each_char c :=
  destruct c as [[] [] [] [] [] [] [] []]; vm_compute; try reflexivity;
  try discriminate; intros; try congruence.

Lemma lower_char_idem (c : ascii) : lower_char (lower_char c) = lower_char c.
Proof. each_char c. Qed.

Lemma is_word_lower_char (c : ascii) : is_word (lower_char c) = is_word c.
Proof. each_char c. Qed.

Lemma word_not_space (c : ascii) : is_word c = true -> is_space c = false.
Proof. each_char c. Qed.

Lemma space_not_d (c : ascii) :
  is_space c = true -> Ascii.eqb "d"%char (lower_char c) = false.
Proof. each_char c. Qed.

(** ** Strings *)

Lemma pystr_eqb_refl (a : pystr) : PyStr.eqb a a = true.
Proof.
  induction a as [|x a IH]; simpl; [reflexivity|].
  now rewrite Ascii.eqb_refl, IH.
Qed.

Lemma pystr_eqb_eq (a b : pystr) : PyStr.eqb a b = true <-> a = b.
Proof.
  split; [|intros ->; apply pystr_eqb_refl].
  revert b; induction a as [|x a IH]; intros [|y b]; simpl; try discriminate;
    [reflexivity|].
  intros H; apply andb_true_iff in H as [Hx Hr].
  apply Ascii.eqb_eq in Hx; subst; f_equal; auto.
Qed.

Lemma lstrip_first_ok (s : pystr) : first_ok s = true -> lstrip s = s.
Proof.
  destruct s as [|c t]; simpl; [discriminate|].
  now destruct (is_space c).
Qed.

Lemma strip_trimmed (s : pystr) : trimmed s = true -> strip s = s.
Proof.
  unfold trimmed, strip, rstrip; intros H.
  apply andb_true_iff in H as [H1 H2].
  now rewrite (lstrip_first_ok _ H1), (lstrip_first_ok _ H2), rev_involutive.
Qed.

Lemma first_ok_app (s t : pystr) : first_ok s = true -> first_ok (s ++ t) = true.
Proof. destruct s; simpl; [discriminate|auto]. Qed.

(** A name followed or preceded by one blank strips to the name. *)
Lemma strip_blank_after (s : pystr) :
  trimmed s = true -> strip (s ++ str " ") = s.
Proof.
  unfold trimmed, strip, rstrip; intros H.
  apply andb_true_iff in H as [H1 H2].
  rewrite (lstrip_first_ok _ (first_ok_app _ _ H1)), rev_app_distr; simpl.
  now rewrite (lstrip_first_ok _ H2), rev_involutive.
Qed.

Lemma strip_blank_before (s : pystr) :
  trimmed s = true -> strip (str " " ++ s) = s.
Proof. intros H; unfold strip; simpl; now apply strip_trimmed. Qed.

Lemma span_word_run (w rest : pystr) :
  forallb is_word w = true ->
  span is_word (w ++ "("%char :: rest) = (w, "("%char :: rest).
Proof.
  induction w as [|x w IH]; simpl; [reflexivity|].
  intros H; apply andb_true_iff in H as [-> H].
  now rewrite (IH H).
Qed.

Lemma line_one_line (s t : pystr) :
  one_line s = true -> line (s ++ t) = s ++ line t.
Proof.
  induction s as [|x s IH]; simpl; [reflexivity|].
  intros H; apply andb_true_iff in H as [Hx H].
  apply negb_true_iff in Hx; rewrite Hx; f_equal; auto.
Qed.

Lemma before_last_end (c : ascii) (s : pystr) : before_last c (s ++ [c]) = Some s.
Proof.
  induction s as [|x s IH]; simpl; [now rewrite Ascii.eqb_refl|].
  now rewrite IH.
Qed.

Lemma forallb_word_lower (w : pystr) :
  forallb is_word (lower w) = forallb is_word w.
Proof.
  induction w as [|x w IH]; simpl; [reflexivity|].
  now rewrite is_word_lower_char, IH.
Qed.

(** The call pattern on [f(c)]: the groups are [f] and [c]. *)
Lemma match_call_call (f c : pystr) :
  f <> [] -> forallb is_word f = true -> one_line c = true ->
  match_call (call f c) = Some (f, c).
Proof.
  intros Hne Hw Hc; unfold match_call, call; simpl.
  rewrite (span_word_run _ _ Hw).
  destruct f as [|x f]; [contradiction|]; simpl.
  rewrite (line_one_line _ _ Hc); simpl.
  now rewrite before_last_end.
Qed.

Lemma split_star_free (sep : ascii) (s : pystr) :
  forallb (fun c => negb (Ascii.eqb c sep)) s = true -> split sep s = [s].
Proof.
  induction s as [|x s IH]; simpl; [reflexivity|].
  intros H; apply andb_true_iff in H as [Hx H].
  apply negb_true_iff in Hx; now rewrite Hx, (IH H).
Qed.

Lemma split_app (sep : ascii) (a b : pystr) :
  forallb (fun c => negb (Ascii.eqb c sep)) a = true ->
  split sep (a ++ sep :: b) = a :: split sep b.
Proof.
  induction a as [|x a IH]; simpl; [now rewrite Ascii.eqb_refl|].
  intros H; apply andb_true_iff in H as [Hx H].
  apply negb_true_iff in Hx; now rewrite Hx, (IH H).
Qed.

Lemma contains_char_iff (sep : ascii) (s : pystr) :
  contains [sep] s = negb (forallb (fun c => negb (Ascii.eqb c sep)) s).
Proof.
  induction s as [|x s IH]; simpl; [reflexivity|].
  rewrite IH, (Ascii.eqb_sym sep x).
  destruct (Ascii.eqb x sep); simpl; [reflexivity|].
  destruct s; reflexivity.
Qed.

(** A text that [split] cuts in more than one piece contains the
    separator. *)
Lemma split_two_contains (sep : ascii) (s a b : pystr) (l : list pystr) :
  split sep s = a :: b :: l -> contains [sep] s = true.
Proof.
  intros H; rewrite contains_char_iff; apply negb_true_iff.
  destruct (forallb _ s) eqn:E; [|reflexivity].
  rewrite (split_star_free _ _ E) in H; discriminate.
Qed.

Lemma prefix_ci_lower_app (f p s : pystr) :
  prefix_ci (lower f ++ p) (f ++ s) = prefix_ci p s.
Proof.
  induction f as [|x f IH]; simpl; [reflexivity|].
  now rewrite lower_char_idem, Ascii.eqb_refl.
Qed.

Lemma prefix_skip (x : ascii) (p a b : pystr) :
  ~ In x p -> prefix p (a ++ x :: b) = prefix p a.
Proof.
  revert a; induction p as [|h p IH]; intros a Hx; [now destruct a|].
  assert (Hh : Ascii.eqb h x = false).
  { apply Ascii.eqb_neq; intros ->; apply Hx; now left. }
  destruct a as [|y a]; simpl; [now rewrite Hh|].
  rewrite IH; [reflexivity|]; intros Hi; apply Hx; now right.
Qed.

(** A word cannot be found across a character that it does not hold. *)
Lemma contains_skip (x : ascii) (p a b : pystr) :
  p <> [] -> ~ In x p ->
  contains p (a ++ x :: b) = contains p a || contains p b.
Proof.
  intros Hp Hx; induction a as [|y a IH].
  - destruct p as [|h p]; [contradiction|].
    assert (Hh : Ascii.eqb h x = false).
    { apply Ascii.eqb_neq; intros ->; apply Hx; now left. }
    cbn [app contains prefix]; now rewrite Hh.
  - cbn [app contains]; rewrite IH.
    change (y :: a ++ x :: b) with ((y :: a) ++ x :: b).
    rewrite (prefix_skip _ _ _ _ Hx); now rewrite orb_assoc.
Qed.

Lemma distinct_chars (x : ascii) :
  In x (str "distinct") -> is_space x = false /\ x <> "*"%char.
Proof.
  simpl; intros H.
  repeat (destruct H as [<-|H]; [split; [reflexivity|discriminate]|]).
  contradiction.
Qed.

Lemma mentions_distinct_product (c1 c2 : pystr) :
  mentions_distinct (c1 ++ str " * " ++ c2)
  = mentions_distinct c1 || mentions_distinct c2.
Proof.
  unfold mentions_distinct, lower; rewrite !map_app.
  change (map lower_char (str " * ") ++ map lower_char c2)
    with (" "%char :: "*"%char :: " "%char :: map lower_char c2).
  rewrite contains_skip; [reflexivity|discriminate|].
  intros H; now destruct (distinct_chars _ H).
Qed.

Lemma mentions_distinct_lstrip (s : pystr) :
  mentions_distinct (lstrip s) = mentions_distinct s.
Proof.
  induction s as [|x s IH]; [reflexivity|].
  cbn [lstrip]; destruct (is_space x) eqn:E; [|reflexivity].
  rewrite IH; unfold mentions_distinct; cbn [lower map contains prefix str
    list_ascii_of_string].
  now rewrite (space_not_d _ E).
Qed.

Lemma mentions_distinct_rstrip (s : pystr) :
  mentions_distinct (rstrip s) = mentions_distinct s.
Proof.
  unfold rstrip; rewrite <- (rev_involutive s) at 2.
  induction (rev s) as [|x r IH]; [reflexivity|].
  cbn [lstrip]; destruct (is_space x) eqn:E; [|reflexivity].
  rewrite IH; cbn [rev]; unfold mentions_distinct, lower.
  rewrite map_app; cbn [map].
  rewrite contains_skip; [now rewrite orb_false_r|discriminate|].
  intros H.
  assert (Hs : is_space (lower_char x) = true) by (revert E; each_char x).
  destruct (distinct_chars _ H); congruence.
Qed.

(** Stripping the argument text does not change whether it mentions the
    word distinct. *)
Lemma mentions_distinct_strip (s : pystr) :
  mentions_distinct (strip s) = mentions_distinct s.
Proof.
  unfold strip; now rewrite mentions_distinct_rstrip, mentions_distinct_lstrip.
Qed.

(** ** The substitution of the distinct count *)

Lemma lstrip_length (s : pystr) : List.length (lstrip s) <= List.length s.
Proof.
  induction s as [|x s IH]; simpl; [lia|].
  destruct (is_space x); simpl; lia.
Qed.

Lemma prefix_ci_length (p s : pystr) :
  prefix_ci p s = true -> List.length p <= List.length s.
Proof.
  revert s; induction p as [|a p IH]; intros [|c s]; simpl; try lia;
    try discriminate.
  intros H; apply andb_true_iff in H as [_ H]; apply IH in H; lia.
Qed.

(** A match consumes at least the word and one blank. *)
Lemma eat_distinct_shorter (s r : pystr) :
  eat_distinct s = Some r -> List.length r < List.length s.
Proof.
  unfold eat_distinct; destruct (prefix_ci (str "distinct") s) eqn:E;
    [|discriminate].
  apply prefix_ci_length in E; change (List.length (str "distinct")) with 8 in E.
  pose proof (length_skipn 8 s) as L.
  destruct (skipn 8 s) as [|c t]; [discriminate|].
  destruct (is_space c); [|discriminate].
  intros [= <-]; pose proof (lstrip_length t); simpl in L; lia.
Qed.

Lemma sub_distinct_fuel_enough (n m : nat) (s : pystr) :
  List.length s <= n -> List.length s <= m ->
  sub_distinct_fuel n s = sub_distinct_fuel m s.
Proof.
  revert m s; induction n as [|n IH]; intros m s Hn Hm.
  - destruct s; [now destruct m|simpl in Hn; lia].
  - destruct m as [|m]; [destruct s; [reflexivity|simpl in Hm; lia]|].
    destruct s as [|c t]; [reflexivity|]; cbn [sub_distinct_fuel].
    destruct (eat_distinct (c :: t)) as [r|] eqn:E.
    + apply eat_distinct_shorter in E; simpl in *; apply IH; lia.
    + simpl in *; f_equal; apply IH; lia.
Qed.

(** The two equations of the substitution: a match at the start is dropped,
    any other character is kept. *)
Lemma sub_distinct_match (s r : pystr) :
  eat_distinct s = Some r -> sub_distinct s = sub_distinct r.
Proof.
  intros E; pose proof (eat_distinct_shorter _ _ E) as L.
  unfold sub_distinct; destruct s as [|c t]; [discriminate|].
  cbn [List.length sub_distinct_fuel]; rewrite E.
  apply sub_distinct_fuel_enough; simpl in L; lia.
Qed.

Lemma sub_distinct_keep (c : ascii) (t : pystr) :
  eat_distinct (c :: t) = None -> sub_distinct (c :: t) = c :: sub_distinct t.
Proof.
  intros E; unfold sub_distinct; cbn [List.length sub_distinct_fuel].
  now rewrite E.
Qed.

(** The argument text [distinct c] is reduced to [c]. *)
Lemma sub_distinct_prefix (c : pystr) :
  first_ok c = true -> keeps_distinct c = true ->
  sub_distinct (str "distinct " ++ c) = c.
Proof.
  intros Hf Hk; apply pystr_eqb_eq in Hk.
  rewrite (sub_distinct_match (str "distinct " ++ c) c); [exact Hk|].
  unfold eat_distinct; cbn; now rewrite (lstrip_first_ok _ Hf).
Qed.

(** ** Identifiers *)

Lemma word_char_plain (c : ascii) :
  is_word c = true ->
  Ascii.eqb c newline = false /\ Ascii.eqb c "*"%char = false.
Proof. each_char c; split; reflexivity. Qed.

Lemma eat_distinct_no_space (s : pystr) :
  forallb (fun c => negb (is_space c)) s = true -> eat_distinct s = None.
Proof.
  intros H; unfold eat_distinct.
  destruct (prefix_ci (str "distinct") s); [|reflexivity].
  destruct (skipn 8 s) as [|c r] eqn:E; [reflexivity|].
  assert (Hc : In c s).
  { rewrite <- (firstn_skipn 8 s), E; apply in_or_app; right; now left. }
  rewrite forallb_forall in H; apply H, negb_true_iff in Hc; now rewrite Hc.
Qed.

(** A text without white space holds no match of the substitution. *)
Lemma sub_distinct_no_space (s : pystr) :
  forallb (fun c => negb (is_space c)) s = true -> sub_distinct s = s.
Proof.
  induction s as [|c t IH]; [reflexivity|]; intros H.
  rewrite sub_distinct_keep by now apply eat_distinct_no_space.
  cbn [forallb] in H; apply andb_true_iff in H as [_ H]; now rewrite IH.
Qed.

(** Every identifier can be named in a formula. *)
Lemma identifier_operand (c : pystr) :
  identifier c = true -> operand c = true /\ star_free c = true.
Proof.
  intros H.
  assert (Hne : c <> []) by (intros ->; discriminate).
  assert (Hw : forall x, In x c -> is_word x = true).
  { destruct c; [discriminate|]; now apply forallb_forall. }
  assert (Hs : forallb (fun x => negb (is_space x)) c = true).
  { apply forallb_forall; intros x Hx.
    now rewrite (word_not_space _ (Hw _ Hx)). }
  assert (Hf : forall s, s <> [] -> (forall x, In x s -> is_word x = true) ->
                         first_ok s = true).
  { intros [|x s] Hn Hx; [contradiction|]; cbn.
    now rewrite (word_not_space _ (Hx x (or_introl eq_refl))). }
  unfold operand, plain, trimmed, keeps_distinct.
  rewrite (Hf c Hne Hw), (sub_distinct_no_space _ Hs), pystr_eqb_refl.
  rewrite Hf.
  - split; [rewrite andb_true_r; cbn [andb]|];
      apply forallb_forall; intros x Hx;
      destruct (word_char_plain _ (Hw _ Hx)) as [Hn Ha];
      [now rewrite Hn|now rewrite Ha].
  - intros E; apply Hne; rewrite <- (rev_involutive c), E; reflexivity.
  - intros x Hx; apply Hw; now apply in_rev.
Qed.

(** ** Frames *)

(** The membership test of the source and the lookup agree. *)
Lemma has_column_getitem (df : DataFrame) (col : pystr) :
  has_column df col = match getitem df col with Some _ => true | None => false end.
Proof.
  unfold has_column, columns; induction df as [|[name s] df IH];
    [reflexivity|]; cbn [map fst existsb getitem].
  destruct (PyStr.eqb col name); [reflexivity|exact IH].
Qed.

(** ** Dispatch *)

(** Splits a hypothesis [In (lower f) aggregate_names] into its seven
    cases. *)
Ltac each_name H :=
  unfold aggregate_names, ALLOWED_FUNCTIONS in H; cbn [map In] in H;
  repeat (destruct H as [H|H]); [..|contradiction].

Lemma aggregate_names_allowed (name : pystr) :
  In name aggregate_names -> In name ALLOWED_FUNCTIONS.
Proof.
  intros H; each_name H; rewrite <- H; unfold ALLOWED_FUNCTIONS; cbn [map In];
    intuition.
Qed.

Lemma is_in_spec (x : pystr) (l : list pystr) : is_in x l = true <-> In x l.
Proof.
  unfold is_in; rewrite existsb_exists; split.
  - intros (y & Hy & E); apply pystr_eqb_eq in E; now subst.
  - intros H; exists x; split; [assumption|apply pystr_eqb_refl].
Qed.

(** A text that is one of the allowed names up to case is a word. *)
Lemma allowed_name_shape (f : pystr) :
  In (lower f) ALLOWED_FUNCTIONS ->
  f <> [] /\ forallb is_word f = true /\ first_ok f = true.
Proof.
  intros H.
  assert (Hw : forallb is_word f = true).
  { rewrite <- forallb_word_lower; each_name H; now rewrite <- H. }
  assert (Hne : f <> []) by (intros ->; each_name H; discriminate).
  repeat split; try assumption.
  destruct f as [|x f]; [contradiction|]; simpl in *.
  apply andb_true_iff in Hw as [Hx _].
  now rewrite (word_not_space _ Hx).
Qed.

Lemma strip_call (f c : pystr) : first_ok f = true -> strip (call f c) = call f c.
Proof.
  intros H; apply strip_trimmed; unfold trimmed, call.
  rewrite (first_ok_app _ _ H), !rev_app_distr; reflexivity.
Qed.

Section Dispatch.

Context {rt : Runtime}.
Variable df : DataFrame.

Lemma is_aggregate_call (f c : pystr) :
  In (lower f) aggregate_names -> _is_aggregate_function (call f c) = true.
Proof.
  intros H; unfold _is_aggregate_function; apply existsb_exists.
  exists (lower f); split; [assumption|].
  unfold call; now rewrite prefix_ci_lower_app.
Qed.

(** On [f(c)] with [f] one of the allowed names, in any letter case,
    [_execute_aggregate] reaches its dispatch with the function name
    [lower f] and the argument text [strip c]. *)
Lemma execute_call (f c : pystr) :
  In (lower f) ALLOWED_FUNCTIONS -> one_line c = true ->
  _execute_aggregate df (call f c) =
    let func_name := lower f in
    let args := strip c in
    if mentions_distinct args then _execute_distinct_count df args
    else if PyStr.eqb func_name (str "sum") then _execute_sum df args
    else if is_in func_name [str "count"; str "nunique"]
    then _execute_count df args
    else if is_in func_name [str "avg"; str "mean"] then _execute_avg df args
    else if PyStr.eqb func_name (str "min") then _execute_min df args
    else if PyStr.eqb func_name (str "max") then _execute_max df args
    else Raise (UnsupportedFunction func_name).
Proof.
  intros H Hc.
  destruct (allowed_name_shape _ H) as (Hne & Hw & Hf).
  apply is_in_spec in H.
  unfold _execute_aggregate.
  now rewrite (match_call_call _ _ Hne Hw Hc), H.
Qed.

(** [parse_and_execute] hands [f(c)] to [_execute_aggregate] when [f] is
    one of the seven aggregate names. *)
Lemma parse_call (f c : pystr) :
  In (lower f) aggregate_names -> one_line c = true ->
  parse_and_execute df (call f c) =
    let func_name := lower f in
    let args := strip c in
    if mentions_distinct args then _execute_distinct_count df args
    else if PyStr.eqb func_name (str "sum") then _execute_sum df args
    else if is_in func_name [str "count"; str "nunique"]
    then _execute_count df args
    else if is_in func_name [str "avg"; str "mean"] then _execute_avg df args
    else if PyStr.eqb func_name (str "min") then _execute_min df args
    else if PyStr.eqb func_name (str "max") then _execute_max df args
    else Raise (UnsupportedFunction func_name).
Proof.
  intros H Hc; pose proof (aggregate_names_allowed _ H) as Ha.
  destruct (allowed_name_shape _ Ha) as (_ & _ & Hf).
  unfold parse_and_execute; cbn zeta.
  rewrite (strip_call _ _ Hf), (is_aggregate_call _ _ H).
  now apply execute_call.
Qed.

(** With the word distinct in the argument text, every function name leads
    to the distinct count. *)
Lemma execute_call_distinct (f c : pystr) :
  In (lower f) ALLOWED_FUNCTIONS -> one_line c = true ->
  mentions_distinct c = true ->
  _execute_aggregate df (call f c) = _execute_distinct_count df (strip c).
Proof.
  intros H Hc Hd; rewrite (execute_call _ _ H Hc); cbn zeta.
  now rewrite mentions_distinct_strip, Hd.
Qed.

Lemma parse_call_distinct (f c : pystr) :
  In (lower f) aggregate_names -> one_line c = true ->
  mentions_distinct c = true ->
  parse_and_execute df (call f c) = _execute_distinct_count df (strip c).
Proof.
  intros H Hc Hd; rewrite (parse_call _ _ H Hc); cbn zeta.
  now rewrite mentions_distinct_strip, Hd.
Qed.

End Dispatch.

(** ** Names in argument position *)

Lemma plain_parts (c : pystr) :
  plain c = true -> trimmed c = true /\ one_line c = true.
Proof. unfold plain; intros H; now apply andb_true_iff in H. Qed.

Lemma operand_parts (c : pystr) :
  operand c = true ->
  trimmed c = true /\ one_line c = true /\ sub_distinct c = c.
Proof.
  unfold operand, keeps_distinct; intros H.
  apply andb_true_iff in H as [H H3]; apply plain_parts in H as [H1 H2].
  apply pystr_eqb_eq in H3; auto.
Qed.

Lemma operand_plain (c : pystr) : operand c = true -> plain c = true.
Proof. unfold operand; intros H; now apply andb_true_iff in H. Qed.

Lemma trimmed_parts (c : pystr) :
  trimmed c = true -> first_ok c = true /\ first_ok (rev c) = true.
Proof. unfold trimmed; intros H; now apply andb_true_iff in H. Qed.

(** The argument text [distinct c] of a name [c]. *)
Lemma distinct_argument (c : pystr) :
  operand c = true ->
  one_line (str "distinct " ++ c) = true
  /\ mentions_distinct (str "distinct " ++ c) = true
  /\ strip (sub_distinct (strip (str "distinct " ++ c))) = c.
Proof.
  intros H; destruct (operand_parts _ H) as (Ht & Hl & Hs).
  destruct (trimmed_parts _ Ht) as (Hf & Hr).
  split; [|split].
  - cbn; exact Hl.
  - reflexivity.
  - rewrite (strip_trimmed (str "distinct " ++ c)).
    + rewrite sub_distinct_prefix; [now apply strip_trimmed|assumption|].
      unfold keeps_distinct; rewrite Hs; apply pystr_eqb_refl.
    + unfold trimmed; rewrite rev_app_distr, (first_ok_app _ _ Hr); reflexivity.
Qed.

(** The argument text [c1 * c2] of two names. *)
Lemma product_argument (c1 c2 : pystr) :
  plain c1 = true -> plain c2 = true ->
  star_free c1 = true -> star_free c2 = true ->
  one_line (c1 ++ str " * " ++ c2) = true
  /\ strip (c1 ++ str " * " ++ c2) = c1 ++ str " * " ++ c2
  /\ contains (str "*") (c1 ++ str " * " ++ c2) = true
  /\ map strip (split "*"%char (c1 ++ str " * " ++ c2)) = [c1; c2].
Proof.
  intros H1 H2 S1 S2.
  destruct (plain_parts _ H1) as (T1 & L1).
  destruct (plain_parts _ H2) as (T2 & L2).
  destruct (trimmed_parts _ T1) as (F1 & _).
  destruct (trimmed_parts _ T2) as (_ & R2).
  assert (E : c1 ++ str " * " ++ c2 = (c1 ++ str " ") ++ "*"%char :: str " " ++ c2)
    by now rewrite <- app_assoc.
  assert (S1' : star_free (c1 ++ str " ") = true)
    by (unfold star_free; rewrite forallb_app; fold (star_free c1); now rewrite S1).
  split; [|split; [|split]].
  - unfold one_line; rewrite !forallb_app; fold (one_line c1) (one_line c2).
    now rewrite L1, L2.
  - apply strip_trimmed; unfold trimmed.
    rewrite (first_ok_app _ _ F1), !rev_app_distr, <- app_assoc.
    now rewrite (first_ok_app _ _ R2).
  - change (str "*") with ["*"%char]; rewrite contains_char_iff, E.
    rewrite forallb_app; cbn; now rewrite andb_false_r.
  - rewrite E, (split_app _ _ _ S1').
    rewrite (split_star_free "*"%char (str " " ++ c2)) by (cbn; exact S2).
    cbn [map]; now rewrite (strip_blank_after _ T1), (strip_blank_before _ T2).
Qed.

Lemma star_free_contains (c : pystr) :
  star_free c = true -> contains (str "*") c = false.
Proof.
  intros H; change (str "*") with ["*"%char]; rewrite contains_char_iff.
  unfold star_free in H; now rewrite H.
Qed.

(** ** The distinct count *)

(** A text that starts with the letters of a word, in any case. *)
Lemma prefix_ci_self (d s : pystr) : prefix_ci (lower d) (d ++ s) = true.
Proof.
  rewrite <- (app_nil_r (lower d)); now rewrite prefix_ci_lower_app.
Qed.

Lemma prefix_ci_firstn (p s : pystr) :
  prefix_ci p s = true ->
  lower (firstn (List.length p) s) = lower p
  /\ List.length (firstn (List.length p) s) = List.length p.
Proof.
  revert s; induction p as [|a p IH]; intros [|c s]; cbn [prefix_ci];
    try discriminate; [now split|now split|].
  intros H; apply andb_true_iff in H as [Hc H]; apply Ascii.eqb_eq in Hc.
  destruct (IH _ H) as [E L]; cbn [List.length firstn lower map]; split.
  - unfold lower in E; now rewrite E, Hc.
  - now rewrite L.
Qed.

Lemma lstrip_run (ws rest : pystr) :
  blank ws = true -> lstrip (ws ++ rest) = lstrip rest.
Proof.
  induction ws as [|w ws IH]; [reflexivity|]; cbn [blank forallb app lstrip].
  intros H; apply andb_true_iff in H as [-> H]; now apply IH.
Qed.

(** The pattern of the substitution matches at the start of a text that
    starts with the word, in any letter case, and a run of white space: the
    match takes the whole run. *)
Lemma eat_distinct_match (d ws rest : pystr) :
  lower d = str "distinct" -> ws <> [] -> blank ws = true ->
  first_ok rest = true \/ rest = [] ->
  eat_distinct (d ++ ws ++ rest) = Some rest.
Proof.
  intros Hd Hn Hb Hr; unfold eat_distinct.
  rewrite <- Hd, prefix_ci_self.
  assert (L : List.length d = 8).
  { apply (f_equal (@List.length ascii)) in Hd; unfold lower in Hd.
    now rewrite length_map in Hd. }
  rewrite skipn_app, L, Nat.sub_diag, skipn_all2 by lia; cbn [skipn app].
  destruct ws as [|w ws]; [contradiction|]; cbn [app].
  cbn [blank forallb] in Hb; apply andb_true_iff in Hb as [-> Hb].
  rewrite (lstrip_run _ _ Hb).
  destruct Hr as [Hr| ->]; [now rewrite (lstrip_first_ok _ Hr)|reflexivity].
Qed.

(** It does not match at the start of any other text. *)
Lemma eat_distinct_none (s : pystr) :
  (forall d w rest, lower d = str "distinct" -> is_space w = true ->
                    s <> d ++ w :: rest) ->
  eat_distinct s = None.
Proof.
  intros H; unfold eat_distinct.
  destruct (prefix_ci (str "distinct") s) eqn:E; [|reflexivity].
  destruct (prefix_ci_firstn _ _ E) as [Hl _].
  change (List.length (str "distinct")) with 8 in Hl.
  destruct (skipn 8 s) as [|w rest] eqn:Es; [reflexivity|].
  destruct (is_space w) eqn:Ew; [|reflexivity].
  exfalso; apply (H (firstn 8 s) w rest); [exact Hl|exact Ew|].
  now rewrite <- Es, firstn_skipn.
Qed.

Lemma prefix_ci_contains (s : pystr) :
  prefix_ci (str "distinct") s = true ->
  prefix (str "distinct") (lower s) = true.
Proof.
  assert (G : forall p : pystr, lower p = p ->
            prefix_ci p s = true -> prefix p (lower s) = true).
  { intros p; revert s; induction p as [|a p IH]; intros [|c s] Hp;
      cbn [prefix_ci prefix lower map]; try discriminate; [reflexivity..|].
    unfold lower in Hp; cbn [map] in Hp; injection Hp as Ha Hp.
    rewrite Ha; intros H; apply andb_true_iff in H as [-> H]; cbn [andb].
    now apply IH. }
  now apply G.
Qed.

(** A name without the letters of distinct is one that the substitution
    keeps. *)
Lemma plain_keeps_distinct (c : pystr) :
  mentions_distinct c = false -> keeps_distinct c = true.
Proof.
  unfold keeps_distinct; intros H; apply pystr_eqb_eq.
  induction c as [|x c IH]; [reflexivity|].
  unfold mentions_distinct in *; cbn [lower map contains] in H.
  apply orb_false_iff in H as [Hp Hc].
  rewrite sub_distinct_keep.
  - f_equal; now apply IH.
  - unfold eat_distinct.
    destruct (prefix_ci (str "distinct") (x :: c)) eqn:E; [|reflexivity].
    apply prefix_ci_contains in E; cbn [lower map] in E; congruence.
Qed.

Lemma sub_distinct_length (s : pystr) :
  List.length (sub_distinct s) <= List.length s.
Proof.
  remember (List.length s) as n eqn:E.
  assert (H : List.length s <= n) by lia; clear E.
  revert s H; induction n as [|n IH]; intros [|x t] H; cbn [List.length] in H;
    try (cbn; lia).
  destruct (eat_distinct (x :: t)) as [r|] eqn:Ee.
  - rewrite (sub_distinct_match _ _ Ee).
    pose proof (eat_distinct_shorter _ _ Ee) as L; cbn [List.length] in L.
    assert (Hr : List.length r <= n) by lia.
    pose proof (IH r Hr); lia.
  - rewrite (sub_distinct_keep _ _ Ee); cbn [List.length].
    assert (Ht : List.length t <= n) by lia.
    pose proof (IH t Ht); lia.
Qed.

(** The substitution keeps a text exactly when the text holds no distinct,
    in any letter case, followed by a white space character. *)
Lemma keeps_distinct_spec (c : pystr) :
  keeps_distinct c = true <->
  forall pre d w post, lower d = str "distinct" -> is_space w = true ->
                       c <> pre ++ d ++ w :: post.
Proof.
  unfold keeps_distinct; rewrite pystr_eqb_eq; split.
  - induction c as [|x t IH]; intros Hk pre d w post Hd Hw E.
    + apply (f_equal (@List.length ascii)) in E.
      rewrite !length_app in E; cbn [List.length] in E; lia.
    + destruct (eat_distinct (x :: t)) as [r|] eqn:Ee.
      * rewrite (sub_distinct_match _ _ Ee) in Hk.
        pose proof (eat_distinct_shorter _ _ Ee) as L.
        pose proof (sub_distinct_length r) as L'.
        rewrite Hk in L'; lia.
      * rewrite (sub_distinct_keep _ _ Ee) in Hk; injection Hk as Hk.
        destruct pre as [|y pre]; cbn [app] in E.
        -- unfold eat_distinct in Ee; rewrite E in Ee.
           rewrite <- Hd, prefix_ci_self in Ee.
           assert (L : List.length d = 8).
           { apply (f_equal (@List.length ascii)) in Hd; unfold lower in Hd.
             now rewrite length_map in Hd. }
           rewrite skipn_app, L, Nat.sub_diag, skipn_all2 in Ee by lia.
           cbn [skipn app] in Ee; now rewrite Hw in Ee.
        -- injection E as _ E; exact (IH Hk pre d w post Hd Hw E).
  - induction c as [|x t IH]; intros H; [reflexivity|].
    rewrite sub_distinct_keep.
    + f_equal; apply IH; intros pre d w post Hd Hw E.
      apply (H (x :: pre) d w post Hd Hw); cbn [app]; now rewrite E.
    + apply eat_distinct_none; intros d w rest Hd Hw E.
      exact (H [] d w rest Hd Hw E).
Qed.

Section DistinctCount.

Context {rt : Runtime}.
Variable df : DataFrame.

(** C10, amended: for a formula [f(c)] whose argument text [c] is on one
    line and holds the letters of distinct in any letter case, also inside a
    column name, and whose function [f] is one of the eight allowed names in
    any letter case, [_execute_aggregate] takes the distinct count: it
    deletes every distinct followed by white space from the stripped
    argument, takes the stripped rest as the column name and returns the
    number of unique values of that column, or fails with column not found,
    naming the rest, when there is no such column; no sum, average, minimum
    or maximum is computed.  [parse_and_execute] does the same under each of
    the seven names it hands to [_execute_aggregate].  The deletion is the
    one of [re.sub], left to right: where the text starts with the word, in
    any letter case, and a run of white space, word and run are dropped and
    the deletion goes on behind them; any other character is kept. *)
Theorem C10_distinct_anywhere_is_distinct_count (f c : pystr) :
  is_in (lower f) ALLOWED_FUNCTIONS = true ->
  one_line c = true ->
  mentions_distinct c = true ->
  _execute_aggregate df (call f c) =
    match getitem df (strip (sub_distinct (strip c))) with
    | Some s => Ok (Num (of_nat (nunique s)))
    | None => Raise (ColumnNotFound [strip (sub_distinct (strip c))])
    end
  /\ (is_in (lower f) aggregate_names = true ->
      parse_and_execute df (call f c) = _execute_aggregate df (call f c))
  /\ sub_distinct [] = []
  /\ (forall d ws rest,
        lower d = str "distinct" -> ws <> [] -> blank ws = true ->
        first_ok rest = true \/ rest = [] ->
        sub_distinct (d ++ ws ++ rest) = sub_distinct rest)
  /\ (forall x t,
        (forall d w rest, lower d = str "distinct" -> is_space w = true ->
                          x :: t <> d ++ w :: rest) ->
        sub_distinct (x :: t) = x :: sub_distinct t).
Proof.
  intros Hf Hc Hd; apply is_in_spec in Hf.
  rewrite (execute_call_distinct df _ _ Hf Hc Hd).
  split; [reflexivity|split; [|split; [reflexivity|split]]].
  - intros Ha; apply is_in_spec in Ha.
    now rewrite (parse_call_distinct df _ _ Ha Hc Hd).
  - intros d ws rest Hl Hn Hb Hr.
    now apply sub_distinct_match, eat_distinct_match.
  - intros x t H; now apply sub_distinct_keep, eat_distinct_none.
Qed.

(** C2, amended: for every aggregate name [f] and every column [c] of the
    frame whose name is not empty, has no white space at either end, is on
    one line and holds no distinct followed by white space, [f(distinct c)]
    returns the number of unique values of the column that are not missing;
    so [count(distinct c)], [sum(distinct c)] and [avg(distinct c)] return
    the same value. *)
Theorem C2_distinct_count_under_every_function (f c : pystr) (s : Series) :
  is_in (lower f) aggregate_names = true ->
  operand c = true ->
  getitem df c = Some s ->
  parse_and_execute df (call f (str "distinct " ++ c))
  = Ok (Num (of_nat (nunique s))).
Proof.
  intros Hf Hc Hs; apply is_in_spec in Hf.
  destruct (distinct_argument _ Hc) as (Hl & Hd & Hcol).
  rewrite (parse_call_distinct df _ _ Hf Hl Hd).
  unfold _execute_distinct_count; cbn zeta; now rewrite Hcol, Hs.
Qed.

End DistinctCount.

(** [dedup] keeps one copy of every value: [nunique] counts the distinct
    values. *)
Lemma dedup_spec (l : list pystr) :
  NoDup (dedup PyStr.eqb l) /\ forall x, In x (dedup PyStr.eqb l) <-> In x l.
Proof.
  induction l as [|a l [IHn IHi]]; [split; [constructor|reflexivity]|].
  cbn [dedup]; split.
  - constructor.
    + rewrite filter_In; intros [_ H]; now rewrite pystr_eqb_refl in H.
    + now apply NoDup_filter.
  - intros x; cbn [In]; rewrite filter_In, IHi; split.
    + intros [->|[H _]]; auto.
    + intros [->|H]; [now left|].
      destruct (PyStr.eqb a x) eqn:E.
      * apply pystr_eqb_eq in E; now left.
      * right; split; [assumption|reflexivity].
Qed.

Lemma C10_witness :
  is_in (lower (str "SUM")) ALLOWED_FUNCTIONS = true
  /\ one_line (str "Distinct   InvoiceNo") = true
  /\ mentions_distinct (str "Distinct   InvoiceNo") = true
  /\ mentions_distinct (str "DistinctQty") = true
  /\ _execute_aggregate (rt := Reference.runtime) Reference.sample_data
       (str "SUM(Distinct   InvoiceNo)") = Ok (Num 3)
  /\ Reference.run Reference.sample_data "SUM(Distinct   InvoiceNo)" = Ok (Num 3)
  /\ sub_distinct (str "Distinct" ++ str "   " ++ str "InvoiceNo")
     = sub_distinct (str "InvoiceNo")
  /\ Reference.run Reference.distinct_frame "SUM(DistinctQty)" = Ok (Num 2).
Proof.
  split; [reflexivity|split; [reflexivity|split; [reflexivity|split;
    [reflexivity|]]]].
  destruct (C10_distinct_anywhere_is_distinct_count (rt := Reference.runtime)
              Reference.sample_data (str "SUM") (str "Distinct   InvoiceNo")
              eq_refl eq_refl eq_refl) as (H1 & H2 & _ & H3 & _).
  destruct (C10_distinct_anywhere_is_distinct_count (rt := Reference.runtime)
              Reference.distinct_frame (str "SUM") (str "DistinctQty")
              eq_refl eq_refl eq_refl) as (K1 & K2 & _).
  split; [exact H1|split; [exact (eq_trans (H2 eq_refl) H1)|split]].
  - apply H3; [reflexivity|discriminate|reflexivity|now left].
  - exact (eq_trans (K2 eq_refl) K1).
Defined.

(** The claim C10 as stated fails on an argument text with a line break and
    under the allowed function name distinct: the first formula is an
    aggregate formula whose argument holds the word, and it fails as an
    invalid aggregate formula; the second one is not taken as an aggregate
    formula at all. *)
Lemma C10_counterexample :
  _is_aggregate_function (str "sum(distinct" ++ newline :: str "InvoiceNo)") = true
  /\ mentions_distinct (str "distinct" ++ newline :: str "InvoiceNo") = true
  /\ parse_and_execute (rt := Reference.runtime) Reference.sample_data
       (str "sum(distinct" ++ newline :: str "InvoiceNo)")
     = Raise (InvalidAggregate (str "sum(distinct" ++ newline :: str "InvoiceNo)"))
  /\ is_in (str "distinct") ALLOWED_FUNCTIONS = true
  /\ Reference.run Reference.sample_data "distinct(distinct InvoiceNo)"
     = Raise (UnsupportedPattern (str "distinct(distinct InvoiceNo)")).
Proof. split; [|split; [|split; [|split]]]; reflexivity. Qed.

Lemma C2_witness :
  is_in (lower (str "avg")) aggregate_names = true
  /\ operand (str "InvoiceNo") = true
  /\ Reference.run Reference.sample_data "avg(distinct InvoiceNo)" = Ok (Num 3).
Proof.
  split; [reflexivity|split; [reflexivity|]].
  exact (C2_distinct_count_under_every_function (rt := Reference.runtime)
           Reference.sample_data (str "avg") (str "InvoiceNo") _
           eq_refl eq_refl eq_refl).
Defined.

(** The claim C2 as stated fails on a column whose name holds distinct
    followed by a blank: the column is in the frame, and the distinct count
    looks up what the deletion leaves of its name. *)
Lemma C2_counterexample :
  getitem Reference.labelled_frame (str "Distinct Customers")
    = Some (Reference.strs ["ann"; "bob"; "bob"]%string)
  /\ Reference.run Reference.labelled_frame "count(distinct Distinct Customers)"
     = Raise (ColumnNotFound [str "Customers"]).
Proof. split; reflexivity. Qed.

(** ** Columns that are absent *)

(** Decides the comparisons of a known function name in the dispatch. *)
Ltac decide_names :=
  repeat match goal with
  | |- context [PyStr.eqb (str ?a) (str ?b)] =>
      let v := eval vm_compute in (PyStr.eqb (str a) (str b)) in
      change (PyStr.eqb (str a) (str b)) with v
  | |- context [is_in (str ?a) ?l] =>
      let v := eval vm_compute in (is_in (str a) l) in
      change (is_in (str a) l) with v
  end; cbv iota.

Section Absent.

Context {rt : Runtime}.
Variable df : DataFrame.

Lemma single_absent (f c : pystr) :
  In (lower f) aggregate_names ->
  operand c = true -> star_free c = true -> getitem df c = None ->
  parse_and_execute df (call f c) = Raise (ColumnNotFound [c]).
Proof.
  intros Hf Hc Hs Hg.
  destruct (operand_parts _ Hc) as (Ht & Hl & Hk).
  rewrite (parse_call df _ _ Hf Hl); cbn zeta.
  rewrite (strip_trimmed _ Ht).
  destruct (mentions_distinct c) eqn:Hd.
  - unfold _execute_distinct_count; cbn zeta.
    now rewrite Hk, (strip_trimmed _ Ht), Hg.
  - each_name Hf; rewrite <- Hf; decide_names;
      unfold _execute_sum, _execute_count, _execute_avg, _execute_min,
        _execute_max; cbn zeta;
      now rewrite ?(star_free_contains _ Hs), ?Hd, (strip_trimmed _ Ht), Hg.
Qed.

Lemma product_absent (f c1 c2 : pystr) :
  In (lower f) [str "sum"; str "avg"; str "mean"] ->
  plain c1 = true -> star_free c1 = true -> mentions_distinct c1 = false ->
  plain c2 = true -> star_free c2 = true -> mentions_distinct c2 = false ->
  getitem df c1 = None \/ getitem df c2 = None ->
  parse_and_execute df (call f (c1 ++ str " * " ++ c2))
  = Raise (ColumnNotFound [c1; c2]).
Proof.
  intros Hf H1 S1 D1 H2 S2 D2 Hg.
  destruct (product_argument _ _ H1 H2 S1 S2) as (Hl & Hs & Hc & Hp).
  assert (Hf' : In (lower f) aggregate_names).
  { cbn [In] in Hf; unfold aggregate_names; cbn [map In]; intuition. }
  rewrite (parse_call df _ _ Hf' Hl); cbn zeta.
  rewrite Hs, mentions_distinct_product, D1, D2; cbn [orb].
  cbn [In] in Hf; repeat (destruct Hf as [Hf|Hf]); try contradiction;
    rewrite <- Hf; decide_names; unfold _execute_sum, _execute_avg;
    rewrite Hc, Hp;
    destruct Hg as [Hg|Hg]; rewrite Hg; [reflexivity| |reflexivity|
      |reflexivity|]; now destruct (getitem df c1).
Qed.

(** C6, amended: for a column name [c] absent from the frame that is an
    operand (not empty, no white space at either end, on one line, holding
    no distinct followed by white space) and holds no asterisk, an aggregate
    formula that names it fails with column not found and yields no value:
    [f(c)] under each of the seven functions (sum, count, nunique, avg,
    mean, min, max) and the distinct count [f(distinct c)] name [c] in the
    error; when [c] does not hold the letters of distinct, a product of [c]
    with a second plain name [c'] without asterisk and without the letters
    of distinct, under sum, avg and mean, names both factors in the error,
    whether or not [c'] is a column. *)
Theorem C6_absent_column_is_column_not_found (c : pystr) :
  operand c = true -> star_free c = true -> getitem df c = None ->
  (forall f, is_in (lower f) aggregate_names = true ->
     parse_and_execute df (call f c) = Raise (ColumnNotFound [c]))
  /\ (forall f, is_in (lower f) aggregate_names = true ->
        parse_and_execute df (call f (str "distinct " ++ c))
        = Raise (ColumnNotFound [c]))
  /\ (forall f c', is_in (lower f) [str "sum"; str "avg"; str "mean"] = true ->
        plain c' = true -> star_free c' = true ->
        mentions_distinct c = false -> mentions_distinct c' = false ->
        parse_and_execute df (call f (c ++ str " * " ++ c'))
        = Raise (ColumnNotFound [c; c'])
        /\ parse_and_execute df (call f (c' ++ str " * " ++ c))
           = Raise (ColumnNotFound [c'; c])).
Proof.
  intros Hc Hs Hg; split; [|split].
  - intros f Hf; apply is_in_spec in Hf; now apply single_absent.
  - intros f Hf; apply is_in_spec in Hf.
    destruct (distinct_argument _ Hc) as (Hl & Hd & Hcol).
    rewrite (parse_call_distinct df _ _ Hf Hl Hd).
    unfold _execute_distinct_count; cbn zeta; now rewrite Hcol, Hg.
  - intros f c' Hf Hc' Hs' Hd Hd'; apply is_in_spec in Hf.
    pose proof (operand_plain _ Hc) as Hp.
    split; apply product_absent; auto.
Qed.

End Absent.

Lemma C6_witness :
  operand (str "DoesNotExist") = true
  /\ star_free (str "DoesNotExist") = true
  /\ getitem Reference.sample_data (str "DoesNotExist") = None
  /\ Reference.run Reference.sample_data "sum(DoesNotExist)"
     = Raise (ColumnNotFound [str "DoesNotExist"])
  /\ Reference.run Reference.sample_data "max(distinct DoesNotExist)"
     = Raise (ColumnNotFound [str "DoesNotExist"])
  /\ Reference.run Reference.sample_data "avg(Quantity * DoesNotExist)"
     = Raise (ColumnNotFound [str "Quantity"; str "DoesNotExist"]).
Proof.
  split; [reflexivity|split; [reflexivity|split; [reflexivity|]]].
  destruct (C6_absent_column_is_column_not_found (rt := Reference.runtime)
              Reference.sample_data (str "DoesNotExist")
              eq_refl eq_refl eq_refl) as (H1 & H2 & H3).
  split; [exact (H1 (str "sum") eq_refl)|].
  split; [exact (H2 (str "max") eq_refl)|].
  exact (proj2 (H3 (str "avg") (str "Quantity")
                  eq_refl eq_refl eq_refl eq_refl eq_refl)).
Defined.

(** The claim C6 as stated fails outside the aggregate calls, on a product
    whose text holds the letters of distinct, and on a name that holds
    distinct followed by a blank: an absent column as the side of a ratio
    fails with cannot evaluate expression; an absent column whose name ends
    in distinct, as the first factor of a product, fails with a column not
    found error that does not name it; and the sum of an absent column
    named Distinct Customers returns a number, the unique count of the
    column Customers. *)
Lemma C6_counterexample :
  getitem Reference.sample_data (str "Missing") = None
  /\ Reference.run Reference.sample_data "Missing / Quantity"
     = Raise (CannotEvaluate (str "Missing"))
  /\ getitem Reference.sample_data (str "NetDistinct") = None
  /\ Reference.run Reference.sample_data "avg(NetDistinct * Quantity)"
     = Raise (ColumnNotFound [str "Net* Quantity"])
  /\ getitem Reference.customers_frame (str "Distinct Customers") = None
  /\ Reference.run Reference.customers_frame "sum(Distinct Customers)"
     = Ok (Num 2).
Proof. repeat split. Qed.

(** ** Cells on which the arithmetic is exact *)

Lemma whole_spec (q : Q) :
  whole q = true <-> exists k : Z, Qnum q = (k * Zpos (Qden q))%Z.
Proof.
  unfold whole; rewrite Z.eqb_eq, Z.mod_divide by discriminate.
  unfold Z.divide; reflexivity.
Qed.

Lemma whole_plus (p q : Q) :
  whole p = true -> whole q = true -> whole (p + q) = true.
Proof.
  rewrite !whole_spec; intros [k Hk] [m Hm]; exists (k + m)%Z.
  destruct p as [np dp], q as [nq dq]; cbn [Qplus Qnum Qden] in *.
  rewrite Hk, Hm, Pos2Z.inj_mul; ring.
Qed.

Lemma whole_mult (p q : Q) :
  whole p = true -> whole q = true -> whole (p * q) = true.
Proof.
  rewrite !whole_spec; intros [k Hk] [m Hm]; exists (k * m)%Z.
  destruct p as [np dp], q as [nq dq]; cbn [Qmult Qnum Qden] in *.
  rewrite Hk, Hm, Pos2Z.inj_mul; ring.
Qed.

Lemma fold_plus_whole (l : list Q) (acc : Q) :
  whole acc = true -> forallb whole l = true ->
  whole (fold_left Qplus l acc) = true.
Proof.
  revert acc; induction l as [|x l IH]; intros acc Ha; cbn [fold_left forallb];
    [trivial|].
  intros H; apply andb_true_iff in H as [Hx H]; apply IH; [|exact H].
  now apply whole_plus.
Qed.

Lemma products_whole (a b : list (option Q)) :
  forallb whole (present a) = true -> forallb whole (present b) = true ->
  forallb whole (products a b) = true.
Proof.
  revert b; induction a as [|x a IH]; intros [|y b]; try reflexivity.
  - now destruct x.
  - destruct x as [p|], y as [q|]; cbn [present products forallb]; intros Ha Hb;
      repeat match goal with
      | H : _ && _ = true |- _ => apply andb_true_iff in H as [? ?]
      end; try (now apply IH).
    rewrite whole_mult by assumption; now apply IH.
Qed.

(** The absolute value of a sum is at most the sum of the absolute
    values. *)
Lemma fold_plus_abs (l : list Q) (acc m : Q) :
  (Qabs acc <= m)%Q ->
  (Qabs (fold_left Qplus l acc) <= fold_left Qplus (map Qabs l) m)%Q.
Proof.
  revert acc m; induction l as [|x l IH]; intros acc m H;
    cbn [map fold_left]; [exact H|].
  apply IH; eapply Qle_trans; [apply Qabs_triangle|].
  now apply Qplus_le_compat; [|apply Qle_refl].
Qed.

Lemma qsum_magnitude (l : list Q) : (Qabs (qsum l) <= magnitude l)%Q.
Proof. unfold qsum, magnitude, qsum; apply fold_plus_abs, Qle_refl. Qed.

Lemma fold_plus_ge (l : list Q) (m : Q) :
  (forall x, In x l -> 0 <= x)%Q -> (m <= fold_left Qplus l m)%Q.
Proof.
  revert m; induction l as [|x l IH]; intros m H; cbn [fold_left];
    [apply Qle_refl|].
  eapply Qle_trans; [|apply IH; intros y Hy; apply H; now right].
  rewrite <- (Qplus_0_r m) at 1.
  apply Qplus_le_compat; [apply Qle_refl|apply H; now left].
Qed.

(** Every value is at most the magnitude of the list. *)
Lemma in_fold_abs (l : list Q) (x m : Q) :
  (0 <= m)%Q -> In x l -> (Qabs x <= fold_left Qplus (map Qabs l) m)%Q.
Proof.
  revert m; induction l as [|y l IH]; intros m Hm; [contradiction|].
  cbn [map fold_left]; intros [->|H].
  - eapply Qle_trans; [|apply fold_plus_ge].
    + rewrite <- (Qplus_0_l (Qabs x)) at 1.
      apply Qplus_le_compat; [exact Hm|apply Qle_refl].
    + intros z Hz; apply in_map_iff in Hz as (w & <- & _); apply Qabs_nonneg.
  - apply IH; [|exact H].
    rewrite <- (Qplus_0_l 0); apply Qplus_le_compat; [exact Hm|apply Qabs_nonneg].
Qed.

Lemma in_magnitude (l : list Q) (x : Q) :
  In x l -> (Qabs x <= magnitude l)%Q.
Proof. apply in_fold_abs, Qle_refl. Qed.

(** The sum over exact values is itself a whole number of at most 53
    bits. *)
Lemma exact_sum_result (l : list Q) :
  exact_sum l = true ->
  whole (qsum l) = true /\ (Qabs (qsum l) <= exact_limit)%Q.
Proof.
  unfold exact_sum; intros H; apply andb_true_iff in H as [Hw Hm].
  apply Qle_bool_iff in Hm; split.
  - now apply fold_plus_whole.
  - eapply Qle_trans; [apply qsum_magnitude|exact Hm].
Qed.

Lemma exact_products_sum (a b : list (option Q)) :
  exact_products a b = true -> exact_sum (products a b) = true.
Proof.
  unfold exact_products, exact_sum; intros H.
  apply andb_true_iff in H as [H Hm]; apply andb_true_iff in H as [Ha Hb].
  now rewrite (products_whole _ _ Ha Hb), Hm.
Qed.

(** ** Products of two columns *)

Lemma present_num_mul (a b : list (option Q)) :
  present (num_mul a b) = products a b.
Proof.
  revert b; induction a as [|x a IH]; intros [|y b]; try reflexivity.
  - now destruct x.
  - cbn [num_mul]; destruct x as [p|], y as [q|]; cbn [present products];
      now rewrite IH.
Qed.

Section Products.

Context {rt : Runtime}.
Variable df : DataFrame.

(** A product of two numeric columns under sum, avg or mean reaches the
    reduction of the row by row product. *)
Lemma product_reduced (f c1 c2 : pystr) (a b : list (option Q)) :
  In (lower f) [str "sum"; str "avg"; str "mean"] ->
  plain c1 = true -> star_free c1 = true -> mentions_distinct c1 = false ->
  plain c2 = true -> star_free c2 = true -> mentions_distinct c2 = false ->
  getitem df c1 = Some (NumCol a) -> getitem df c2 = Some (NumCol b) ->
  parse_and_execute df (call f (c1 ++ str " * " ++ c2))
  = Ok (if PyStr.eqb (lower f) (str "sum")
        then num_sum (num_mul a b) else num_mean (num_mul a b)).
Proof.
  intros Hf H1 S1 D1 H2 S2 D2 G1 G2.
  destruct (product_argument _ _ H1 H2 S1 S2) as (Hl & Hs & Hc & Hp).
  assert (Hf' : In (lower f) aggregate_names).
  { cbn [In] in Hf; unfold aggregate_names; cbn [map In]; intuition. }
  rewrite (parse_call df _ _ Hf' Hl); cbn zeta.
  rewrite Hs, mentions_distinct_product, D1, D2; cbn [orb].
  cbn [In] in Hf; repeat (destruct Hf as [Hf|Hf]); try contradiction;
    rewrite <- Hf; decide_names; unfold _execute_sum, _execute_avg;
    now rewrite Hc, Hp, G1, G2.
Qed.

End Products.

(** C1, amended: for two numeric columns of the frame whose names are plain
    (not empty, no white space at either end, on one line), hold no asterisk
    and not the letters of distinct (in any letter case), and whose cells
    are whole numbers with row products that sum, in absolute value, to at
    most 2^53 (no int64 product or sum wraps around, no binary64 one is
    rounded), [sum(c1 * c2)] returns the sum, over the rows in which both
    cells are present, of the product of the two cells, a whole number of
    at most 2^53 in absolute value; on the sample frame,
    [sum(Quantity * UnitPrice)] returns 110. *)
Theorem C1_sum_of_row_products :
  (forall (rt : Runtime) (df : DataFrame) (c1 c2 : pystr) (a b : list (option Q)),
     plain c1 = true -> star_free c1 = true -> mentions_distinct c1 = false ->
     plain c2 = true -> star_free c2 = true -> mentions_distinct c2 = false ->
     getitem df c1 = Some (NumCol a) -> getitem df c2 = Some (NumCol b) ->
     exact_products a b = true ->
     parse_and_execute df (call (str "sum") (c1 ++ str " * " ++ c2))
     = Ok (Num (qsum (products a b)))
     /\ whole (qsum (products a b)) = true
     /\ (Qabs (qsum (products a b)) <= exact_limit)%Q)
  /\ (forall rt : Runtime,
        parse_and_execute Reference.sample_data (str "sum(Quantity * UnitPrice)")
        = Ok (Num 110)).
Proof.
  split; [|reflexivity].
  intros rt df c1 c2 a b H1 S1 D1 H2 S2 D2 G1 G2 He.
  split; [|now apply exact_sum_result, exact_products_sum].
  rewrite (product_reduced df (str "sum") c1 c2 a b); auto; [|now left].
  unfold num_sum; now rewrite present_num_mul.
Qed.

Lemma C1_witness :
  exact_products (map (fun z => Some (inject_Z z)) [2; 3; 1; 5]%Z)
                 (map (fun z => Some (inject_Z z)) [10; 15; 20; 5]%Z) = true
  /\ parse_and_execute (rt := Reference.runtime) Reference.sample_data
       (call (str "sum") (str "Quantity" ++ str " * " ++ str "UnitPrice"))
     = Ok (Num (qsum (products (map (fun z => Some (inject_Z z)) [2; 3; 1; 5]%Z)
                               (map (fun z => Some (inject_Z z)) [10; 15; 20; 5]%Z)))).
Proof.
  split; [reflexivity|].
  exact (proj1 (proj1 C1_sum_of_row_products Reference.runtime
                  Reference.sample_data (str "Quantity") (str "UnitPrice") _ _
                  eq_refl eq_refl eq_refl eq_refl eq_refl eq_refl eq_refl
                  eq_refl eq_refl)).
Defined.

(** The claim C1 as stated fails on a column whose name holds the letters
    of distinct: both columns are in the frame, and the formula fails with
    column not found instead of returning the sum of the products. *)
Lemma C1_counterexample :
  getitem Reference.distinct_frame (str "DistinctQty")
    = Some (Reference.ints [2; 3; 3]%Z)
  /\ getitem Reference.distinct_frame (str "UnitPrice")
     = Some (Reference.ints [10; 15; 20]%Z)
  /\ Reference.run Reference.distinct_frame "sum(DistinctQty * UnitPrice)"
     = Raise (ColumnNotFound [str "DistinctQty * UnitPrice"]).
Proof. split; [|split]; reflexivity. Qed.

Lemma getitem_length (df : DataFrame) (col : pystr) (s : Series) :
  well_formed df = true -> getitem df col = Some s -> series_length s = nrows df.
Proof.
  unfold well_formed; generalize (nrows df) as n; intros n.
  induction df as [|[name s'] df IH]; [discriminate|].
  cbn [forallb getitem snd]; intros H; apply andb_true_iff in H as [H1 H2].
  destruct (PyStr.eqb col name); [|now apply IH].
  intros [= <-]; now apply Nat.eqb_eq.
Qed.

Lemma products_complete (a b : list (option Q)) :
  complete a = true -> complete b = true -> List.length a = List.length b ->
  List.length (products a b) = List.length a.
Proof.
  revert b; induction a as [|x a IH]; intros [|y b]; try discriminate;
    [reflexivity|].
  destruct x as [p|], y as [q|]; try discriminate.
  cbn [complete forallb products List.length]; intros Ha Hb [= E].
  f_equal; now apply IH.
Qed.

(** C7, amended: for two numeric columns of the frame whose names are plain
    (not empty, no white space at either end, on one line), hold no asterisk
    and not the letters of distinct, and whose cells are whole numbers with
    row products that sum, in absolute value, to at most 2^53 (no int64
    product wraps around, no binary64 product or sum is rounded),
    [avg(c1 * c2)] and [mean(c1 * c2)] return the sum of the products over
    the rows in which both cells are present divided by the number of those
    rows, and NaN when there is no such row; when no cell of the two columns
    is missing and the frame has a row, that is the sum of the products
    divided by the row count.  The sum is a whole number of at most 2^53 in
    absolute value; the quotient is the exact one, of which the code returns
    the nearest binary64. *)
Theorem C7_mean_of_row_products (rt : Runtime) (df : DataFrame) (f c1 c2 : pystr)
    (a b : list (option Q)) :
  is_in (lower f) [str "avg"; str "mean"] = true ->
  plain c1 = true -> star_free c1 = true -> mentions_distinct c1 = false ->
  plain c2 = true -> star_free c2 = true -> mentions_distinct c2 = false ->
  getitem df c1 = Some (NumCol a) -> getitem df c2 = Some (NumCol b) ->
  exact_products a b = true ->
  parse_and_execute df (call f (c1 ++ str " * " ++ c2))
  = Ok match products a b with
       | [] => NaN
       | x :: t => Num (qsum (x :: t) / of_nat (List.length (x :: t)))
       end
  /\ (well_formed df = true -> complete a = true -> complete b = true ->
      nrows df <> 0 ->
      parse_and_execute df (call f (c1 ++ str " * " ++ c2))
      = Ok (Num (qsum (products a b) / of_nat (nrows df))))
  /\ whole (qsum (products a b)) = true
  /\ (Qabs (qsum (products a b)) <= exact_limit)%Q.
Proof.
  intros Hf H1 S1 D1 H2 S2 D2 G1 G2 He; apply is_in_spec in Hf.
  assert (E : parse_and_execute df (call f (c1 ++ str " * " ++ c2))
              = Ok (num_mean (num_mul a b))).
  { rewrite (product_reduced df f c1 c2 a b); auto.
    - cbn [In] in Hf; repeat (destruct Hf as [Hf|Hf]); try contradiction;
        now rewrite <- Hf.
    - cbn [In] in *; intuition. }
  rewrite E; unfold num_mean; rewrite present_num_mul; split; [reflexivity|].
  split; [|now apply exact_sum_result, exact_products_sum].
  intros Hw Ca Cb Hz.
  pose proof (getitem_length _ _ _ Hw G1) as La.
  pose proof (getitem_length _ _ _ Hw G2) as Lb.
  cbn [series_length] in La, Lb.
  rewrite <- La in *; rewrite <- (products_complete a b Ca Cb) by congruence.
  destruct (products a b) eqn:Ep; [|reflexivity].
  rewrite <- (products_complete a b Ca Cb) in Hz by congruence.
  now rewrite Ep in Hz.
Qed.

Lemma C7_witness :
  is_in (lower (str "avg")) [str "avg"; str "mean"] = true
  /\ well_formed Reference.sample_data = true
  /\ complete (map (fun z => Some (inject_Z z)) [2; 3; 1; 5]%Z) = true
  /\ complete (map (fun z => Some (inject_Z z)) [10; 15; 20; 5]%Z) = true
  /\ exact_products (map (fun z => Some (inject_Z z)) [2; 3; 1; 5]%Z)
                    (map (fun z => Some (inject_Z z)) [10; 15; 20; 5]%Z) = true
  /\ nrows Reference.sample_data = 4
  /\ Reference.run Reference.sample_data "avg(Quantity * UnitPrice)"
     = Ok (Num (110 / 4))
  /\ Reference.run Reference.sample_data "avg(Quantity * UnitPrice)"
     = Ok (Num (qsum (products
                        (map (fun z => Some (inject_Z z)) [2; 3; 1; 5]%Z)
                        (map (fun z => Some (inject_Z z)) [10; 15; 20; 5]%Z))
                / of_nat (nrows Reference.sample_data))).
Proof.
  split; [reflexivity|split; [reflexivity|split; [reflexivity|split;
    [reflexivity|split; [reflexivity|split; [reflexivity|]]]]]].
  destruct (C7_mean_of_row_products Reference.runtime Reference.sample_data
              (str "avg") (str "Quantity") (str "UnitPrice") _ _
              eq_refl eq_refl eq_refl eq_refl eq_refl eq_refl eq_refl
              eq_refl eq_refl eq_refl) as (H1 & H2 & _).
  split; [exact H1|].
  apply H2; [reflexivity|reflexivity|reflexivity|discriminate].
Defined.

(** The claim C7 as stated fails on a frame with a missing cell: the frame
    has two rows and the products sum to 6, yet the formula returns 6, not
    6 divided by the row count. *)
Lemma C7_counterexample :
  well_formed Reference.gappy_frame = true
  /\ nrows Reference.gappy_frame = 2
  /\ qsum (products [Some 2%Q; None] [Some 3%Q; Some 4%Q]) = 6%Q
  /\ Reference.run Reference.gappy_frame "avg(Quantity * UnitPrice)" = Ok (Num 6)
  /\ ~ (6 == 6 / of_nat 2)%Q.
Proof.
  split; [reflexivity|split; [reflexivity|split; [reflexivity|split;
    [reflexivity|]]]].
  intros H; vm_compute in H; discriminate.
Qed.

(** ** Minimum, mean and maximum *)

Lemma qmin_spec (a b : Q) : (qmin a b <= a)%Q /\ (qmin a b <= b)%Q.
Proof.
  unfold qmin; destruct (Qle_bool a b) eqn:E.
  - apply Qle_bool_iff in E; split; [apply Qle_refl|assumption].
  - split; [|apply Qle_refl].
    destruct (Qlt_le_dec b a) as [H|H]; [now apply Qlt_le_weak|].
    apply Qle_bool_iff in H; congruence.
Qed.

Lemma qmax_spec (a b : Q) : (a <= qmax a b)%Q /\ (b <= qmax a b)%Q.
Proof.
  unfold qmax; destruct (Qle_bool a b) eqn:E.
  - apply Qle_bool_iff in E; split; [assumption|apply Qle_refl].
  - split; [apply Qle_refl|].
    destruct (Qlt_le_dec b a) as [H|H]; [now apply Qlt_le_weak|].
    apply Qle_bool_iff in H; congruence.
Qed.

Lemma fold_qmin_le (t : list Q) (x : Q) :
  (fold_left qmin t x <= x)%Q
  /\ forall y, In y t -> (fold_left qmin t x <= y)%Q.
Proof.
  revert x; induction t as [|z t IH]; intros x; cbn [fold_left].
  - split; [apply Qle_refl|contradiction].
  - destruct (IH (qmin x z)) as [H1 H2], (qmin_spec x z) as [Hx Hz].
    split; [eapply Qle_trans; eassumption|].
    intros y [<-|Hy]; [eapply Qle_trans; eassumption|auto].
Qed.

Lemma fold_qmax_ge (t : list Q) (x : Q) :
  (x <= fold_left qmax t x)%Q
  /\ forall y, In y t -> (y <= fold_left qmax t x)%Q.
Proof.
  revert x; induction t as [|z t IH]; intros x; cbn [fold_left].
  - split; [apply Qle_refl|contradiction].
  - destruct (IH (qmax x z)) as [H1 H2], (qmax_spec x z) as [Hx Hz].
    split; [eapply Qle_trans; eassumption|].
    intros y [<-|Hy]; [eapply Qle_trans; eassumption|auto].
Qed.

Lemma of_nat_succ (n : nat) : (of_nat (S n) == of_nat n + 1)%Q.
Proof.
  unfold of_nat; rewrite Nat2Z.inj_succ, <- Z.add_1_r, inject_Z_plus.
  apply Qeq_refl.
Qed.

Lemma of_nat_pos (n : nat) : (0 < of_nat (S n))%Q.
Proof.
  unfold of_nat; change 0%Q with (inject_Z 0); rewrite <- Zlt_Qlt; lia.
Qed.

(** The minimum and the maximum of a list are values of the list. *)
Lemma fold_qmin_in (t : list Q) (x : Q) : In (fold_left qmin t x) (x :: t).
Proof.
  revert x; induction t as [|z t IH]; intros x; cbn [fold_left]; [now left|].
  destruct (IH (qmin x z)) as [H|H]; [|right; now right].
  rewrite <- H; unfold qmin; destruct (Qle_bool x z); [now left|right; now left].
Qed.

Lemma fold_qmax_in (t : list Q) (x : Q) : In (fold_left qmax t x) (x :: t).
Proof.
  revert x; induction t as [|z t IH]; intros x; cbn [fold_left]; [now left|].
  destruct (IH (qmax x z)) as [H|H]; [|right; now right].
  rewrite <- H; unfold qmax; destruct (Qle_bool x z); [right; now left|now left].
Qed.

(** A sum lies between the count times a lower and an upper bound of its
    terms. *)
Lemma fold_plus_bounds (lo hi : Q) (l : list Q) (acc : Q) :
  (forall y, In y l -> lo <= y /\ y <= hi)%Q ->
  (acc + of_nat (List.length l) * lo <= fold_left Qplus l acc)%Q
  /\ (fold_left Qplus l acc <= acc + of_nat (List.length l) * hi)%Q.
Proof.
  revert acc; induction l as [|z l IH]; intros acc H; cbn [fold_left List.length].
  - change (of_nat 0) with 0%Q; split; ring_simplify; apply Qle_refl.
  - destruct (IH (acc + z)%Q) as [L U]; [intros y Hy; apply H; now right|].
    destruct (H z) as [Hl Hu]; [now left|].
    rewrite of_nat_succ; split.
    + eapply Qle_trans; [|exact L].
      setoid_replace (acc + (of_nat (List.length l) + 1) * lo)%Q
        with ((acc + lo) + of_nat (List.length l) * lo)%Q by ring.
      apply Qplus_le_compat; [|apply Qle_refl].
      apply Qplus_le_compat; [apply Qle_refl|assumption].
    + eapply Qle_trans; [exact U|].
      setoid_replace (acc + (of_nat (List.length l) + 1) * hi)%Q
        with ((acc + hi) + of_nat (List.length l) * hi)%Q by ring.
      apply Qplus_le_compat; [|apply Qle_refl].
      apply Qplus_le_compat; [apply Qle_refl|assumption].
Qed.

(** The mean of a list with a value lies between its minimum and its
    maximum. *)
Lemma mean_between (x : Q) (t : list Q) :
  (fold_left qmin t x <= qsum (x :: t) / of_nat (List.length (x :: t)))%Q
  /\ (qsum (x :: t) / of_nat (List.length (x :: t)) <= fold_left qmax t x)%Q.
Proof.
  destruct (fold_qmin_le t x) as [m1 m2], (fold_qmax_ge t x) as [M1 M2].
  destruct (fold_plus_bounds (fold_left qmin t x) (fold_left qmax t x)
              (x :: t) 0) as [L U].
  { intros y [<-|Hy]; auto. }
  cbn [List.length] in *; pose proof (of_nat_pos (List.length t)) as Hp.
  unfold qsum; split.
  - apply Qle_shift_div_l; [assumption|].
    eapply Qle_trans; [|exact L]; ring_simplify; apply Qle_refl.
  - apply Qle_shift_div_r; [assumption|].
    eapply Qle_trans; [exact U|]; ring_simplify; apply Qle_refl.
Qed.

Section SingleColumn.

Context {rt : Runtime}.
Variable df : DataFrame.

(** What [f(c)] returns for a column [c] of the frame. *)
Lemma single_present (f c : pystr) (s : Series) :
  In (lower f) aggregate_names ->
  operand c = true -> star_free c = true -> getitem df c = Some s ->
  parse_and_execute df (call f c) =
    if mentions_distinct c then Ok (Num (of_nat (nunique s)))
    else if PyStr.eqb (lower f) (str "sum") then reduce RSum s
    else if is_in (lower f) [str "count"; str "nunique"]
    then Ok (Num (of_nat (count s)))
    else if is_in (lower f) [str "avg"; str "mean"] then reduce RMean s
    else if PyStr.eqb (lower f) (str "min") then reduce RMin s
    else reduce RMax s.
Proof.
  intros Hf Hc Hs Hg.
  destruct (operand_parts _ Hc) as (Ht & Hl & Hk).
  rewrite (parse_call df _ _ Hf Hl); cbn zeta.
  rewrite (strip_trimmed _ Ht).
  destruct (mentions_distinct c) eqn:Hd.
  - unfold _execute_distinct_count; cbn zeta.
    now rewrite Hk, (strip_trimmed _ Ht), Hg.
  - each_name Hf; rewrite <- Hf; decide_names;
      unfold _execute_sum, _execute_count, _execute_avg, _execute_min,
        _execute_max; cbn zeta;
      now rewrite ?(star_free_contains _ Hs), ?Hd, (strip_trimmed _ Ht), Hg.
Qed.

(** C9, amended: for a numeric column [c] of the frame with at least one
    value, whose name is plain (not empty, no white space at either end, on
    one line) and holds no asterisk and not the letters of distinct, and
    whose cells are whole numbers with absolute values that sum to at most
    2^53 (the sum of the column is exact in int64 and in binary64), the
    formulas [min(c)], [avg(c)] and [max(c)] return numbers, and these
    satisfy min <= avg <= max, for the exact mean and for the mean under any
    rounding that is monotone and leaves whole numbers of at most 2^53 in
    absolute value unchanged, as the rounding to binary64 does. *)
Theorem C9_min_le_avg_le_max (c : pystr) (l : list (option Q)) (round : Q -> Q) :
  plain c = true -> star_free c = true -> mentions_distinct c = false ->
  getitem df c = Some (NumCol l) -> has_value l = true ->
  exact_sum (present l) = true ->
  (forall x y, (x <= y)%Q -> (round x <= round y)%Q) ->
  (forall x, whole x = true -> (Qabs x <= exact_limit)%Q -> (round x == x)%Q) ->
  exists lo m hi : Q,
    parse_and_execute df (call (str "min") c) = Ok (Num lo)
    /\ parse_and_execute df (call (str "avg") c) = Ok (Num m)
    /\ parse_and_execute df (call (str "max") c) = Ok (Num hi)
    /\ (lo <= m)%Q /\ (m <= hi)%Q
    /\ (lo <= round m)%Q /\ (round m <= hi)%Q.
Proof.
  intros Hp Hs Hd Hg Hv He Hmono Hfix.
  assert (Hc : operand c = true)
    by (unfold operand; now rewrite Hp, (plain_keeps_distinct _ Hd)).
  assert (N : forall f, In f aggregate_names -> In (lower f) aggregate_names).
  { intros f Hf; each_name Hf; rewrite <- Hf; unfold aggregate_names;
      cbn [map In]; change (lower (str "sum")) with (str "sum"); intuition. }
  rewrite !(single_present _ c (NumCol l));
    try assumption; try (apply N; unfold aggregate_names; cbn; intuition).
  rewrite Hd; decide_names; cbn [reduce]; unfold num_min, num_mean, num_max.
  unfold has_value in Hv; destruct (present l) as [|x t]; [discriminate|].
  destruct (mean_between x t) as [L U].
  unfold exact_sum in He; apply andb_true_iff in He as [Hw Hm].
  apply Qle_bool_iff in Hm; rewrite forallb_forall in Hw.
  assert (Hcell : forall y, In y (x :: t) -> (round y == y)%Q).
  { intros y Hy; apply Hfix; [now apply Hw|].
    apply Qle_trans with (magnitude (x :: t)); [now apply in_magnitude|exact Hm]. }
  eexists _, _, _; split; [reflexivity|split; [reflexivity|split;
    [reflexivity|split; [exact L|split; [exact U|split]]]]].
  - rewrite <- (Hcell _ (fold_qmin_in t x)); now apply Hmono.
  - rewrite <- (Hcell _ (fold_qmax_in t x)); now apply Hmono.
Qed.

End SingleColumn.

Lemma C9_witness :
  plain (str "UnitPrice") = true /\ star_free (str "UnitPrice") = true
  /\ mentions_distinct (str "UnitPrice") = false
  /\ has_value (map (fun z => Some (inject_Z z)) [10; 15; 20; 5]%Z) = true
  /\ exact_sum (present (map (fun z => Some (inject_Z z)) [10; 15; 20; 5]%Z))
     = true
  /\ exists lo m hi : Q,
       Reference.run Reference.sample_data "min(UnitPrice)" = Ok (Num lo)
       /\ Reference.run Reference.sample_data "avg(UnitPrice)" = Ok (Num m)
       /\ Reference.run Reference.sample_data "max(UnitPrice)" = Ok (Num hi)
       /\ (lo <= m)%Q /\ (m <= hi)%Q.
Proof.
  split; [reflexivity|split; [reflexivity|split; [reflexivity|split;
    [reflexivity|split; [reflexivity|]]]]].
  destruct (C9_min_le_avg_le_max (rt := Reference.runtime) Reference.sample_data
              (str "UnitPrice") _ (fun x => x)
              eq_refl eq_refl eq_refl eq_refl eq_refl eq_refl
              (fun x y H => H) (fun x _ _ => Qeq_refl x))
    as (lo & m & hi & H1 & H2 & H3 & H4 & H5 & _).
  exists lo, m, hi; repeat (split; [assumption|]); assumption.
Defined.

(** The claim C9 as stated fails on a column whose label holds an asterisk
    and on a column without values.  In the first frame the columns a, b
    and a*b are numeric with one row: the minimum and the maximum of a*b
    are those of that column, 3, while its average is the mean of the
    products of a and b, 100.  In the second one the column has two rows,
    both missing: minimum, average and maximum are NaN, which no order
    relates. *)
Lemma C9_counterexample :
  getitem Reference.star_frame (str "a*b") = Some (Reference.ints [3]%Z)
  /\ Reference.run Reference.star_frame "min(a*b)" = Ok (Num 3)
  /\ Reference.run Reference.star_frame "avg(a*b)" = Ok (Num 100)
  /\ Reference.run Reference.star_frame "max(a*b)" = Ok (Num 3)
  /\ fle (Num 100) (Num 3) = false
  /\ getitem hollow_frame (str "Quantity") = Some (NumCol [None; None])
  /\ Reference.run hollow_frame "min(Quantity)" = Ok NaN
  /\ Reference.run hollow_frame "avg(Quantity)" = Ok NaN
  /\ Reference.run hollow_frame "max(Quantity)" = Ok NaN
  /\ fle NaN NaN = false.
Proof. repeat (split; [reflexivity|]); reflexivity. Qed.

(** ** Ratios *)

Section Ratio.

Context {rt : Runtime}.
Variable df : DataFrame.


(** C3, amended: for a formula that reaches the ratio path and splits into
    two sides, if the numerator evaluates without error and the denominator
    evaluates to zero, the evaluation returns exactly 0 and raises
    nothing. *)
Theorem C3_zero_denominator (formula a b : pystr) (n d : fval) :
  _is_aggregate_function (strip formula) = false ->
  split "/"%char (strip formula) = [a; b] ->
  _evaluate_simple_expression df (strip a) = Ok n ->
  _evaluate_simple_expression df (strip b) = Ok d ->
  is_zero d = true ->
  parse_and_execute df formula = Ok (Num 0).
Proof.
  intros Ha Hs Hn Hd Hz; unfold parse_and_execute; cbn zeta; rewrite Ha.
  unfold _is_ratio_formula; change (str "/") with ["/"%char].
  rewrite (split_two_contains _ _ _ _ _ Hs).
  unfold _execute_ratio; rewrite Hs, Hn, Hd; cbn [bind]; now rewrite Hz.
Qed.

End Ratio.


Lemma C3_witness :
  _is_aggregate_function (strip (str "Quantity / 0")) = false
  /\ split "/"%char (strip (str "Quantity / 0")) = [str "Quantity "; str " 0"]
  /\ _evaluate_simple_expression (rt := Reference.runtime) Reference.sample_data
       (strip (str "Quantity ")) = Ok (Num 11)
  /\ _evaluate_simple_expression (rt := Reference.runtime) Reference.sample_data
       (strip (str " 0")) = Ok (Num 0)
  /\ Reference.run Reference.sample_data "Quantity / 0" = Ok (Num 0).
Proof.
  split; [reflexivity|split; [reflexivity|split; [reflexivity|split;
    [reflexivity|]]]].
  exact (C3_zero_denominator (rt := Reference.runtime) Reference.sample_data
           (str "Quantity / 0") (str "Quantity ") (str " 0") (Num 11) (Num 0)
           eq_refl eq_refl eq_refl eq_refl eq_refl).
Defined.

(** The claim C3 as stated fails when the numerator cannot be evaluated:
    the formula reaches the ratio path and its denominator evaluates to
    zero, yet the evaluation raises. *)
Lemma C3_counterexample :
  _is_aggregate_function (strip (str "Missing / 0")) = false
  /\ _is_ratio_formula (strip (str "Missing / 0")) = true
  /\ split "/"%char (strip (str "Missing / 0")) = [str "Missing "; str " 0"]
  /\ _evaluate_simple_expression (rt := Reference.runtime) Reference.sample_data
       (strip (str " 0")) = Ok (Num 0)
  /\ Reference.run Reference.sample_data "Missing / 0"
     = Raise (CannotEvaluate (str "Missing")).
Proof. repeat split. Qed.

(** C4: the formula of the claim starts with an aggregate name and an
    opening parenthesis, so it is taken as one aggregate call whose argument
    runs to the last closing parenthesis, and fails with column not found;
    the ratio path, which is not reached, would return the quotient 11/4 of
    the two aggregates. *)
Theorem C4_aggregate_numerator_is_not_a_ratio (rt : Runtime) :
  _is_aggregate_function (str "sum(Quantity) / count(InvoiceNo)") = true
  /\ match_call (str "sum(Quantity) / count(InvoiceNo)")
     = Some (str "sum", str "Quantity) / count(InvoiceNo")
  /\ parse_and_execute Reference.sample_data
       (str "sum(Quantity) / count(InvoiceNo)")
     = Raise (ColumnNotFound [str "Quantity) / count(InvoiceNo"])
  /\ _execute_ratio Reference.sample_data
       (str "sum(Quantity) / count(InvoiceNo)")
     = Ok (Num (11 / 4)).
Proof. repeat split. Qed.

(** ** Function names outside the allowed set *)

Lemma lower_char_paren (c : ascii) : lower_char c = "("%char -> c = "("%char.
Proof. each_char c. Qed.

Lemma aggregate_name_lower (name : pystr) :
  In name aggregate_names ->
  lower name = name /\ forallb is_word name = true /\ name <> []
  /\ is_in name ALLOWED_FUNCTIONS = true.
Proof.
  intros H; unfold aggregate_names in H; cbn [map In] in H.
  repeat (destruct H as [<-|H]; [repeat split; discriminate|]).
  contradiction.
Qed.

(** A text matched by a name and an opening parenthesis starts with the
    name, up to case, and the parenthesis. *)
Lemma prefix_ci_paren (p s : pystr) :
  prefix_ci (p ++ ["("%char]) s = true ->
  exists w rest, s = w ++ "("%char :: rest /\ lower w = lower p.
Proof.
  revert s; induction p as [|x p IH]; intros [|c s]; cbn [app prefix_ci];
    try discriminate; intros H; apply andb_true_iff in H as [Hc H].
  - apply Ascii.eqb_eq in Hc; symmetry in Hc.
    change (lower_char "(") with "("%char in Hc.
    apply lower_char_paren in Hc; subst; now exists [], s.
  - destruct (IH _ H) as (w & rest & -> & Hw).
    apply Ascii.eqb_eq in Hc; exists (c :: w), rest; split; [reflexivity|].
    unfold lower in *; cbn [map]; now rewrite Hw, Hc.
Qed.

(** What [_is_aggregate_function] accepts has one of the seven names, up
    to case, as its leading word. *)
Lemma aggregate_shape (formula : pystr) :
  existsb (fun name => prefix_ci (name ++ str "(") formula) aggregate_names
    = true ->
  exists w rest,
    formula = w ++ "("%char :: rest /\ In (lower w) aggregate_names.
Proof.
  intros H; apply existsb_exists in H as (name & Hn & Hp).
  destruct (prefix_ci_paren _ _ Hp) as (w & rest & -> & Hw).
  destruct (aggregate_name_lower _ Hn) as (Hl & _).
  exists w, rest; split; [reflexivity|]; now rewrite Hw, Hl.
Qed.

(** Two words before a parenthesis that match up to case are equal up to
    case. *)
Lemma prefix_ci_word_run (p f q rest : pystr) :
  forallb is_word p = true -> forallb is_word f = true ->
  prefix_ci (p ++ "("%char :: q) (f ++ "("%char :: rest) = true ->
  lower p = lower f.
Proof.
  revert f; induction p as [|x p IH]; intros [|y f] Hp Hf; cbn [app prefix_ci];
    intros H; apply andb_true_iff in H as [Hc H]; apply Ascii.eqb_eq in Hc.
  - reflexivity.
  - cbn in Hf; apply andb_true_iff in Hf as [Hy _].
    symmetry in Hc; change (lower_char "(") with "("%char in Hc.
    apply lower_char_paren in Hc; subst; discriminate.
  - cbn in Hp; apply andb_true_iff in Hp as [Hx _].
    change (lower_char "(") with "("%char in Hc.
    apply lower_char_paren in Hc; subst; discriminate.
  - cbn in Hp, Hf; apply andb_true_iff in Hp as [_ Hp].
    apply andb_true_iff in Hf as [_ Hf].
    unfold lower in *; cbn [map]; now rewrite Hc, (IH f Hp Hf H).
Qed.

Section NotAllowed.

Context {rt : Runtime}.
Variable df : DataFrame.

(** A call of a word that is not an aggregate name is no aggregate. *)
Lemma other_name_not_aggregate (f c : pystr) :
  forallb is_word f = true -> is_in (lower f) aggregate_names = false ->
  _is_aggregate_function (call f c) = false.
Proof.
  intros Hw Hf; unfold _is_aggregate_function.
  match goal with |- ?e = false => destruct e eqn:E end; [|reflexivity].
  apply existsb_exists in E as (name & Hn & Hp).
  destruct (aggregate_name_lower _ Hn) as (Hl & Hnw & _).
  unfold call in Hp; cbn [str list_ascii_of_string app] in Hp.
  change (name ++ ["("%char]) with (name ++ "("%char :: []) in Hp.
  apply (prefix_ci_word_run _ _ _ _ Hnw Hw) in Hp.
  rewrite Hl in Hp; subst name; apply is_in_spec in Hn; congruence.
Qed.

Lemma strip_word_call (f c : pystr) :
  forallb is_word f = true -> strip (call f c) = call f c.
Proof.
  intros Hw; apply strip_trimmed; unfold trimmed, call.
  rewrite !rev_app_distr; cbn [str list_ascii_of_string rev app first_ok].
  destruct f as [|x f]; [reflexivity|]; cbn in *.
  apply andb_true_iff in Hw as [Hx _]; now rewrite (word_not_space _ Hx).
Qed.

End NotAllowed.

(** C5: the error that enumerates the allowed functions is raised by
    [_execute_aggregate], for every call [f(c)] of a word [f] outside the
    allowed set with an argument on one line, but [parse_and_execute] never
    hands such a call to it: a formula [f(c)] whose function name is not one
    of sum, count, avg, mean, min, max, nunique, and that holds no slash,
    fails with unsupported formula pattern, an error that quotes the formula
    and does not name the allowed functions.  On [foo(x)], the example of
    the claim: unsupported formula pattern from [parse_and_execute], function
    not allowed, with the allowed set, from [_execute_aggregate] alone. *)
Theorem C5_unknown_function_is_unsupported_pattern (rt : Runtime) (df : DataFrame) :
  (forall f c, forallb is_word f = true ->
     is_in (lower f) aggregate_names = false ->
     _is_ratio_formula (call f c) = false ->
     parse_and_execute df (call f c) = Raise (UnsupportedPattern (call f c)))
  /\ (forall f c, f <> [] -> forallb is_word f = true ->
        is_in (lower f) ALLOWED_FUNCTIONS = false -> one_line c = true ->
        _execute_aggregate df (call f c)
        = Raise (FunctionNotAllowed (lower f) ALLOWED_FUNCTIONS))
  /\ parse_and_execute df (str "foo(x)") = Raise (UnsupportedPattern (str "foo(x)"))
  /\ _execute_aggregate df (str "foo(x)")
     = Raise (FunctionNotAllowed (str "foo") ALLOWED_FUNCTIONS).
Proof.
  split; [|split; [|split; reflexivity]].
  - intros f c Hw Hf Hr; unfold parse_and_execute; cbn zeta.
    now rewrite (strip_word_call _ _ Hw), (other_name_not_aggregate _ _ Hw Hf), Hr.
  - intros f c Hne Hw Hf Hc; unfold _execute_aggregate.
    now rewrite (match_call_call _ _ Hne Hw Hc), Hf.
Qed.

Lemma C5_witness :
  forallb is_word (str "foo") = true
  /\ is_in (lower (str "foo")) aggregate_names = false
  /\ is_in (lower (str "foo")) ALLOWED_FUNCTIONS = false
  /\ _is_ratio_formula (call (str "foo") (str "x")) = false
  /\ parse_and_execute (rt := Reference.runtime) Reference.sample_data
       (call (str "foo") (str "x"))
     = Raise (UnsupportedPattern (str "foo(x)"))
  /\ _execute_aggregate (rt := Reference.runtime) Reference.sample_data
       (call (str "foo") (str "x"))
     = Raise (FunctionNotAllowed (str "foo") ALLOWED_FUNCTIONS).
Proof.
  split; [reflexivity|split; [reflexivity|split; [reflexivity|split;
    [reflexivity|]]]].
  destruct (C5_unknown_function_is_unsupported_pattern Reference.runtime
              Reference.sample_data) as (H1 & H2 & _).
  split.
  - exact (H1 (str "foo") (str "x") eq_refl eq_refl eq_refl).
  - refine (H2 (str "foo") (str "x") _ eq_refl eq_refl eq_refl); discriminate.
Defined.

(** * Further properties of the evaluator *)

(** ** White space *)

Lemma lstrip_app (a b : pystr) :
  lstrip (a ++ b) = if blank a then lstrip b else lstrip a ++ b.
Proof.
  induction a as [|x a IH]; [reflexivity|]; cbn [app lstrip blank forallb].
  destruct (is_space x); [exact IH|reflexivity].
Qed.

Lemma lstrip_blank (a : pystr) : blank a = true -> lstrip a = [].
Proof.
  induction a as [|x a IH]; [reflexivity|]; cbn [blank forallb lstrip].
  intros H; apply andb_true_iff in H as [-> H]; auto.
Qed.

Lemma blank_rev (a : pystr) : blank (rev a) = blank a.
Proof.
  unfold blank; induction a as [|x a IH]; [reflexivity|].
  cbn [rev forallb]; rewrite forallb_app, IH; cbn [forallb].
  now rewrite andb_true_r, andb_comm.
Qed.

Lemma lstrip_nil_blank (a : pystr) : lstrip a = [] -> blank a = true.
Proof.
  induction a as [|x a IH]; [reflexivity|]; cbn [lstrip blank forallb].
  destruct (is_space x); [exact IH|discriminate].
Qed.

(** White space around a text does not change what [strip] returns. *)
Lemma strip_padding (l s r : pystr) :
  blank l = true -> blank r = true -> strip (l ++ s ++ r) = strip s.
Proof.
  intros Hl Hr; unfold strip, rstrip.
  rewrite (lstrip_app l), Hl, (lstrip_app s).
  destruct (blank s) eqn:Hs.
  - now rewrite (lstrip_blank _ Hr), (lstrip_blank _ Hs).
  - rewrite rev_app_distr, lstrip_app, blank_rev, Hr; reflexivity.
Qed.

Lemma lstrip_head (s t : pystr) (h : ascii) :
  lstrip s = h :: t -> is_space h = false.
Proof.
  induction s as [|x s IH]; [discriminate|]; cbn [lstrip].
  destruct (is_space x) eqn:Ex; [exact IH|]; intros [= -> _]; exact Ex.
Qed.

Lemma lstrip_suffix (s : pystr) : exists p, s = p ++ lstrip s.
Proof.
  induction s as [|x s [p IH]]; [now exists []|]; cbn [lstrip].
  destruct (is_space x); [|now exists []].
  exists (x :: p); cbn [app]; now rewrite <- IH.
Qed.

(** What [strip] returns is empty or has no white space at either end. *)
Lemma strip_cases (s : pystr) : strip s = [] \/ trimmed (strip s) = true.
Proof.
  unfold strip, rstrip.
  destruct (lstrip (rev (lstrip s))) as [|y u] eqn:E; [now left|right].
  pose proof (lstrip_head _ _ _ E) as Hy.
  destruct (lstrip_suffix (rev (lstrip s))) as [p Hp]; rewrite E in Hp.
  apply (f_equal (@rev ascii)) in Hp.
  rewrite rev_involutive, rev_app_distr in Hp.
  unfold trimmed; rewrite rev_involutive; cbn [first_ok]; rewrite Hy.
  rewrite andb_true_r.
  destruct (rev (y :: u)) as [|h w] eqn:R.
  - apply (f_equal (@List.length ascii)) in R; rewrite length_rev in R;
      discriminate.
  - cbn [app] in Hp; cbn [first_ok]; now rewrite (lstrip_head _ _ _ Hp).
Qed.

Lemma strip_idem (s : pystr) : strip (strip s) = strip s.
Proof.
  destruct (strip_cases s) as [E|E]; [now rewrite E|now apply strip_trimmed].
Qed.

Section Spelling.

Context {rt : Runtime}.
Variable df : DataFrame.

(** X1: white space around a formula is ignored: padding the formula on
    either side with white space (newlines included) does not change what
    [calculate_kpi_value] returns or raises. *)
Theorem X1_formula_padding_ignored (l formula r : pystr) :
  blank l = true -> blank r = true ->
  calculate_kpi_value df (l ++ formula ++ r) = calculate_kpi_value df formula.
Proof.
  intros Hl Hr; unfold calculate_kpi_value, parse_and_execute; cbn zeta.
  now rewrite (strip_padding _ _ _ Hl Hr).
Qed.

(** X2: white space around the argument of an aggregate call is ignored,
    as long as the argument stays on one line: [f( c )] evaluates as
    [f(c)]. *)
Theorem X2_argument_padding_ignored (f l c r : pystr) :
  is_in (lower f) aggregate_names = true ->
  blank l = true -> blank r = true -> one_line (l ++ c ++ r) = true ->
  parse_and_execute df (call f (l ++ c ++ r)) = parse_and_execute df (call f c).
Proof.
  intros Hf Hl Hr Hc; apply is_in_spec in Hf.
  assert (Hc' : one_line c = true).
  { unfold one_line in *; rewrite !forallb_app in Hc.
    apply andb_true_iff in Hc as [_ Hc]; now apply andb_true_iff in Hc. }
  rewrite (parse_call df _ _ Hf Hc), (parse_call df _ _ Hf Hc'); cbn zeta.
  now rewrite (strip_padding _ _ _ Hl Hr).
Qed.

(** X3: the function name is read without regard to letter case: [SUM(c)],
    [Sum(c)] and [sum(c)] evaluate alike. *)
Theorem X3_function_name_case (f c : pystr) :
  is_in (lower f) aggregate_names = true -> one_line c = true ->
  parse_and_execute df (call f c) = parse_and_execute df (call (lower f) c).
Proof.
  intros Hf Hc; apply is_in_spec in Hf.
  assert (E : lower (lower f) = lower f).
  { unfold lower; rewrite map_map; apply map_ext; apply lower_char_idem. }
  rewrite (parse_call df f c Hf Hc), (parse_call df (lower f) c); [|now rewrite E|assumption].
  now rewrite E.
Qed.

End Spelling.

Lemma X1_witness :
  blank (str "  ") = true /\ blank [newline] = true
  /\ calculate_kpi_value (rt := Reference.runtime) Reference.sample_data
       (str "  " ++ str "sum(Quantity)" ++ [newline])
     = calculate_kpi_value (rt := Reference.runtime) Reference.sample_data
         (str "sum(Quantity)").
Proof.
  split; [reflexivity|split; [reflexivity|]].
  exact (X1_formula_padding_ignored (rt := Reference.runtime)
           Reference.sample_data (str "  ") (str "sum(Quantity)") [newline]
           eq_refl eq_refl).
Defined.

Lemma X2_witness :
  is_in (lower (str "avg")) aggregate_names = true
  /\ one_line (str " " ++ str "UnitPrice" ++ str "  ") = true
  /\ parse_and_execute (rt := Reference.runtime) Reference.sample_data
       (call (str "avg") (str " " ++ str "UnitPrice" ++ str "  "))
     = parse_and_execute (rt := Reference.runtime) Reference.sample_data
         (call (str "avg") (str "UnitPrice")).
Proof.
  split; [reflexivity|split; [reflexivity|]].
  exact (X2_argument_padding_ignored (rt := Reference.runtime)
           Reference.sample_data (str "avg") (str " ") (str "UnitPrice")
           (str "  ") eq_refl eq_refl eq_refl eq_refl).
Defined.

Lemma X3_witness :
  is_in (lower (str "CoUnT")) aggregate_names = true
  /\ parse_and_execute (rt := Reference.runtime) Reference.sample_data
       (call (str "CoUnT") (str "InvoiceNo"))
     = parse_and_execute (rt := Reference.runtime) Reference.sample_data
         (call (str "count") (str "InvoiceNo")).
Proof.
  split; [reflexivity|].
  exact (X3_function_name_case (rt := Reference.runtime) Reference.sample_data
           (str "CoUnT") (str "InvoiceNo") eq_refl eq_refl).
Defined.

(** ** Parentheses, asterisks and slashes *)

Lemma lacks_spec (x : ascii) (s : pystr) :
  lacks x s = true <-> forall c, In c s -> c <> x.
Proof.
  unfold lacks; rewrite forallb_forall; split; intros H c Hc.
  - apply H, negb_true_iff, Ascii.eqb_neq in Hc; exact Hc.
  - apply negb_true_iff, Ascii.eqb_neq; auto.
Qed.


Lemma before_last_none (c : ascii) (s : pystr) :
  lacks c s = true -> before_last c s = None.
Proof.
  induction s as [|x s IH]; [reflexivity|]; cbn [lacks forallb before_last].
  intros H; apply andb_true_iff in H as [Hx H].
  apply negb_true_iff in Hx; now rewrite (IH H), Hx.
Qed.



Lemma in_line (x : ascii) (s : pystr) : In x (line s) -> In x s.
Proof.
  induction s as [|c s IH]; [auto|]; cbn [line].
  destruct (Ascii.eqb c newline); [contradiction|].
  intros [->|H]; [now left|right; auto].
Qed.

Lemma in_lstrip (x : ascii) (s : pystr) : In x (lstrip s) -> In x s.
Proof.
  destruct (lstrip_suffix s) as [p Hp]; intros H; rewrite Hp.
  apply in_or_app; now right.
Qed.

Lemma in_strip (x : ascii) (s : pystr) : In x (strip s) -> In x s.
Proof.
  unfold strip, rstrip; intros H.
  apply in_rev, in_lstrip in H; rewrite <- in_rev in H; now apply in_lstrip.
Qed.

Lemma lacks_strip (x : ascii) (s : pystr) :
  lacks x s = true -> lacks x (strip s) = true.
Proof. rewrite !lacks_spec; intros H c Hc; apply H; now apply in_strip. Qed.

Lemma split_length (sep : ascii) (s : pystr) :
  List.length (split sep s) = S (count_char sep s).
Proof.
  induction s as [|c s IH]; [reflexivity|]; cbn [split count_char].
  destruct (Ascii.eqb c sep); cbn [List.length]; [now rewrite IH|].
  destruct (split sep s); [discriminate|exact IH].
Qed.

Lemma count_char_app (x : ascii) (a b : pystr) :
  count_char x (a ++ b) = count_char x a + count_char x b.
Proof.
  induction a as [|c a IH]; [reflexivity|]; cbn [app count_char].
  destruct (Ascii.eqb c x); cbn; now rewrite IH.
Qed.

Lemma count_char_rev (x : ascii) (s : pystr) :
  count_char x (rev s) = count_char x s.
Proof.
  induction s as [|c s IH]; [reflexivity|]; cbn [rev].
  rewrite count_char_app, IH; cbn [count_char].
  destruct (Ascii.eqb c x); lia.
Qed.

Lemma count_char_lstrip (x : ascii) (s : pystr) :
  is_space x = false -> count_char x (lstrip s) = count_char x s.
Proof.
  intros Hx; induction s as [|c s IH]; [reflexivity|]; cbn [lstrip].
  destruct (is_space c) eqn:E; [|reflexivity].
  cbn [count_char]; destruct (Ascii.eqb c x) eqn:Ec; [|exact IH].
  apply Ascii.eqb_eq in Ec; congruence.
Qed.

(** Stripping removes white space only. *)
Lemma count_char_strip (x : ascii) (s : pystr) :
  is_space x = false -> count_char x (strip s) = count_char x s.
Proof.
  intros Hx; unfold strip, rstrip.
  now rewrite count_char_rev, !count_char_lstrip, count_char_rev,
    count_char_lstrip.
Qed.

Lemma count_char_lacks (x : ascii) (s : pystr) :
  lacks x s = true <-> count_char x s = 0.
Proof.
  unfold lacks; induction s as [|c s IH]; [easy|]; cbn [forallb count_char].
  destruct (Ascii.eqb c x); cbn [negb andb]; [easy|exact IH].
Qed.

Lemma contains_char_count (x : ascii) (s : pystr) :
  0 < count_char x s -> contains [x] s = true.
Proof.
  intros H; rewrite contains_char_iff; apply negb_true_iff.
  fold (lacks x s); destruct (lacks x s) eqn:E; [|reflexivity].
  apply count_char_lacks in E; lia.
Qed.

Section Malformed.

Context {rt : Runtime}.
Variable df : DataFrame.




(** X5: an aggregate call without any closing parenthesis is rejected as an
    invalid aggregate formula, whatever its argument. *)
Theorem X5_unclosed_call_is_invalid (formula : pystr) :
  _is_aggregate_function (strip formula) = true ->
  lacks ")"%char formula = true ->
  parse_and_execute df formula = Raise (InvalidAggregate (strip formula)).
Proof.
  intros Ha Hp; unfold parse_and_execute; cbn zeta; rewrite Ha.
  apply lacks_strip in Hp.
  destruct (aggregate_shape _ Ha) as (w & rest & E & Hn).
  pose proof (aggregate_names_allowed _ Hn) as Hal.
  destruct (allowed_name_shape _ Hal) as (Hne & Hw & _).
  unfold _execute_aggregate, match_call; rewrite E at 1.
  rewrite (span_word_run _ _ Hw).
  destruct w as [|x w]; [contradiction|]; rewrite Ascii.eqb_refl.
  rewrite before_last_none; [reflexivity|].
  apply lacks_spec; intros c Hc; apply in_line in Hc.
  rewrite lacks_spec in Hp; apply Hp; rewrite E.
  apply in_or_app; right; now right.
Qed.

(** X6: a line break inside the parentheses, before any closing
    parenthesis, makes the call an invalid aggregate formula: the argument
    is read on the first line only. *)
Theorem X6_line_break_in_call_is_invalid (f c1 c2 : pystr) :
  is_in (lower f) aggregate_names = true ->
  one_line c1 = true -> lacks ")"%char c1 = true ->
  parse_and_execute df (call f (c1 ++ newline :: c2))
  = Raise (InvalidAggregate (call f (c1 ++ newline :: c2))).
Proof.
  intros Hf Hc Hp; apply is_in_spec in Hf.
  pose proof (aggregate_names_allowed _ Hf) as Ha.
  destruct (allowed_name_shape _ Ha) as (Hne & Hw & Hfo).
  unfold parse_and_execute; cbn zeta.
  rewrite (strip_call _ _ Hfo), (is_aggregate_call _ _ Hf).
  unfold _execute_aggregate, match_call, call.
  cbn [str list_ascii_of_string app]; rewrite (span_word_run _ _ Hw).
  destruct f as [|x f]; [contradiction|]; rewrite Ascii.eqb_refl.
  rewrite <- app_assoc, (line_one_line _ _ Hc); cbn [app line].
  rewrite Ascii.eqb_refl, app_nil_r, (before_last_none _ _ Hp); reflexivity.
Qed.

(** X7: under sum, avg and mean an argument with two or more asterisks is
    rejected as a complex expression before any column is looked up. *)
Theorem X7_three_factors_rejected (f c : pystr) :
  is_in (lower f) [str "sum"; str "avg"; str "mean"] = true ->
  one_line c = true -> mentions_distinct c = false ->
  2 <= count_char "*"%char c ->
  parse_and_execute df (call f c) = Raise (ComplexNotSupported (strip c)).
Proof.
  intros Hf Hc Hd Hn; apply is_in_spec in Hf.
  assert (Hf' : In (lower f) aggregate_names).
  { cbn [In] in Hf; unfold aggregate_names; cbn [map In]; intuition. }
  rewrite (parse_call df _ _ Hf' Hc); cbn zeta.
  rewrite mentions_distinct_strip, Hd.
  rewrite <- (count_char_strip "*"%char c) in Hn by reflexivity.
  pose proof (split_length "*"%char (strip c)) as L.
  assert (Hs : contains (str "*") (strip c) = true)
    by (apply contains_char_count; lia).
  cbn [In] in Hf; repeat (destruct Hf as [Hf|Hf]); try contradiction;
    rewrite <- Hf; decide_names; unfold _execute_sum, _execute_avg;
    rewrite Hs;
    destruct (split "*"%char (strip c)) as [|p1 [|p2 [|p3 ps]]];
    cbn [List.length] in L; try lia; reflexivity.
Qed.

(** X8: a formula that is no aggregate call and holds two or more slashes
    is rejected as an invalid ratio; no side of it is evaluated. *)
Theorem X8_two_slashes_rejected (formula : pystr) :
  _is_aggregate_function (strip formula) = false ->
  2 <= count_char "/"%char formula ->
  parse_and_execute df formula = Raise (InvalidRatio (strip formula)).
Proof.
  intros Ha Hn; unfold parse_and_execute; cbn zeta; rewrite Ha.
  rewrite <- (count_char_strip "/"%char formula) in Hn by reflexivity.
  unfold _is_ratio_formula; change (str "/") with ["/"%char].
  rewrite contains_char_count by lia.
  unfold _execute_ratio.
  pose proof (split_length "/"%char (strip formula)) as L.
  destruct (split "/"%char (strip formula)) as [|p1 [|p2 [|p3 ps]]];
    cbn [List.length] in L; try lia; reflexivity.
Qed.

End Malformed.


Lemma X5_witness :
  _is_aggregate_function (strip (str "sum(Quantity")) = true
  /\ lacks ")"%char (str "sum(Quantity") = true
  /\ Reference.run Reference.sample_data "sum(Quantity"
     = Raise (InvalidAggregate (str "sum(Quantity")).
Proof.
  split; [reflexivity|split; [reflexivity|]].
  exact (X5_unclosed_call_is_invalid (rt := Reference.runtime)
           Reference.sample_data (str "sum(Quantity") eq_refl eq_refl).
Defined.

Lemma X6_witness :
  is_in (lower (str "sum")) aggregate_names = true
  /\ parse_and_execute (rt := Reference.runtime) Reference.sample_data
       (call (str "sum") (str "Quantity *" ++ newline :: str " UnitPrice"))
     = Raise (InvalidAggregate
                (call (str "sum") (str "Quantity *" ++ newline :: str " UnitPrice"))).
Proof.
  split; [reflexivity|].
  exact (X6_line_break_in_call_is_invalid (rt := Reference.runtime)
           Reference.sample_data (str "sum") (str "Quantity *")
           (str " UnitPrice") eq_refl eq_refl eq_refl).
Defined.

Lemma X7_witness :
  is_in (lower (str "avg")) [str "sum"; str "avg"; str "mean"] = true
  /\ mentions_distinct (str "Quantity * UnitPrice * Missing") = false
  /\ count_char "*"%char (str "Quantity * UnitPrice * Missing") = 2
  /\ Reference.run Reference.sample_data "avg(Quantity * UnitPrice * Missing)"
     = Raise (ComplexNotSupported (str "Quantity * UnitPrice * Missing")).
Proof.
  split; [reflexivity|split; [reflexivity|split; [reflexivity|]]].
  exact (X7_three_factors_rejected (rt := Reference.runtime)
           Reference.sample_data (str "avg")
           (str "Quantity * UnitPrice * Missing")
           eq_refl eq_refl eq_refl (le_n 2)).
Defined.

Lemma X8_witness :
  _is_aggregate_function (strip (str "Quantity / UnitPrice / 2")) = false
  /\ count_char "/"%char (str "Quantity / UnitPrice / 2") = 2
  /\ Reference.run Reference.sample_data "Quantity / UnitPrice / 2"
     = Raise (InvalidRatio (str "Quantity / UnitPrice / 2")).
Proof.
  split; [reflexivity|split; [reflexivity|]].
  exact (X8_two_slashes_rejected (rt := Reference.runtime)
           Reference.sample_data (str "Quantity / UnitPrice / 2")
           eq_refl (le_n 2)).
Defined.

(** ** Ratios of columns and aggregates *)

Lemma word_char_side (c : ascii) :
  is_word c = true ->
  Ascii.eqb c "("%char = false /\ Ascii.eqb c "/"%char = false.
Proof. each_char c; split; reflexivity. Qed.


(** Every identifier can stand as a side of a ratio. *)
Lemma identifier_ratio_side (c : pystr) :
  identifier c = true -> ratio_side c = true.
Proof.
  intros H; destruct (identifier_operand _ H) as [Ho _].
  unfold ratio_side; rewrite (operand_plain _ Ho); cbn [andb].
  assert (Hw : forall x, In x c -> is_word x = true).
  { destruct c; [discriminate|]; now apply forallb_forall. }
  apply andb_true_iff; split; apply forallb_forall; intros x Hx;
    destruct (word_char_side _ (Hw _ Hx)) as [H1 H2];
    [now rewrite H1|now rewrite H2].
Qed.



Section Ratios.

Context {rt : Runtime}.
Variable df : DataFrame.




End Ratios.



(** ** Counts and means of one column *)

Lemma present_length {A : Type} (l : list (option A)) :
  List.length (present l) <= List.length l.
Proof.
  induction l as [|[x|] l IH]; cbn [present List.length]; lia.
Qed.



Section OneColumn.

Context {rt : Runtime}.
Variable df : DataFrame.


(** X12: the name [distinct] is in the allowed set but has no
    implementation: [_execute_aggregate] on [distinct(c)], with an argument
    that does not hold the word distinct, fails with unsupported
    function. *)
Theorem X12_distinct_is_not_implemented (f c : pystr) :
  PyStr.eqb (lower f) (str "distinct") = true ->
  one_line c = true -> mentions_distinct c = false ->
  _execute_aggregate df (call f c) = Raise (UnsupportedFunction (str "distinct")).
Proof.
  intros Hf Hc Hd; apply pystr_eqb_eq in Hf.
  assert (Ha : In (lower f) ALLOWED_FUNCTIONS).
  { rewrite Hf; unfold ALLOWED_FUNCTIONS; cbn [map In]; intuition. }
  rewrite (execute_call df _ _ Ha Hc); cbn zeta.
  now rewrite mentions_distinct_strip, Hd, Hf.
Qed.

(** X13: on a numeric column without values (no rows, or missing cells
    only), whose name is plain (not empty, no white space at either end, on
    one line) and holds no asterisk and not the letters of distinct, [sum]
    and [count] return 0, while [avg], [min] and [max] return NaN. *)
Theorem X13_column_without_values (c : pystr) (l : list (option Q)) :
  plain c = true -> star_free c = true -> mentions_distinct c = false ->
  getitem df c = Some (NumCol l) -> has_value l = false ->
  parse_and_execute df (call (str "sum") c) = Ok (Num 0)
  /\ parse_and_execute df (call (str "count") c) = Ok (Num 0)
  /\ parse_and_execute df (call (str "avg") c) = Ok NaN
  /\ parse_and_execute df (call (str "min") c) = Ok NaN
  /\ parse_and_execute df (call (str "max") c) = Ok NaN.
Proof.
  intros Hp Hs Hd Hg Hv.
  assert (Hc : operand c = true)
    by (unfold operand; now rewrite Hp, (plain_keeps_distinct _ Hd)).
  assert (N : forall f, In f aggregate_names -> In (lower f) aggregate_names).
  { intros f Hf; each_name Hf; rewrite <- Hf; unfold aggregate_names;
      cbn [map In]; change (lower (str "sum")) with (str "sum"); intuition. }
  rewrite !(single_present df _ c (NumCol l));
    try assumption; try (apply N; unfold aggregate_names; cbn; intuition).
  rewrite Hd; decide_names; cbn [reduce count].
  unfold num_sum, num_mean, num_min, num_max, has_value in *.
  destruct (present l); [repeat split|discriminate].
Qed.

End OneColumn.


Lemma X12_witness :
  PyStr.eqb (lower (str "Distinct")) (str "distinct") = true
  /\ mentions_distinct (str "InvoiceNo") = false
  /\ _execute_aggregate (rt := Reference.runtime) Reference.sample_data
       (str "Distinct(InvoiceNo)")
     = Raise (UnsupportedFunction (str "distinct")).
Proof.
  split; [reflexivity|split; [reflexivity|]].
  exact (X12_distinct_is_not_implemented (rt := Reference.runtime)
           Reference.sample_data (str "Distinct") (str "InvoiceNo")
           eq_refl eq_refl eq_refl).
Defined.

Lemma X13_witness :
  plain (str "Quantity") = true /\ star_free (str "Quantity") = true
  /\ mentions_distinct (str "Quantity") = false
  /\ has_value [@None Q; None] = false
  /\ Reference.run hollow_frame "sum(Quantity)" = Ok (Num 0)
  /\ Reference.run hollow_frame "count(Quantity)" = Ok (Num 0)
  /\ Reference.run hollow_frame "avg(Quantity)" = Ok NaN
  /\ Reference.run hollow_frame "min(Quantity)" = Ok NaN
  /\ Reference.run hollow_frame "max(Quantity)" = Ok NaN.
Proof.
  split; [reflexivity|split; [reflexivity|split; [reflexivity|split;
    [reflexivity|]]]].
  exact (X13_column_without_values (rt := Reference.runtime) hollow_frame
           (str "Quantity") _ eq_refl eq_refl eq_refl eq_refl eq_refl).
Defined.

(** * Properties of the data validation *)

Import DataValidator.

Lemma flat_map_nil {A B : Type} (f : A -> list B) (l : list A) :
  flat_map f l = [] <-> forall x, In x l -> f x = [].
Proof.
  induction l as [|a l IH]; cbn [flat_map]; [easy|]; split.
  - intros H; apply app_eq_nil in H as [Ha Hl]; intros x [<-|Hx]; [exact Ha|].
    now apply IH.
  - intros H; rewrite (H a (or_introl eq_refl)); cbn [app]; apply IH.
    intros x Hx; apply H; now right.
Qed.

Lemma filter_nil {A : Type} (p : A -> bool) (l : list A) :
  filter p l = [] <-> forall x, In x l -> p x = false.
Proof.
  induction l as [|a l IH]; cbn [filter]; [easy|]; split.
  - destruct (p a) eqn:E; [discriminate|]; intros H x [<-|Hx]; [exact E|].
    now apply IH.
  - intros H; rewrite (H a (or_introl eq_refl)); apply IH.
    intros x Hx; apply H; now right.
Qed.

Section Schema.

Context {ops : FrameOps}.
Variable contracts : Contracts.
Variable df : DataFrame.

(** X15: [validate_schema] reports a valid schema exactly when every column
    of the contract's schema is in the frame with a dtype that [_check_dtype]
    accepts for its expected type; columns of the frame that the schema does
    not list never make it invalid. *)
Theorem X15_schema_valid_iff :
  fst (validate_schema contracts df) = true <->
  forall col rule, In (col, rule) (schema contracts) ->
    exists s, getitem df col = Some s
              /\ _check_dtype (dtype_name s) (expected_type rule) = true.
Proof.
  unfold validate_schema; cbn zeta; cbn [fst].
  set (missing := filter (fun col => negb (has_column df col))
                         (map fst (schema contracts))).
  set (wrong := flat_map _ (schema contracts)).
  assert (Hm : missing = [] <->
               forall col rule, In (col, rule) (schema contracts) ->
                                getitem df col <> None).
  { unfold missing; rewrite filter_nil; split.
    - intros H col rule Hin.
      specialize (H col (in_map fst _ _ Hin)); cbn [fst] in H.
      apply negb_false_iff in H; rewrite has_column_getitem in H.
      now destruct (getitem df col).
    - intros H col Hin; apply in_map_iff in Hin as ([c rule] & <- & Hin).
      specialize (H c rule Hin); cbn [fst]; apply negb_false_iff.
      rewrite has_column_getitem; now destruct (getitem df c). }
  assert (Hw : wrong = [] <->
               forall col rule s, In (col, rule) (schema contracts) ->
                 getitem df col = Some s ->
                 _check_dtype (dtype_name s) (expected_type rule) = true).
  { unfold wrong; rewrite flat_map_nil; split.
    - intros H col rule s Hin Hg; specialize (H _ Hin); cbn beta iota in H.
      rewrite Hg in H.
      now destruct (_check_dtype (dtype_name s) (expected_type rule)).
    - intros H [col rule] Hin; destruct (getitem df col) as [s|] eqn:Hg;
        [|reflexivity].
      now rewrite (H col rule s Hin Hg). }
  split.
  - intros H.
    assert (E : missing = [] /\ wrong = []).
    { destruct missing; [|discriminate]; split; [reflexivity|].
      cbn [app] in H; now destruct wrong. }
    destruct E as [E1 E2]; rewrite Hm in E1; rewrite Hw in E2.
    intros col rule Hin; specialize (E1 col rule Hin).
    destruct (getitem df col) as [s|] eqn:Hg; [|contradiction].
    exists s; split; [reflexivity|now apply (E2 col rule s)].
  - intros H.
    assert (E1 : missing = []).
    { apply Hm; intros col rule Hin; destruct (H col rule Hin) as (s & -> & _).
      discriminate. }
    assert (E2 : wrong = []).
    { apply Hw; intros col rule s Hin Hg.
      destruct (H col rule Hin) as (s' & Hg' & Hc); congruence. }
    now rewrite E1, E2.
Qed.

End Schema.

(** ** Completeness *)

Lemma isnull_plus_count (s : Series) : isnull_sum s + count s = series_length s.
Proof.
  destruct s as [l|l]; cbn [isnull_sum count series_length];
    induction l as [|[x|] l IH]; cbn [filter is_missing present List.length];
    lia.
Qed.

(** An entry of the completeness results comes from a rule of the contracts
    on a column of the frame. *)
Lemma completeness_entry (contracts : Contracts) (df : DataFrame)
    (col : pystr) (r : Completeness) :
  In (col, r) (check_completeness contracts df) ->
  exists s limit,
    In (col, limit) (completeness contracts) /\ getitem df col = Some s
    /\ r = {| missing_count := isnull_sum s;
              missing_percentage := ratio (isnull_sum s) (nrows df);
              threshold := limit;
              passes := le_float (ratio (isnull_sum s) (nrows df)) limit;
              severity := if gt_float (ratio (isnull_sum s) (nrows df)) limit
                          then str "FAIL" else str "PASS" |}.
Proof.
  unfold check_completeness; intros H.
  apply in_flat_map in H as ([c limit] & Hin & H).
  destruct (getitem df c) as [s|] eqn:Hg; [|contradiction].
  destruct H as [H|[]]; injection H as -> <-.
  now exists s, limit.
Qed.

Lemma div_le_iff (a b c : Q) : (0 < b -> (a / b <= c <-> a <= c * b))%Q.
Proof.
  intros Hb; rewrite <- (Qmult_le_r (a / b) c b Hb).
  assert (E : (a / b * b == a)%Q) by (field; intros E; rewrite E in Hb;
    now apply Qlt_irrefl in Hb).
  now rewrite E.
Qed.

Section Completeness.

Context {rt : Runtime}.
Variable contracts : Contracts.
Variable df : DataFrame.

(** X16: in a frame whose columns have one length, for a column whose name
    is plain (not empty, no white space at either end, on one line) and
    holds no asterisk and not the letters of distinct, the missing count
    that [check_completeness] reports for the column and the value that the
    formula [count(col)] returns add up to the number of rows. *)
Theorem X16_missing_plus_count_is_rows (col : pystr) (r : Completeness) :
  well_formed df = true ->
  plain col = true -> star_free col = true -> mentions_distinct col = false ->
  In (col, r) (check_completeness contracts df) ->
  exists n : nat,
    parse_and_execute df (call (str "count") col) = Ok (Num (of_nat n))
    /\ missing_count r + n = nrows df.
Proof.
  intros Hw Hp Hs Hd Hin.
  assert (Hc : operand col = true)
    by (unfold operand; now rewrite Hp, (plain_keeps_distinct _ Hd)).
  destruct (completeness_entry _ _ _ _ Hin) as (s & limit & _ & Hg & ->).
  exists (count s); cbn [missing_count]; split.
  - rewrite (single_present df (str "count") col s); try assumption.
    + now rewrite Hd.
    + unfold aggregate_names; cbn; intuition.
  - rewrite isnull_plus_count; now apply getitem_length with (col := col).
Qed.

(** X17: on a frame with rows, a completeness check passes exactly when the
    missing count is at most the threshold times the number of rows, and its
    severity is PASS exactly when it passes and FAIL otherwise. *)
Theorem X17_completeness_verdict (col : pystr) (r : Completeness) :
  In (col, r) (check_completeness contracts df) -> nrows df <> 0 ->
  (passes r = true <->
   (of_nat (missing_count r) <= threshold r * of_nat (nrows df))%Q)
  /\ severity r = (if passes r then str "PASS" else str "FAIL").
Proof.
  intros Hin Hn.
  destruct (completeness_entry _ _ _ _ Hin) as (s & limit & _ & Hg & ->).
  cbn [passes missing_count threshold severity].
  destruct (nrows df) as [|n]; [contradiction|]; cbn [ratio le_float gt_float].
  split.
  - rewrite Qle_bool_iff; apply div_le_iff, of_nat_pos.
  - unfold lt_bool; now destruct (Qle_bool _ limit).
Qed.

(** X18: on a frame without rows the quotient of the missing count and the
    row count is NaN, so every completeness check fails, yet its severity
    reads PASS. *)
Theorem X18_completeness_without_rows (col : pystr) (r : Completeness) :
  well_formed df = true -> nrows df = 0 ->
  In (col, r) (check_completeness contracts df) ->
  missing_percentage r = NaN /\ passes r = false /\ severity r = str "PASS".
Proof.
  intros Hw Hn Hin.
  destruct (completeness_entry _ _ _ _ Hin) as (s & limit & _ & Hg & ->).
  cbn [passes missing_percentage severity].
  pose proof (getitem_length _ _ _ Hw Hg) as L.
  pose proof (isnull_plus_count s) as E.
  assert (Z : isnull_sum s = 0) by lia.
  now rewrite Z, Hn.
Qed.

End Completeness.

Lemma X16_witness :
  well_formed Reference.gappy_frame = true
  /\ plain (str "Quantity") = true /\ star_free (str "Quantity") = true
  /\ mentions_distinct (str "Quantity") = false
  /\ exists r n,
       In (str "Quantity", r)
          (check_completeness quantity_contracts Reference.gappy_frame)
       /\ Reference.run Reference.gappy_frame "count(Quantity)" = Ok (Num (of_nat n))
       /\ missing_count r + n = nrows Reference.gappy_frame.
Proof.
  split; [reflexivity|split; [reflexivity|split; [reflexivity|split;
    [reflexivity|]]]].
  assert (Hin : In (str "Quantity",
                    {| missing_count := 1;
                       missing_percentage := Num (of_nat 1 / of_nat 2);
                       threshold := 1 # 2;
                       passes := true;
                       severity := str "PASS" |})
                   (check_completeness quantity_contracts Reference.gappy_frame))
    by (left; reflexivity).
  destruct (X16_missing_plus_count_is_rows (rt := Reference.runtime)
              quantity_contracts Reference.gappy_frame (str "Quantity") _
              eq_refl eq_refl eq_refl eq_refl Hin) as (n & H1 & H2).
  eexists _, n; split; [exact Hin|split; assumption].
Defined.

Lemma X17_witness :
  nrows Reference.gappy_frame <> 0
  /\ exists r,
       In (str "Quantity", r)
          (check_completeness quantity_contracts Reference.gappy_frame)
       /\ (passes r = true <->
           (of_nat (missing_count r) <= threshold r * of_nat (nrows Reference.gappy_frame))%Q)
       /\ severity r = (if passes r then str "PASS" else str "FAIL").
Proof.
  split; [discriminate|].
  assert (Hin : In (str "Quantity",
                    {| missing_count := 1;
                       missing_percentage := Num (of_nat 1 / of_nat 2);
                       threshold := 1 # 2;
                       passes := true;
                       severity := str "PASS" |})
                   (check_completeness quantity_contracts Reference.gappy_frame))
    by (left; reflexivity).
  eexists; split; [exact Hin|].
  apply (X17_completeness_verdict quantity_contracts Reference.gappy_frame
           (str "Quantity") _ Hin).
  discriminate.
Defined.

Lemma X18_witness :
  well_formed empty_frame = true /\ nrows empty_frame = 0
  /\ exists r,
       In (str "Quantity", r) (check_completeness quantity_contracts empty_frame)
       /\ missing_percentage r = NaN /\ passes r = false
       /\ severity r = str "PASS".
Proof.
  split; [reflexivity|split; [reflexivity|]].
  assert (Hin : In (str "Quantity",
                    {| missing_count := 0;
                       missing_percentage := NaN;
                       threshold := 1 # 2;
                       passes := false;
                       severity := str "PASS" |})
                   (check_completeness quantity_contracts empty_frame))
    by (left; reflexivity).
  eexists; split; [exact Hin|].
  exact (X18_completeness_without_rows quantity_contracts empty_frame
           (str "Quantity") _ eq_refl eq_refl Hin).
Defined.

(** ** Value ranges *)

Lemma filter_disjoint_length {A : Type} (p q : A -> bool) (l : list A) :
  (forall x, In x l -> p x && q x = false) ->
  List.length (filter p l) + List.length (filter q l)
  = List.length (filter (fun x => p x || q x) l).
Proof.
  induction l as [|a l IH]; [reflexivity|]; intros H; cbn [filter].
  pose proof (H a (or_introl eq_refl)) as Ha.
  assert (IH' := IH (fun x Hx => H x (or_intror Hx))).
  destruct (p a), (q a); try discriminate; cbn [orb List.length]; lia.
Qed.

Lemma filter_none_length {A : Type} (p : A -> bool) (l : list A) :
  List.length (filter p l) = 0 <-> forallb (fun x => negb (p x)) l = true.
Proof.
  induction l as [|a l IH]; [easy|]; cbn [filter forallb].
  destruct (p a); cbn [negb andb List.length]; [easy|exact IH].
Qed.

Section Ranges.

Context {ops : FrameOps}.
Variable contracts : Contracts.
Variable df : DataFrame.

(** An entry of the range results comes from a rule of the schema with a
    bound, on a column of the frame. *)
Lemma ranges_of_entry (items : list (pystr * ColumnRule))
    (results : list (pystr * RangeResult)) (col : pystr) (r : RangeResult) :
  ranges_of df items = Done results -> In (col, r) results ->
  exists rule s,
    In (col, rule) items /\ getitem df col = Some s
    /\ has_range rule = true /\ range_entry df s rule = Done r.
Proof.
  revert results; induction items as [|[c rule] items IH]; intros results;
    cbn [ranges_of].
  - intros [= <-] [].
  - destruct (getitem df c) as [s|] eqn:Hg.
    + destruct (has_range rule) eqn:Hr.
      * destruct (range_entry df s rule) as [e|] eqn:He; [|discriminate].
        cbn [andthen].
        destruct (ranges_of df items) as [rest|]; [|discriminate].
        cbn [andthen]; intros [= <-] [H|H].
        -- injection H as Hc Hr'; subst c e; exists rule, s.
           repeat split; [now left|assumption..].
        -- destruct (IH rest eq_refl H) as (rule' & s' & Hi & Hs);
             exists rule', s'; split; [now right|exact Hs].
      * intros E H; destruct (IH _ E H) as (rule' & s' & Hi & Hs);
          exists rule', s'; split; [now right|exact Hs].
    + intros E H; destruct (IH _ E H) as (rule' & s' & Hi & Hs);
        exists rule', s'; split; [now right|exact Hs].
Qed.

(** The entry of a numeric column: the violations are the values below the
    lower bound and the values above the upper bound. *)
Lemma range_entry_numeric (l : list (option Q)) (rule : ColumnRule)
    (r : RangeResult) :
  range_entry df (NumCol l) rule = Done r ->
  violations r
  = List.length (filter (fun x => match flatten (min_value rule) with
                                  | Some m => lt_bool x m
                                  | None => false
                                  end) (present l))
    + List.length (filter (fun x => match flatten (max_value rule) with
                                    | Some M => lt_bool M x
                                    | None => false
                                    end) (present l))
  /\ range_passes r = (violations r =? 0).
Proof.
  unfold range_entry; cbn zeta.
  assert (Z : forall k : list Q, List.length (filter (fun _ => false) k) = 0)
    by (intros k; induction k; auto).
  destruct (flatten (min_value rule)) as [m|], (flatten (max_value rule)) as [M|];
    cbn [count_selected andthen selects];
    destruct (nrows df); cbn [andthen]; try discriminate;
    intros [= <-]; cbn [violations range_passes]; rewrite ?Z; split; reflexivity.
Qed.

(** X19: the range check of a numeric column passes exactly when every cell
    that is not missing lies within the bounds of its rule; missing cells
    never count as violations. *)
Theorem X19_range_verdict (results : list (pystr * RangeResult))
    (col : pystr) (r : RangeResult) (l : list (option Q)) :
  check_value_ranges contracts df = Done results ->
  In (col, r) results -> getitem df col = Some (NumCol l) ->
  exists rule,
    In (col, rule) (schema contracts)
    /\ range_passes r = forallb (within rule) (present l).
Proof.
  intros Hc Hin Hg.
  destruct (ranges_of_entry _ _ _ _ Hc Hin) as (rule & s & Hi & Hs & _ & He).
  rewrite Hg in Hs; injection Hs as <-.
  exists rule; split; [assumption|].
  destruct (range_entry_numeric _ _ _ He) as [Hv ->]; rewrite Hv; clear Hv.
  unfold within; induction (present l) as [|x k IH]; [reflexivity|].
  cbn [filter forallb].
  destruct (flatten (min_value rule)) as [m|], (flatten (max_value rule)) as [M|];
    unfold lt_bool in *;
    repeat match goal with
    | |- context [Qle_bool ?a ?b] => destruct (Qle_bool a b)
    end; cbn [negb andb List.length] in *; try exact IH;
    try (rewrite Nat.add_succ_r); try reflexivity.
Qed.

(** X20: when the lower bound of the rule is not above the upper bound, no
    cell is counted twice: the violations of a numeric column are the cells
    that are not missing and not within the bounds; whatever the bounds,
    they are at most twice the cells. *)
Theorem X20_range_violations_counted (results : list (pystr * RangeResult))
    (col : pystr) (r : RangeResult) (l : list (option Q)) :
  check_value_ranges contracts df = Done results ->
  In (col, r) results -> getitem df col = Some (NumCol l) ->
  exists rule,
    In (col, rule) (schema contracts)
    /\ (bounds_ordered rule = true ->
        violations r
        = List.length (filter (fun x => negb (within rule x)) (present l)))
    /\ violations r <= 2 * List.length l.
Proof.
  intros Hc Hin Hg.
  destruct (ranges_of_entry _ _ _ _ Hc Hin) as (rule & s & Hi & Hs & _ & He).
  rewrite Hg in Hs; injection Hs as <-.
  exists rule; split; [assumption|].
  destruct (range_entry_numeric _ _ _ He) as [Hv _]; rewrite Hv; split.
  - intros Ho; rewrite filter_disjoint_length.
    + f_equal; apply filter_ext; intros x; unfold within, lt_bool.
      destruct (flatten (min_value rule)) as [m|],
        (flatten (max_value rule)) as [M|]; cbn [andb orb negb];
        rewrite ?negb_andb, ?andb_true_r, ?orb_false_r; reflexivity.
    + intros x _; unfold bounds_ordered, lt_bool in *.
      destruct (flatten (min_value rule)) as [m|],
        (flatten (max_value rule)) as [M|];
        rewrite ?andb_false_r; try reflexivity.
      destruct (Qle_bool m x) eqn:E1; [reflexivity|].
      destruct (Qle_bool x M) eqn:E2; [reflexivity|exfalso].
      apply Qle_bool_iff in Ho.
      destruct (Qlt_le_dec x m) as [H1|H1];
        [|apply Qle_bool_iff in H1; congruence].
      destruct (Qlt_le_dec M x) as [H2|H2];
        [|apply Qle_bool_iff in H2; congruence].
      apply (Qlt_irrefl x).
      apply Qlt_le_trans with m; [assumption|].
      apply Qle_trans with M; [assumption|now apply Qlt_le_weak].
  - pose proof (filter_length_le
                  (fun x => match flatten (min_value rule) with
                            | Some m => lt_bool x m | None => false end)
                  (present l)).
    pose proof (filter_length_le
                  (fun x => match flatten (max_value rule) with
                            | Some M => lt_bool M x | None => false end)
                  (present l)).
    pose proof (present_length l); lia.
Qed.

End Ranges.

Lemma X19_witness :
  exists results r rule,
    check_value_ranges (ops := reference_ops) sample_contracts Reference.sample_data
    = Done results
    /\ In (str "Quantity", r) results
    /\ getitem Reference.sample_data (str "Quantity")
       = Some (Reference.ints [2; 3; 1; 5]%Z)
    /\ In (str "Quantity", rule) (schema sample_contracts)
    /\ range_passes r = false
    /\ range_passes r
       = forallb (within rule) (present (map (fun z => Some (inject_Z z)) [2; 3; 1; 5]%Z)).
Proof.
  eexists _, _.
  assert (E : check_value_ranges (ops := reference_ops) sample_contracts
                Reference.sample_data = Done _) by (vm_compute; reflexivity).
  assert (Hin : In (str "Quantity", _)
                   (match check_value_ranges (ops := reference_ops) sample_contracts
                            Reference.sample_data with
                    | Done l => l
                    | Fail _ => []
                    end)) by (left; reflexivity).
  destruct (X19_range_verdict (ops := reference_ops) sample_contracts
              Reference.sample_data _ (str "Quantity") _ _ E Hin eq_refl)
    as (rule & Hr & Hp).
  exists rule; split; [exact E|split; [exact Hin|split; [reflexivity|]]].
  split; [exact Hr|split; [reflexivity|exact Hp]].
Defined.

Lemma X20_witness :
  exists results r rule,
    check_value_ranges (ops := reference_ops) sample_contracts Reference.sample_data
    = Done results
    /\ In (str "Quantity", r) results
    /\ In (str "Quantity", rule) (schema sample_contracts)
    /\ bounds_ordered rule = true
    /\ violations r = 1
    /\ violations r
       = List.length (filter (fun x => negb (within rule x))
                        (present (map (fun z => Some (inject_Z z)) [2; 3; 1; 5]%Z))).
Proof.
  eexists _, _.
  assert (E : check_value_ranges (ops := reference_ops) sample_contracts
                Reference.sample_data = Done _) by (vm_compute; reflexivity).
  assert (Hin : In (str "Quantity", _)
                   (match check_value_ranges (ops := reference_ops) sample_contracts
                            Reference.sample_data with
                    | Done l => l
                    | Fail _ => []
                    end)) by (left; reflexivity).
  destruct (X20_range_violations_counted (ops := reference_ops) sample_contracts
              Reference.sample_data _ (str "Quantity") _ _ E Hin eq_refl)
    as (rule & Hr & Hp & _).
  exists rule; split; [exact E|split; [exact Hin|split; [exact Hr|]]].
  assert (Ho : bounds_ordered rule = true).
  { cbn in Hr; destruct Hr as [Hr|[Hr|[Hr|[Hr|[]]]]];
      try discriminate Hr; injection Hr as <-; reflexivity. }
  split; [exact Ho|split; [reflexivity|exact (Hp Ho)]].
Defined.

(** ** Consistency rules *)

Lemma getitem_setitem_same (df : DataFrame) (n : pystr) (s : Series) :
  getitem (setitem df n s) n = Some s.
Proof.
  induction df as [|[m old] df IH]; cbn [setitem getitem].
  - now rewrite pystr_eqb_refl.
  - destruct (PyStr.eqb n m) eqn:E; cbn [getitem]; rewrite E; [reflexivity|exact IH].
Qed.

Lemma getitem_setitem_other (df : DataFrame) (n m : pystr) (s : Series) :
  m <> n -> getitem (setitem df n s) m = getitem df m.
Proof.
  intros Hm.
  assert (Hf : PyStr.eqb m n = false).
  { destruct (PyStr.eqb m n) eqn:E; [|reflexivity].
    now apply pystr_eqb_eq in E. }
  induction df as [|[k old] df IH]; cbn [setitem getitem].
  - now rewrite Hf.
  - destruct (PyStr.eqb n k) eqn:E; cbn [getitem].
    + apply pystr_eqb_eq in E; subst k; now rewrite Hf.
    + now rewrite IH.
Qed.

Lemma in_assign {A : Type} (d : list (pystr * A)) (k n : pystr) (v r : A) :
  In (n, r) (assign d k v) -> (n = k /\ r = v) \/ In (n, r) d.
Proof.
  induction d as [|[k' old] d IH]; cbn [assign].
  - intros [[= <- <-]|[]]; now left.
  - destruct (PyStr.eqb k k') eqn:E.
    + apply pystr_eqb_eq in E; subst k'.
      intros [[= <- <-]|H]; [now left|right; now right].
    + intros [H|H]; [right; now left|].
      destruct (IH H) as [H'|H']; [now left|right; now right].
Qed.

Lemma assign_keys {A : Type} (d : list (pystr * A)) (k : pystr) (v : A) :
  NoDup (map fst d) -> NoDup (map fst (assign d k v)).
Proof.
  assert (Hk : forall d' : list (pystr * A), forall n,
             In n (map fst (assign d' k v)) -> n = k \/ In n (map fst d')).
  { intros d' n H; apply in_map_iff in H as ([n' r] & <- & H).
    destruct (in_assign _ _ _ _ _ H) as [[-> _]|H']; [now left|right].
    apply in_map_iff; now exists (n', r). }
  induction d as [|[k' old] d IH]; cbn [assign map fst]; intros H.
  - constructor; [easy|constructor].
  - inversion H as [|? ? Hn Hd]; subst.
    destruct (PyStr.eqb k k') eqn:E; cbn [map fst]; [exact H|].
    constructor; [|now apply IH].
    intros Hin; destruct (Hk _ _ Hin) as [->|Hin']; [|contradiction].
    now rewrite pystr_eqb_refl in E.
Qed.

Lemma filter_id_map {A : Type} (f : A -> bool) (l : list A) :
  List.length (filter id (map f l)) = List.length (filter f l).
Proof.
  induction l as [|a l IH]; [reflexivity|]; cbn [map filter]; unfold id at 1.
  destruct (f a); cbn [List.length]; now rewrite IH.
Qed.

Section Consistency.

Context {ops : FrameOps}.

(** What one turn of the loop does, by the name of the rule. *)
Lemma consistency_step_cases (df : DataFrame)
    (results : list (pystr * ConsistencyResult)) (name text : pystr)
    (st : DataFrame * list (pystr * ConsistencyResult)) :
  consistency_step df results name text = Done st ->
  (name = str "cancellation_quantity_match"
   /\ exists cells quantity found,
        getitem df (str "InvoiceNo") = Some (ObjCol cells)
        /\ getitem df (str "Quantity") = Some quantity
        /\ count_selected Above
             (select_series (map starts_with_C cells) quantity) 0 = Done found
        /\ st = (df, assign results name
                       (outcome text found
                          (List.length (filter id (map starts_with_C cells))))))
  \/ (name = str "positive_price"
      /\ exists price found,
           getitem df (str "UnitPrice") = Some price
           /\ count_selected Below price 0 = Done found
           /\ st = (df, assign results name (outcome text found (nrows df))))
  \/ (name = str "valid_transaction_value"
      /\ exists quantity price value found,
           getitem df (str "Quantity") = Some quantity
           /\ getitem df (str "UnitPrice") = Some price
           /\ times quantity price = Done value
           /\ count_selected AbsAbove value 100000 = Done found
           /\ st = (setitem df (str "TransactionValue") value,
                    assign results name
                      (outcome text found
                         (nrows (setitem df (str "TransactionValue") value)))))
  \/ (is_in name [str "cancellation_quantity_match"; str "positive_price";
                  str "valid_transaction_value"] = false
      /\ st = (df, results)).
Proof.
  unfold consistency_step, column, is_in; cbn [existsb].
  destruct (PyStr.eqb name (str "cancellation_quantity_match")) eqn:E1.
  { apply pystr_eqb_eq in E1; left; split; [exact E1|].
    destruct (getitem df (str "InvoiceNo")) as [[|cells]|]; cbn [andthen] in *;
      try discriminate.
    destruct (getitem df (str "Quantity")) as [quantity|]; cbn [andthen] in *;
      try discriminate.
    destruct (count_selected Above _ 0) as [found|] eqn:Ec; cbn [andthen] in *;
      try discriminate.
    injection H as <-; exists cells, quantity, found; auto. }
  destruct (PyStr.eqb name (str "positive_price")) eqn:E2.
  { apply pystr_eqb_eq in E2; right; left; split; [exact E2|].
    destruct (getitem df (str "UnitPrice")) as [price|]; cbn [andthen] in *;
      try discriminate.
    destruct (count_selected Below price 0) as [found|] eqn:Ec;
      cbn [andthen] in *; try discriminate.
    injection H as <-; exists price, found; auto. }
  destruct (PyStr.eqb name (str "valid_transaction_value")) eqn:E3.
  { apply pystr_eqb_eq in E3; right; right; left; split; [exact E3|].
    destruct (getitem df (str "Quantity")) as [quantity|]; cbn [andthen] in *;
      try discriminate.
    destruct (getitem df (str "UnitPrice")) as [price|]; cbn [andthen] in *;
      try discriminate.
    destruct (times quantity price) as [value|] eqn:Et; cbn [andthen] in *;
      try discriminate.
    destruct (count_selected AbsAbove value 100000) as [found|] eqn:Ec;
      cbn [andthen] in *; try discriminate.
    injection H as <-; exists quantity, price, value, found; auto. }
  intros [= <-]; right; right; right; auto.
Qed.

(** An invariant of the frame and the results that every turn keeps holds
    when the loop ends. *)
Lemma consistency_loop_inv
    (I : DataFrame -> list (pystr * ConsistencyResult) -> Prop)
    (rules0 : list (pystr * pystr)) :
  (forall df res name text st,
      In (name, text) rules0 -> I df res ->
      consistency_step df res name text = Done st -> I (fst st) (snd st)) ->
  forall rules df res st,
    incl rules rules0 -> I df res ->
    consistency_loop rules df res = Done st -> I (fst st) (snd st).
Proof.
  intros Hstep rules; induction rules as [|[name text] rules IH];
    intros df res st Hi HI; cbn [consistency_loop].
  - now intros [= <-].
  - destruct (consistency_step df res name text) as [st1|] eqn:E;
      cbn [andthen]; [|discriminate].
    apply IH; [intros x Hx; apply Hi; now right|].
    apply (Hstep df res name text); auto; apply Hi; now left.
Qed.

(** Two rule names that differ. *)
Ltac other_name :=
  match goal with
  | H : str _ = str _ |- _ => vm_compute in H; discriminate H
  | H : ?n = str _, H' : ?n = str _ |- _ =>
      rewrite H in H'; vm_compute in H'; discriminate H'
  | H : ?n = str _, H' : str _ = ?n |- _ =>
      rewrite H in H'; vm_compute in H'; discriminate H'
  | H : ?n = str _, H' : is_in ?n _ = false |- _ =>
      rewrite H in H'; vm_compute in H'; discriminate H'
  end.

Variable contracts : Contracts.
Variable df : DataFrame.

(** The columns other than the transaction value are those of [df]. *)
Let same_columns (df' : DataFrame) : Prop :=
  forall n, n <> str "TransactionValue" -> getitem df' n = getitem df n.

Lemma step_same_columns (df1 : DataFrame)
    (res : list (pystr * ConsistencyResult)) (name text : pystr)
    (st : DataFrame * list (pystr * ConsistencyResult)) :
  same_columns df1 -> consistency_step df1 res name text = Done st ->
  same_columns (fst st).
Proof.
  intros Hs H.
  destruct (consistency_step_cases _ _ _ _ _ H)
    as [(_ & c & q & f & _ & _ & _ & ->)
       |[(_ & p & f & _ & _ & ->)
        |[(_ & q & p & v & f & _ & _ & _ & _ & ->)|(_ & ->)]]];
    cbn [fst]; try exact Hs.
  intros n Hn; rewrite getitem_setitem_other by exact Hn; now apply Hs.
Qed.

(** X21: a contract without the rule [valid_transaction_value] leaves the
    frame as it was: [check_consistency] returns with the frame it was
    given. *)
Theorem X21_frame_kept_without_transaction_rule (df' : DataFrame)
    (results : list (pystr * ConsistencyResult)) :
  is_in (str "valid_transaction_value") (map fst (consistency contracts)) = false ->
  check_consistency contracts df = Done (df', results) ->
  df' = df.
Proof.
  intros Hn H.
  apply (consistency_loop_inv (fun d _ => d = df) (consistency contracts))
    with (rules := consistency contracts) (df := df) (res := [])
         (st := (df', results)); [|apply incl_refl|reflexivity|exact H].
  intros d res name text st Hin -> Hs.
  destruct (consistency_step_cases _ _ _ _ _ Hs)
    as [(_ & c & q & f & _ & _ & _ & ->)
       |[(_ & p & f & _ & _ & ->)
        |[(Hname & _)|(_ & ->)]]]; try reflexivity.
  exfalso; subst name.
  assert (Ht : is_in (str "valid_transaction_value")
                 (map fst (consistency contracts)) = true).
  { apply existsb_exists; exists (str "valid_transaction_value"); split;
      [|apply pystr_eqb_refl].
    apply in_map_iff; now exists (str "valid_transaction_value", text). }
  congruence.
Qed.

(** Once the rule [valid_transaction_value] has had its turn, the frame
    holds the products of quantity and price. *)
Lemma transaction_value_set (q p : list (option Q))
    (rules : list (pystr * pystr)) :
  forall (df1 : DataFrame) (res : list (pystr * ConsistencyResult))
         (st : DataFrame * list (pystr * ConsistencyResult)),
    consistency_loop rules df1 res = Done st ->
    getitem df1 (str "Quantity") = Some (NumCol q) ->
    getitem df1 (str "UnitPrice") = Some (NumCol p) ->
    is_in (str "valid_transaction_value") (map fst rules) = true
    \/ getitem df1 (str "TransactionValue") = Some (NumCol (num_mul q p)) ->
    getitem (fst st) (str "TransactionValue") = Some (NumCol (num_mul q p))
    /\ forall n, n <> str "TransactionValue" ->
                 getitem (fst st) n = getitem df1 n.
Proof.
  induction rules as [|[name text] rules IH]; intros df1 res st;
    cbn [consistency_loop].
  - intros [= <-] _ _ [H|H]; [discriminate|]; cbn [fst]; auto.
  - destruct (consistency_step df1 res name text) as [st1|] eqn:E;
      cbn [andthen]; [|discriminate].
    intros Hl Hq Hp Hv.
    assert (Hrest : name <> str "valid_transaction_value" ->
                is_in (str "valid_transaction_value") (map fst rules) = true
                \/ getitem df1 (str "TransactionValue")
                   = Some (NumCol (num_mul q p))).
    { intros Hn; destruct Hv as [Hv|Hv]; [left|now right].
      unfold is_in in *; cbn [map fst existsb] in Hv.
      apply orb_true_iff in Hv as [Hv|Hv]; [|exact Hv].
      apply pystr_eqb_eq in Hv; congruence. }
    destruct (consistency_step_cases _ _ _ _ _ E)
      as [(Hn & c & qq & f & _ & _ & _ & ->)
         |[(Hn & pp & f & _ & _ & ->)
          |[(Hn & qq & pp & v & f & Gq & Gp & Ht & _ & ->)|(Hn & ->)]]];
      cbn [fst snd] in Hl.
    + apply (IH _ _ _ Hl Hq Hp), Hrest; intros Hx; other_name.
    + apply (IH _ _ _ Hl Hq Hp), Hrest; intros Hx; other_name.
    + rewrite Hq in Gq; injection Gq as <-.
      rewrite Hp in Gp; injection Gp as <-.
      cbn [times] in Ht; injection Ht as <-.
      assert (Dq : str "Quantity" <> str "TransactionValue")
        by (intros Hx; other_name).
      assert (Dp : str "UnitPrice" <> str "TransactionValue")
        by (intros Hx; other_name).
      destruct (IH _ _ _ Hl) as [H1 H2].
      * now rewrite getitem_setitem_other.
      * now rewrite getitem_setitem_other.
      * right; apply getitem_setitem_same.
      * split; [exact H1|].
        intros n Hx; rewrite (H2 n Hx); now apply getitem_setitem_other.
    + apply (IH _ _ _ Hl Hq Hp), Hrest; intros Hx; other_name.
Qed.

(** X22: with the rule [valid_transaction_value] in the contract and numeric
    quantity and price columns whose cells are whole numbers with row
    products that sum, in absolute value, to at most 2^53 (no int64 product
    wraps around, no binary64 one is rounded), [check_consistency] changes
    the frame it is given: afterwards the column [TransactionValue] holds
    the row by row products of quantity and price, whole numbers within the
    same bound, and every other column is as before. *)
Theorem X22_transaction_value_column (df' : DataFrame)
    (results : list (pystr * ConsistencyResult)) (q p : list (option Q)) :
  is_in (str "valid_transaction_value") (map fst (consistency contracts)) = true ->
  getitem df (str "Quantity") = Some (NumCol q) ->
  getitem df (str "UnitPrice") = Some (NumCol p) ->
  exact_products q p = true ->
  check_consistency contracts df = Done (df', results) ->
  getitem df' (str "TransactionValue") = Some (NumCol (num_mul q p))
  /\ exact_sum (present (num_mul q p)) = true
  /\ forall n, n <> str "TransactionValue" -> getitem df' n = getitem df n.
Proof.
  intros Hr Hq Hp He H.
  destruct (transaction_value_set q p _ _ _ _ H Hq Hp (or_introl Hr)) as [H1 H2].
  split; [exact H1|split; [|exact H2]].
  rewrite present_num_mul; now apply exact_products_sum.
Qed.

(** X23: after a check with the rule [valid_transaction_value] on numeric
    quantity and price columns, the formula [sum(TransactionValue)] on the
    changed frame gives what [sum(Quantity * UnitPrice)] gives on the frame
    as it was. *)
Theorem X23_sum_of_transaction_value {rt : Runtime} (df' : DataFrame)
    (results : list (pystr * ConsistencyResult)) (q p : list (option Q)) :
  is_in (str "valid_transaction_value") (map fst (consistency contracts)) = true ->
  getitem df (str "Quantity") = Some (NumCol q) ->
  getitem df (str "UnitPrice") = Some (NumCol p) ->
  check_consistency contracts df = Done (df', results) ->
  parse_and_execute df' (str "sum(TransactionValue)")
  = parse_and_execute df (str "sum(Quantity * UnitPrice)").
Proof.
  intros Hr Hq Hp H.
  destruct (transaction_value_set q p _ _ _ _ H Hq Hp (or_introl Hr)) as [Hv _].
  cbn [fst] in Hv.
  change (str "sum(TransactionValue)")
    with (call (str "sum") (str "TransactionValue")).
  rewrite (single_present df' (str "sum") (str "TransactionValue") _
             (or_introl eq_refl) eq_refl eq_refl Hv).
  change (str "sum(Quantity * UnitPrice)")
    with (call (str "sum") (str "Quantity" ++ str " * " ++ str "UnitPrice")).
  rewrite (product_reduced df (str "sum") (str "Quantity") (str "UnitPrice") q p
             (or_introl eq_refl) eq_refl eq_refl eq_refl eq_refl eq_refl eq_refl
             Hq Hp).
  reflexivity.
Qed.

Lemma forallb_same {A : Type} (f g : A -> bool) (l : list A) :
  (forall x, f x = g x) -> forallb f l = forallb g l.
Proof.
  intros H; induction l as [|a l IH]; [reflexivity|]; cbn [forallb].
  now rewrite H, IH.
Qed.

Lemma none_selected {A : Type} (p : A -> bool) (l : list A) :
  (List.length (filter p l) =? 0) = forallb (fun x => negb (p x)) l.
Proof.
  induction l as [|a l IH]; [reflexivity|]; cbn [filter forallb].
  destruct (p a); cbn [negb andb List.length]; [reflexivity|exact IH].
Qed.

(** X24: the rule [positive_price] passes exactly when no price that is
    present is below zero; its violations are the negative prices, and a
    missing price is none. *)
Theorem X24_positive_price_verdict (df' : DataFrame)
    (results : list (pystr * ConsistencyResult)) (r : ConsistencyResult)
    (l : list (option Q)) :
  check_consistency contracts df = Done (df', results) ->
  In (str "positive_price", r) results ->
  getitem df (str "UnitPrice") = Some (NumCol l) ->
  rule_passes r = forallb (fun x => Qle_bool 0 x) (present l)
  /\ rule_violations r
     = List.length (filter (fun x => negb (Qle_bool 0 x)) (present l)).
Proof.
  intros H Hin Hg.
  pose (ok := fun r : ConsistencyResult =>
          rule_passes r = forallb (fun x => Qle_bool 0 x) (present l)
          /\ rule_violations r
             = List.length (filter (fun x => negb (Qle_bool 0 x)) (present l))).
  assert (Hinv : same_columns (fst (df', results))
                 /\ forall r', In (str "positive_price", r') (snd (df', results))
                               -> ok r').
  { apply (consistency_loop_inv
             (fun d res => same_columns d
                           /\ forall r', In (str "positive_price", r') res -> ok r')
             (consistency contracts))
      with (rules := consistency contracts) (df := df) (res := []);
      [|apply incl_refl|split; [easy|intros ? []]|exact H].
    intros d res name text st _ [Hs Hres] Hstep.
    split; [exact (step_same_columns _ _ _ _ _ Hs Hstep)|].
    destruct (consistency_step_cases _ _ _ _ _ Hstep)
      as [(Hn & c & qq & f & _ & _ & _ & ->)
         |[(Hn & pp & f & Gp & Hc & ->)
          |[(Hn & qq & pp & v & f & _ & _ & _ & _ & ->)|(Hn & ->)]]];
      cbn [snd]; intros r' Hr'; try (now apply Hres);
      destruct (in_assign _ _ _ _ _ Hr') as [[Hx ->]|Hx];
      try (now apply Hres); try other_name.
    rewrite Hs in Gp by (intros Hy; other_name).
    rewrite Hg in Gp; injection Gp as <-.
    cbn [count_selected] in Hc; injection Hc as <-.
    unfold ok, outcome; cbn [rule_passes rule_violations selects]; split.
    - rewrite none_selected; apply forallb_same; intros x; unfold lt_bool.
      apply negb_involutive.
    - reflexivity. }
  exact (proj2 Hinv r Hin).
Qed.

(** X25: the rule [cancellation_quantity_match] looks only at the rows whose
    invoice number starts with the letter C: it passes exactly when none of
    them has a quantity above zero, and it reports as checked the number of
    those rows; a row with a missing invoice number is not one of them. *)
Theorem X25_cancellation_verdict (df' : DataFrame)
    (results : list (pystr * ConsistencyResult)) (r : ConsistencyResult)
    (inv : list (option pystr)) (q : list (option Q)) :
  check_consistency contracts df = Done (df', results) ->
  In (str "cancellation_quantity_match", r) results ->
  getitem df (str "InvoiceNo") = Some (ObjCol inv) ->
  getitem df (str "Quantity") = Some (NumCol q) ->
  rule_passes r
  = forallb (fun x => Qle_bool x 0) (present (select (map starts_with_C inv) q))
  /\ total_checked r = List.length (filter starts_with_C inv).
Proof.
  intros H Hin Hi Hq.
  pose (ok := fun r : ConsistencyResult =>
          rule_passes r
          = forallb (fun x => Qle_bool x 0)
              (present (select (map starts_with_C inv) q))
          /\ total_checked r = List.length (filter starts_with_C inv)).
  assert (Hinv : same_columns (fst (df', results))
                 /\ forall r', In (str "cancellation_quantity_match", r')
                                 (snd (df', results)) -> ok r').
  { apply (consistency_loop_inv
             (fun d res => same_columns d
                           /\ forall r', In (str "cancellation_quantity_match", r')
                                           res -> ok r')
             (consistency contracts))
      with (rules := consistency contracts) (df := df) (res := []);
      [|apply incl_refl|split; [easy|intros ? []]|exact H].
    intros d res name text st _ [Hs Hres] Hstep.
    split; [exact (step_same_columns _ _ _ _ _ Hs Hstep)|].
    destruct (consistency_step_cases _ _ _ _ _ Hstep)
      as [(Hn & c & qq & f & Gi & Gq & Hc & ->)
         |[(Hn & pp & f & _ & _ & ->)
          |[(Hn & qq & pp & v & f & _ & _ & _ & _ & ->)|(Hn & ->)]]];
      cbn [snd]; intros r' Hr'; try (now apply Hres);
      destruct (in_assign _ _ _ _ _ Hr') as [[Hx ->]|Hx];
      try (now apply Hres); try other_name.
    rewrite Hs in Gi by (intros Hy; other_name).
    rewrite Hi in Gi; injection Gi as <-.
    rewrite Hs in Gq by (intros Hy; other_name).
    rewrite Hq in Gq; injection Gq as <-.
    cbn [select_series count_selected] in Hc; injection Hc as <-.
    unfold ok, outcome; cbn [rule_passes total_checked selects]; split.
    - rewrite none_selected; apply forallb_same; intros x; unfold lt_bool.
      apply negb_involutive.
    - apply filter_id_map. }
  exact (proj2 Hinv r Hin).
Qed.

(** X26: a rule of the contract whose name is none of the three that
    [check_consistency] knows is passed over without a result or an error:
    every result belongs to a known rule of the contract and carries its
    description, no name has two results, and so there are at most three. *)
Theorem X26_unknown_rules_skipped (df' : DataFrame)
    (results : list (pystr * ConsistencyResult)) :
  check_consistency contracts df = Done (df', results) ->
  (forall n r, In (n, r) results ->
     is_in n [str "cancellation_quantity_match"; str "positive_price";
              str "valid_transaction_value"] = true
     /\ In (n, description r) (consistency contracts))
  /\ NoDup (map fst results)
  /\ List.length results <= 3.
Proof.
  intros H.
  pose (known := [str "cancellation_quantity_match"; str "positive_price";
                  str "valid_transaction_value"]).
  assert (Hinv : (forall n r, In (n, r) (snd (df', results)) ->
                    is_in n known = true
                    /\ In (n, description r) (consistency contracts))
                 /\ NoDup (map fst (snd (df', results)))).
  { apply (consistency_loop_inv
             (fun _ res => (forall n r, In (n, r) res ->
                              is_in n known = true
                              /\ In (n, description r) (consistency contracts))
                           /\ NoDup (map fst res))
             (consistency contracts))
      with (rules := consistency contracts) (df := df) (res := []);
      [|apply incl_refl|split; [intros ? ? []|constructor]|exact H].
    intros d res name text st Hl [Hres Hnd] Hstep.
    destruct (consistency_step_cases _ _ _ _ _ Hstep)
      as [(Hn & c & qq & f & _ & _ & _ & ->)
         |[(Hn & pp & f & _ & _ & ->)
          |[(Hn & qq & pp & v & f & _ & _ & _ & _ & ->)|(Hn & ->)]]];
      cbn [snd]; try (split; [exact Hres|exact Hnd]);
      (split; [|now apply assign_keys]); intros n r Hr;
      destruct (in_assign _ _ _ _ _ Hr) as [[-> ->]|Hx];
      try (now apply Hres); (split; [now rewrite Hn|exact Hl]). }
  destruct Hinv as [H1 H2]; cbn [snd] in *.
  split; [exact H1|split; [exact H2|]].
  rewrite <- (length_map fst results).
  change 3 with (List.length known).
  apply NoDup_incl_length; [exact H2|].
  intros n Hn; apply in_map_iff in Hn as ([n' r] & <- & Hr).
  destruct (H1 _ _ Hr) as [Hk _]; cbn [fst].
  apply existsb_exists in Hk as (k & Hk & E).
  apply pystr_eqb_eq in E; now subst.
Qed.

(** A rule on the price, on a frame without a price column, raises. *)
Lemma price_rule_raises (rules : list (pystr * pystr)) (name text : pystr) :
  In (name, text) rules ->
  is_in name [str "positive_price"; str "valid_transaction_value"] = true ->
  forall (df1 : DataFrame) (res : list (pystr * ConsistencyResult)),
    getitem df1 (str "UnitPrice") = None ->
    exists e, consistency_loop rules df1 res = Fail e.
Proof.
  intros Hin Hk; induction rules as [|[n t] rules IH]; [destruct Hin|].
  intros df1 res Hg; cbn [consistency_loop].
  destruct (consistency_step df1 res n t) as [st|e] eqn:E; cbn [andthen];
    [|now exists e].
  assert (Hrest : n <> name -> exists e,
             consistency_loop rules (fst st) (snd st) = Fail e
             \/ getitem (fst st) (str "UnitPrice") <> None).
  { intros Hn; destruct Hin as [[= -> ->]|Hin]; [contradiction|].
    destruct (getitem (fst st) (str "UnitPrice")) eqn:G.
    - exists PandasError; right; discriminate.
    - destruct (IH Hin (fst st) (snd st) G) as [e He]; exists e; now left. }
  unfold is_in in Hk; cbn [existsb] in Hk.
  destruct (consistency_step_cases _ _ _ _ _ E)
    as [(Hn & c & qq & f & _ & _ & _ & ->)
       |[(Hn & pp & f & Gp & _ & ->)
        |[(Hn & qq & pp & v & f & _ & Gp & _ & _ & ->)|(Hn & ->)]]];
    try congruence; cbn [fst snd] in *.
  - destruct Hrest as [e [He|He]]; [|now exists e|contradiction].
    intros ->; rewrite Hn in Hk; vm_compute in Hk; discriminate.
  - destruct Hrest as [e [He|He]]; [|now exists e|contradiction].
    intros ->; apply orb_true_iff in Hk as [Hk|Hk];
      [|apply orb_true_iff in Hk as [Hk|Hk]; [|discriminate]];
      apply pystr_eqb_eq in Hk; rewrite Hk in Hn; vm_compute in Hn;
      discriminate.
Qed.

(** X27: when the contract lists [positive_price] or
    [valid_transaction_value] and the frame has no [UnitPrice] column, no
    quality report is produced: [generate_quality_report] raises, although
    [validate_schema] alone reports a missing column as an error of the
    schema. *)
Theorem X27_report_needs_price_column (name text : pystr) :
  In (name, text) (consistency contracts) ->
  is_in name [str "positive_price"; str "valid_transaction_value"] = true ->
  has_column df (str "UnitPrice") = false ->
  (exists e, check_consistency contracts df = Fail e)
  /\ exists e, generate_quality_report contracts df = Fail e.
Proof.
  intros Hin Hk Hc; rewrite has_column_getitem in Hc.
  destruct (getitem df (str "UnitPrice")) eqn:G; [discriminate|].
  destruct (price_rule_raises _ _ _ Hin Hk df [] G) as [e He].
  split; [now exists e|].
  unfold generate_quality_report; cbn zeta.
  destruct (check_value_ranges contracts df) as [ranges|e'];
    cbn [andthen]; [|now exists e'].
  unfold check_consistency in *; rewrite He; now exists e.
Qed.

End Consistency.

Lemma X21_witness :
  exists df' results,
    is_in (str "valid_transaction_value") (map fst (consistency quantity_contracts))
    = false
    /\ check_consistency (ops := reference_ops) quantity_contracts
         Reference.gappy_frame = Done (df', results)
    /\ df' = Reference.gappy_frame.
Proof.
  eexists _, _.
  assert (E : check_consistency (ops := reference_ops) quantity_contracts
                Reference.gappy_frame = Done (_, _)) by (vm_compute; reflexivity).
  split; [reflexivity|split; [exact E|]].
  exact (X21_frame_kept_without_transaction_rule (ops := reference_ops)
           quantity_contracts Reference.gappy_frame _ _ eq_refl E).
Defined.

Lemma X22_witness :
  exists df' results,
    is_in (str "valid_transaction_value") (map fst (consistency sample_contracts))
    = true
    /\ exact_products (map (fun z => Some (inject_Z z)) [2; 3; 1; 5]%Z)
                      (map (fun z => Some (inject_Z z)) [10; 15; 20; 5]%Z) = true
    /\ check_consistency (ops := reference_ops) sample_contracts
         Reference.sample_data = Done (df', results)
    /\ getitem df' (str "TransactionValue") = Some (Reference.ints [20; 45; 20; 25]%Z)
    /\ getitem df' (str "TransactionValue")
       = Some (NumCol (num_mul (map (fun z => Some (inject_Z z)) [2; 3; 1; 5]%Z)
                               (map (fun z => Some (inject_Z z)) [10; 15; 20; 5]%Z)))
    /\ getitem df' (str "Quantity") = getitem Reference.sample_data (str "Quantity").
Proof.
  eexists _, _.
  assert (E : check_consistency (ops := reference_ops) sample_contracts
                Reference.sample_data = Done (_, _)) by (vm_compute; reflexivity).
  split; [reflexivity|split; [reflexivity|split; [exact E|split; [reflexivity|]]]].
  destruct (X22_transaction_value_column (ops := reference_ops) sample_contracts
              Reference.sample_data _ _ _ _ eq_refl eq_refl eq_refl eq_refl E)
    as (H1 & _ & H2).
  split; [exact H1|apply H2; discriminate].
Defined.

Lemma X23_witness :
  exists df' results,
    is_in (str "valid_transaction_value") (map fst (consistency sample_contracts))
    = true
    /\ check_consistency (ops := reference_ops) sample_contracts
         Reference.sample_data = Done (df', results)
    /\ Reference.run df' "sum(TransactionValue)" = Ok (Num 110)
    /\ Reference.run df' "sum(TransactionValue)"
       = Reference.run Reference.sample_data "sum(Quantity * UnitPrice)".
Proof.
  eexists _, _.
  assert (E : check_consistency (ops := reference_ops) sample_contracts
                Reference.sample_data = Done (_, _)) by (vm_compute; reflexivity).
  split; [reflexivity|split; [exact E|split; [reflexivity|]]].
  exact (X23_sum_of_transaction_value (ops := reference_ops)
           (rt := Reference.runtime) sample_contracts
           Reference.sample_data _ _ _ _ eq_refl eq_refl eq_refl E).
Defined.

Lemma X24_witness :
  exists df' results r,
    check_consistency (ops := reference_ops) sample_contracts returns_frame
    = Done (df', results)
    /\ In (str "positive_price", r) results
    /\ rule_passes r = false
    /\ rule_violations r = 1
    /\ rule_passes r
       = forallb (fun x => Qle_bool 0 x)
           (present (map (fun z => Some (inject_Z z)) [3; 4; -5]%Z)).
Proof.
  eexists _, _, _.
  assert (E : check_consistency (ops := reference_ops) sample_contracts
                returns_frame = Done (_, _)) by (vm_compute; reflexivity).
  assert (Hin : In (str "positive_price", _)
                   (match check_consistency (ops := reference_ops) sample_contracts
                            returns_frame with
                    | Done st => snd st
                    | Fail _ => []
                    end)) by (right; left; reflexivity).
  split; [exact E|split; [exact Hin|split; [reflexivity|split; [reflexivity|]]]].
  exact (proj1 (X24_positive_price_verdict (ops := reference_ops) sample_contracts
                  returns_frame _ _ _ _ E Hin eq_refl)).
Defined.

Lemma X25_witness :
  exists df' results r,
    check_consistency (ops := reference_ops) sample_contracts returns_frame
    = Done (df', results)
    /\ In (str "cancellation_quantity_match", r) results
    /\ rule_passes r = false
    /\ total_checked r = 2
    /\ total_checked r
       = List.length (filter starts_with_C
                        (map (fun s => Some (str s)) ["C001"; "002"; "C003"]%string)).
Proof.
  eexists _, _, _.
  assert (E : check_consistency (ops := reference_ops) sample_contracts
                returns_frame = Done (_, _)) by (vm_compute; reflexivity).
  assert (Hin : In (str "cancellation_quantity_match", _)
                   (match check_consistency (ops := reference_ops) sample_contracts
                            returns_frame with
                    | Done st => snd st
                    | Fail _ => []
                    end)) by (left; reflexivity).
  split; [exact E|split; [exact Hin|split; [reflexivity|split; [reflexivity|]]]].
  exact (proj2 (X25_cancellation_verdict (ops := reference_ops) sample_contracts
                  returns_frame _ _ _ _ _ E Hin eq_refl eq_refl)).
Defined.

Lemma X26_witness :
  exists df' results,
    check_consistency (ops := reference_ops) sample_contracts Reference.sample_data
    = Done (df', results)
    /\ List.length (consistency sample_contracts) = 4
    /\ List.length results = 3
    /\ List.length results <= 3.
Proof.
  eexists _, _.
  assert (E : check_consistency (ops := reference_ops) sample_contracts
                Reference.sample_data = Done (_, _)) by (vm_compute; reflexivity).
  split; [exact E|split; [reflexivity|split; [reflexivity|]]].
  exact (proj2 (proj2 (X26_unknown_rules_skipped (ops := reference_ops)
                         sample_contracts Reference.sample_data _ _ E))).
Defined.

Lemma X27_witness :
  In (str "positive_price", str "prices are not negative")
     (consistency quantity_contracts)
  /\ has_column empty_frame (str "UnitPrice") = false
  /\ (fst (validate_schema (ops := reference_ops) quantity_contracts empty_frame)
      = true)
  /\ exists e,
       generate_quality_report (ops := reference_ops) quantity_contracts empty_frame
       = Fail e.
Proof.
  assert (Hin : In (str "positive_price", str "prices are not negative")
                   (consistency quantity_contracts)) by (left; reflexivity).
  split; [exact Hin|split; [reflexivity|split; [reflexivity|]]].
  exact (proj2 (X27_report_needs_price_column (ops := reference_ops)
                  quantity_contracts empty_frame _ _ Hin eq_refl eq_refl)).
Defined.

(** ** The quality report *)

Lemma tally_spec (flags : list bool) (t p : nat) :
  tally flags (t, p)
  = (t + List.length flags, p + List.length (filter id flags)).
Proof.
  unfold tally; revert t p; induction flags as [|b flags IH]; intros t p;
    cbn [fold_left List.length filter fst snd].
  - f_equal; lia.
  - rewrite IH; unfold id at 2; destruct b; cbn [b2n List.length]; f_equal; lia.
Qed.

Lemma le_div_iff (a b c : Q) : (0 < b -> (c <= a / b <-> c * b <= a))%Q.
Proof.
  intros Hb; rewrite <- (Qmult_le_r c (a / b) b Hb).
  assert (E : (a / b * b == a)%Q) by (field; intros E; rewrite E in Hb;
    now apply Qlt_irrefl in Hb).
  now rewrite E.
Qed.

Lemma of_nat_le (a b : nat) : (of_nat a <= of_nat b)%Q <-> a <= b.
Proof.
  unfold of_nat; rewrite <- Zle_Qle; lia.
Qed.

Section Report.

Context {ops : FrameOps}.
Variable contracts : Contracts.
Variable df : DataFrame.

(** The counts of a report, the score and the recommendation in terms of
    its parts. *)
Lemma report_counts (df' : DataFrame) (rep : Report) :
  generate_quality_report contracts df = Done (df', rep) ->
  total_checks rep
  = 1 + List.length (report_completeness rep) + List.length (value_ranges rep)
    + List.length (report_consistency rep)
  /\ passed_checks rep <= total_checks rep
  /\ failed_checks rep = total_checks rep - passed_checks rep
  /\ overall_quality_score rep
     = (of_nat (passed_checks rep) / of_nat (total_checks rep))%Q
  /\ report_recommendation rep
     = _get_recommendation contracts (overall_quality_score rep).
Proof.
  unfold generate_quality_report; cbn zeta.
  generalize (validate_schema contracts df); intros sv.
  generalize (check_completeness contracts df); intros done.
  destruct (check_value_ranges contracts df) as [ranges|]; cbn [andthen];
    [|discriminate].
  destruct (check_consistency contracts df) as [state|]; cbn [andthen];
    [|discriminate].
  rewrite !tally_spec; cbn [fst snd]; rewrite !length_map.
  intros [= _ <-];
    cbn [total_checks passed_checks failed_checks overall_quality_score
         report_completeness value_ranges report_consistency
         report_recommendation].
  pose proof (filter_length_le id (map (fun r => passes (snd r)) done)).
  pose proof (filter_length_le id (map (fun r => range_passes (snd r)) ranges)).
  pose proof (filter_length_le id (map (fun r => rule_passes (snd r)) (snd state))).
  rewrite !length_map in *.
  assert (Hb : b2n (fst sv) <= 1) by (destruct (fst sv); cbn; lia).
  split; [lia|split; [lia|split; [reflexivity|split; reflexivity]]].
Qed.

(** X28: a report counts one check for the schema and one for every entry
    of the completeness, range and consistency results; passed and failed
    checks add up to the total; the score is the share of passed checks, it
    lies between 0 and 1 and is 1 exactly when no check failed. *)
Theorem X28_report_counts (df' : DataFrame) (rep : Report) :
  generate_quality_report contracts df = Done (df', rep) ->
  total_checks rep
  = 1 + List.length (report_completeness rep) + List.length (value_ranges rep)
    + List.length (report_consistency rep)
  /\ passed_checks rep + failed_checks rep = total_checks rep
  /\ (overall_quality_score rep
      == of_nat (passed_checks rep) / of_nat (total_checks rep))%Q
  /\ (0 <= overall_quality_score rep <= 1)%Q
  /\ (failed_checks rep = 0 <-> (overall_quality_score rep == 1)%Q).
Proof.
  intros H; destruct (report_counts _ _ H) as (Ht & Hp & Hf & Hs & _).
  destruct (total_checks rep) as [|t] eqn:E; [lia|].
  pose proof (of_nat_pos t) as Hpos.
  split; [lia|split; [lia|split; [rewrite Hs; apply Qeq_refl|]]].
  rewrite Hs; split; [split|].
  - apply le_div_iff; [exact Hpos|]; rewrite Qmult_0_l.
    change 0%Q with (of_nat 0); apply of_nat_le; lia.
  - apply div_le_iff; [exact Hpos|]; rewrite Qmult_1_l; now apply of_nat_le.
  - split.
    + intros Hz; assert (Heq : passed_checks rep = S t) by lia.
      rewrite Heq; field; intros Hx; rewrite Hx in Hpos;
        now apply Qlt_irrefl in Hpos.
    + intros Hone.
      assert (Hle : (1 <= of_nat (passed_checks rep) / of_nat (S t))%Q)
        by (rewrite Hone; apply Qle_refl).
      apply le_div_iff in Hle; [|exact Hpos]; rewrite Qmult_1_l in Hle.
      apply of_nat_le in Hle; lia.
Qed.

(** X29: the recommendation of a report is the pass message exactly when
    the passed checks are at least the minimum share of all checks.  With a
    minimum of at most 1 a report without failed checks passes; with a
    minimum above 1 no report does. *)
Theorem X29_recommendation (df' : DataFrame) (rep : Report) :
  generate_quality_report contracts df = Done (df', rep) ->
  (report_recommendation rep = PassMessage
   <-> (minimum_score contracts * of_nat (total_checks rep)
        <= of_nat (passed_checks rep))%Q)
  /\ (failed_checks rep = 0 -> (minimum_score contracts <= 1)%Q ->
      report_recommendation rep = PassMessage)
  /\ ((1 < minimum_score contracts)%Q ->
      report_recommendation rep
      = FailMessage (overall_quality_score rep) (minimum_score contracts)).
Proof.
  intros H; destruct (report_counts _ _ H) as (Ht & Hp & Hf & Hs & Hr).
  destruct (total_checks rep) as [|t] eqn:E; [lia|].
  pose proof (of_nat_pos t) as Hpos.
  assert (Hiff : report_recommendation rep = PassMessage
                 <-> (minimum_score contracts * of_nat (S t)
                      <= of_nat (passed_checks rep))%Q).
  { rewrite Hr, Hs; unfold _get_recommendation; cbn zeta.
    rewrite <- (le_div_iff _ _ _ Hpos), <- Qle_bool_iff.
    destruct (Qle_bool _ _); split; intros Hx; try reflexivity;
      discriminate Hx. }
  split; [exact Hiff|split].
  - intros Hz Hm; apply Hiff.
    assert (Heq : passed_checks rep = S t) by lia; rewrite Heq.
    rewrite <- (Qmult_1_l (of_nat (S t))) at 2.
    apply Qmult_le_compat_r; [exact Hm|now apply Qlt_le_weak].
  - intros Hm; rewrite Hr; unfold _get_recommendation; cbn zeta.
    destruct (Qle_bool _ _) eqn:Hb; [exfalso|reflexivity].
    apply Qle_bool_iff in Hb; rewrite Hs in Hb.
    apply le_div_iff in Hb; [|exact Hpos].
    apply of_nat_le in Hp.
    apply (Qlt_irrefl (of_nat (S t))).
    apply Qlt_le_trans with (minimum_score contracts * of_nat (S t))%Q.
    + rewrite <- (Qmult_1_l (of_nat (S t))) at 1.
      now apply Qmult_lt_compat_r.
    + now apply Qle_trans with (of_nat (passed_checks rep)).
Qed.

End Report.

Lemma X28_witness :
  exists df' rep,
    generate_quality_report (ops := reference_ops) sample_contracts
      Reference.sample_data = Done (df', rep)
    /\ total_checks rep = 7 /\ passed_checks rep = 5
    /\ passed_checks rep + failed_checks rep = total_checks rep
    /\ (0 <= overall_quality_score rep <= 1)%Q.
Proof.
  eexists _, _.
  assert (E : generate_quality_report (ops := reference_ops) sample_contracts
                Reference.sample_data = Done (_, _)) by (vm_compute; reflexivity).
  split; [exact E|split; [reflexivity|split; [reflexivity|]]].
  destruct (X28_report_counts (ops := reference_ops) sample_contracts
              Reference.sample_data _ _ E) as (_ & H1 & _ & H2 & _).
  split; [exact H1|exact H2].
Defined.

Lemma X29_witness :
  exists df' rep,
    generate_quality_report (ops := reference_ops) sample_contracts
      Reference.sample_data = Done (df', rep)
    /\ report_recommendation rep = FailMessage (5 # 7) (4 # 5)
    /\ (report_recommendation rep = PassMessage
        <-> (minimum_score sample_contracts * of_nat (total_checks rep)
             <= of_nat (passed_checks rep))%Q).
Proof.
  eexists _, _.
  assert (E : generate_quality_report (ops := reference_ops) sample_contracts
                Reference.sample_data = Done (_, _)) by (vm_compute; reflexivity).
  split; [exact E|split; [reflexivity|]].
  exact (proj1 (X29_recommendation (ops := reference_ops) sample_contracts
                  Reference.sample_data _ _ E)).
Defined.
